(** * tube-ai: command dispatch and session lifecycle

    A shallow embedding of the server module of the bot (message
    classification, the command registry, command dispatch, the Mongo
    helpers and the per-connection event handlers) and of the [promote]
    plugin, followed by the properties of the specification that are
    checked against it.

    Conventions of the embedding.
    - A JavaScript string is the Rocq [string] of its bytes in UTF-8, a
      lone surrogate being encoded like any other code point of three
      bytes.  The string methods that the source calls ([startsWith],
      [endsWith], [includes], [split], [slice], [length], [trim],
      [replace]) are written out below on this encoding: [length] and
      [slice] count UTF-16 code units, [trim] removes the white space and
      the line terminators of ECMAScript.  [toLowerCase], the case mapping
      of the runtime, is no part of the program and is a parameter of the
      model ([toLowerCase] of [Env]).  [toUpperCase] is applied to the
      name of a field of the decoded message only, an identifier of ASCII
      letters, and is written out on the ASCII range.
    - Values that the source reads with optional chaining and [||] (the
      payload of a message) are [JsVal]s, so that every [?.] and [||] of
      the source has its counterpart here.
    - Collections the source keeps in a [Map] or in a Mongo collection with
      a unique index are [gmap]s; the [PairingCode] collection, which has no
      unique index, is a list of documents.
    - Numbers are integers ([Z]); console output is not modelled.
    - An [async] function is run to completion: a handler is one atomic
      step of the model. *)

From Stdlib Require Import Ascii String ZArith Lia.
From stdpp Require Import base option list gmap strings.

Local Open Scope Z_scope.

(* ===================================================================== *)
(** ** JavaScript strings *)
(* ===================================================================== *)

Module Js.

(** [s.startsWith(p)] *)
Fixpoint startsWith (s p : string) : bool :=
  match p, s with
  | EmptyString, _ => true
  | String _ _, EmptyString => false
  | String a p', String b s' => if Ascii.eqb a b then startsWith s' p' else false
  end.

(** The bytes of [s] after the first [n]. *)
Fixpoint drop (n : nat) (s : string) : string :=
  match n, s with
  | O, _ => s
  | S _, EmptyString => EmptyString
  | S n', String _ s' => drop n' s'
  end.

(** The number of bytes of the character whose first byte is [a]. *)
Definition width (a : ascii) : nat :=
  let n := nat_of_ascii a in
  if (n <? 192)%nat then 1%nat
  else if (n <? 224)%nat then 2%nat
  else if (n <? 240)%nat then 3%nat
  else 4%nat.

(** A byte that continues a character. *)
Definition isContinuation (a : ascii) : bool :=
  let n := nat_of_ascii a in (128 <=? n)%nat && (n <? 192)%nat.

(** [s.length]: the number of UTF-16 code units of [s], one for each
    character of one, two or three bytes and two for each character of
    four bytes. *)
Fixpoint length (s : string) : nat :=
  match s with
  | EmptyString => 0%nat
  | String a s' =>
      ((if isContinuation a then 0
        else if (240 <=? nat_of_ascii a)%nat then 2
        else 1) + length s')%nat
  end.

(** The two code units of a character of four bytes, each as the lone
    surrogate it is when the other half is cut off.  [highSurrogate]
    takes the four bytes, [lowSurrogate] the last three with what follows
    them. *)
Definition highSurrogate (a b c : ascii) : string :=
  let top :=
    ((nat_of_ascii a mod 8) * 256 + (nat_of_ascii b mod 64) * 4
     + (nat_of_ascii c mod 64) / 16 - 64)%nat in
  String (ascii_of_nat 237)
    (String (ascii_of_nat (160 + top / 64))
       (String (ascii_of_nat (128 + top mod 64)) EmptyString)).

Definition lowSurrogate (s : string) : string :=
  match s with
  | String _ (String c (String d rest)) =>
      String (ascii_of_nat 237)
        (String (ascii_of_nat (176 + nat_of_ascii c mod 16)) (String d rest))
  | _ => EmptyString
  end.

(** [s.slice(n)] for [0 <= n]: [s] without its first [n] code units.  A
    cut between the two code units of a character of four bytes leaves the
    second one. *)
Fixpoint slice (n : nat) (s : string) : string :=
  match n with
  | O => s
  | S n' =>
      match s with
      | EmptyString => EmptyString
      | String a s' =>
          if (nat_of_ascii a <? 240)%nat then slice n' (drop (width a - 1) s')
          else match n' with
               | O => lowSurrogate s'
               | S n'' => slice n'' (drop 3 s')
               end
      end
  end.

(** [s[0]] for a string that is not empty: its first code unit. *)
Definition at0 (s : string) : string :=
  match s with
  | EmptyString => EmptyString
  | String a s' =>
      if (nat_of_ascii a <? 240)%nat then String.substring 0 (width a) s
      else match s' with
           | String b (String c _) => highSurrogate a b c
           | _ => EmptyString
           end
  end.

(** [s.includes(p)] *)
Fixpoint includes (s p : string) : bool :=
  startsWith s p ||
  match s with
  | EmptyString => false
  | String _ s' => includes s' p
  end.

(** [s.endsWith(p)] *)
Definition endsWith (s p : string) : bool :=
  startsWith (String.rev s) (String.rev p).

(** [s.split(c)[0]] for a one-character separator [c]: the part of [s]
    before the first [c], the whole of [s] when [c] does not occur. *)
Fixpoint split0 (c : ascii) (s : string) : string :=
  match s with
  | EmptyString => EmptyString
  | String a s' => if Ascii.eqb a c then EmptyString else String a (split0 c s')
  end.

(** The characters that [trim] removes, by the bytes of their encoding:
    the WhiteSpace and LineTerminator characters of ECMAScript.  Of one
    byte: tab, line feed, vertical tab, form feed, carriage return and
    space.  Of two bytes: U+00A0.  Of three bytes: U+1680, U+2000 to
    U+200A, U+2028, U+2029, U+202F, U+205F, U+3000 and U+FEFF. *)
Definition isWhite1 (a : ascii) : bool :=
  match a with
  | "009" | "010" | "011" | "012" | "013" | " " => true
  | _ => false
  end%char.

Definition isWhite2 (a b : ascii) : bool :=
  (nat_of_ascii a =? 194)%nat && (nat_of_ascii b =? 160)%nat.

Definition isWhite3 (a b c : ascii) : bool :=
  let x := nat_of_ascii a in
  let y := nat_of_ascii b in
  let z := nat_of_ascii c in
  ((x =? 225) && (y =? 154) && (z =? 128)
   || (x =? 226) && (y =? 128) &&
      ((128 <=? z) && (z <=? 138) || (z =? 168) || (z =? 169) || (z =? 175))
   || (x =? 226) && (y =? 129) && (z =? 159)
   || (x =? 227) && (y =? 128) && (z =? 128)
   || (x =? 239) && (y =? 187) && (z =? 191))%nat.

(** [s.trimStart()] *)
Fixpoint trimStart (s : string) : string :=
  match s with
  | EmptyString => EmptyString
  | String a s1 =>
      if isWhite1 a then trimStart s1
      else
        match s1 with
        | EmptyString => s
        | String b s2 =>
            if isWhite2 a b then trimStart s2
            else
              match s2 with
              | EmptyString => s
              | String c s3 => if isWhite3 a b c then trimStart s3 else s
              end
        end
  end.

(** [trimStart] on the bytes of a string in reverse order. *)
Fixpoint trimStartRev (s : string) : string :=
  match s with
  | EmptyString => EmptyString
  | String a s1 =>
      if isWhite1 a then trimStartRev s1
      else
        match s1 with
        | EmptyString => s
        | String b s2 =>
            if isWhite2 b a then trimStartRev s2
            else
              match s2 with
              | EmptyString => s
              | String c s3 => if isWhite3 c b a then trimStartRev s3 else s
              end
        end
  end.

(** [s.trim()] *)
Definition trim (s : string) : string :=
  String.rev (trimStartRev (String.rev (trimStart s))).

(** [s.split(/ +/)]: the pieces between the maximal runs of spaces. *)
Fixpoint splitSpaces_go (skipping : bool) (cur s : string) : list string :=
  match s with
  | EmptyString => [String.rev cur]
  | String a s' =>
      if Ascii.eqb a " "%char
      then (if skipping then splitSpaces_go true cur s'
            else String.rev cur :: splitSpaces_go true EmptyString s')
      else splitSpaces_go false (String a cur) s'
  end.

Definition splitSpaces (s : string) : list string :=
  splitSpaces_go false EmptyString s.

Definition lowerChar (a : ascii) : ascii :=
  let n := nat_of_ascii a in
  if (65 <=? n)%nat && (n <=? 90)%nat then ascii_of_nat (n + 32) else a.

Definition upperChar (a : ascii) : ascii :=
  let n := nat_of_ascii a in
  if (97 <=? n)%nat && (n <=? 122)%nat then ascii_of_nat (n - 32) else a.

Fixpoint mapChars (f : ascii -> ascii) (s : string) : string :=
  match s with
  | EmptyString => EmptyString
  | String a s' => String (f a) (mapChars f s')
  end.

(** The case mappings of a string of ASCII characters, on which every
    runtime agrees.  [toUpperCase] is applied by the classifier to the
    name of a field of the decoded message. *)
Definition toLowerCaseAscii : string -> string := mapChars lowerChar.
Definition toUpperCase : string -> string := mapChars upperChar.

(** [s.replace(p, '')] with a string pattern: the first occurrence of [p]
    is removed. *)
Fixpoint removeFirst (p s : string) : string :=
  if startsWith s p then drop (String.length p) s
  else match s with
       | EmptyString => EmptyString
       | String a s' => String a (removeFirst p s')
       end.

End Js.

(* ===================================================================== *)
(** ** JavaScript values *)
(* ===================================================================== *)

(** An object lists its fields in the order [Object.keys] enumerates
    them. *)
#[warnings="-register-all"]
Inductive JsVal : Type :=
| JUndef
| JNull
| JBool (b : bool)
| JNum (n : Z)
| JStr (s : string)
| JArr (items : list JsVal)
| JObj (fields : list (string * JsVal)).

Module JsV.

(** Conversion to boolean, as done by [if], [!], [&&] and [||]. *)
Definition truthy (v : JsVal) : bool :=
  match v with
  | JUndef | JNull => false
  | JBool b => b
  | JNum n => negb (n =? 0)
  | JStr s => negb (String.eqb s "")
  | JArr _ | JObj _ => true
  end.

(** [a || b] *)
Definition or (a b : JsVal) : JsVal := if truthy a then a else b.

Fixpoint assoc (k : string) (fs : list (string * JsVal)) : JsVal :=
  match fs with
  | [] => JUndef
  | (k', v) :: fs' => if String.eqb k k' then v else assoc k fs'
  end.

(** [v?.k] for a field name [k] that is no member of a prototype: the own
    property of an object, [undefined] for every other value. *)
Definition get (v : JsVal) (k : string) : JsVal :=
  match v with
  | JObj fs => assoc k fs
  | _ => JUndef
  end.

Definition indices (n : nat) : list string :=
  (fun i => pretty.pretty (Z.of_nat i)) <$> seq 0 n.

(** [Object.keys(v)] for a value that is not nullish. *)
Definition keys (v : JsVal) : list string :=
  match v with
  | JObj fs => fst <$> fs
  | JArr l => indices (length l)
  | JStr s => indices (Js.length s)
  | _ => []
  end.

(** [v.length] *)
Definition length (v : JsVal) : JsVal :=
  match v with
  | JArr l => JNum (Z.of_nat (List.length l))
  | JStr s => JNum (Z.of_nat (Js.length s))
  | JObj fs => assoc "length" fs
  | _ => JUndef
  end.

(** [v[0]] *)
Definition first (v : JsVal) : JsVal :=
  match v with
  | JArr (x :: _) => x
  | JStr (String a s) => JStr (Js.at0 (String a s))
  | JObj fs => assoc "0" fs
  | _ => JUndef
  end.

(** [v > 0] for a number or a boolean [v]; a value of another type
    (JavaScript would first convert it to a number) counts as not
    positive. *)
Definition positive (v : JsVal) : bool :=
  match v with
  | JNum n => 0 <? n
  | JBool b => b
  | _ => false
  end.

(** [a === b] where [b] is a string. *)
Definition eqStr (a : JsVal) (b : string) : bool :=
  match a with
  | JStr s => String.eqb s b
  | _ => false
  end.

End JsV.

(* ===================================================================== *)
(** ** Message classifier *)
(* ===================================================================== *)

Record MessageKey : Type := {
  remoteJid : string;
  participant : option string;
  fromMe : bool;
  id : string
}.

(** A raw transport message: its key and its payload [message.message]. *)
Record Message : Type := {
  key : MessageKey;
  message : JsVal
}.

(** [message.key.participant || message.key.remoteJid] *)
Definition senderOf (k : MessageKey) : string :=
  match participant k with
  | Some p => if String.eqb p "" then remoteJid k else p
  | None => remoteJid k
  end.

Module Classifier.

Fixpoint firstMessageKey (ks : list string) : option string :=
  match ks with
  | [] => None
  | k :: ks' =>
      if Js.endsWith k "Message"
      then Some (Js.toUpperCase (Js.removeFirst "Message" k))
      else firstMessageKey ks'
  end.

Definition getMessageType (msg : Message) : string :=
  let m := message msg in
  if JsV.truthy (JsV.get m "conversation") then "TEXT"
  else if JsV.truthy (JsV.get m "extendedTextMessage") then "TEXT"
  else if JsV.truthy (JsV.get m "imageMessage") then "IMAGE"
  else if JsV.truthy (JsV.get m "videoMessage") then "VIDEO"
  else if JsV.truthy (JsV.get m "audioMessage") then "AUDIO"
  else if JsV.truthy (JsV.get m "documentMessage") then "DOCUMENT"
  else if JsV.truthy (JsV.get m "stickerMessage") then "STICKER"
  else if JsV.truthy (JsV.get m "contactMessage") then "CONTACT"
  else if JsV.truthy (JsV.get m "locationMessage") then "LOCATION"
  else
    match firstMessageKey (JsV.keys (JsV.or m (JObj []))) with
    | Some t => t
    | None => "UNKNOWN"
    end.

Definition getMessageText (msg : Message) (messageType : string) : JsVal :=
  let m := message msg in
  if String.eqb messageType "TEXT" then
    JsV.or (JsV.get m "conversation")
      (JsV.or (JsV.get (JsV.get m "extendedTextMessage") "text") (JStr ""))
  else if String.eqb messageType "IMAGE" then
    JsV.or (JsV.get (JsV.get m "imageMessage") "caption") (JStr "[Image]")
  else if String.eqb messageType "VIDEO" then
    JsV.or (JsV.get (JsV.get m "videoMessage") "caption") (JStr "[Video]")
  else if String.eqb messageType "AUDIO" then JStr "[Audio]"
  else if String.eqb messageType "DOCUMENT" then
    JsV.or (JsV.get (JsV.get m "documentMessage") "fileName") (JStr "[Document]")
  else if String.eqb messageType "STICKER" then JStr "[Sticker]"
  else if String.eqb messageType "CONTACT" then JStr "[Contact]"
  else if String.eqb messageType "LOCATION" then JStr "[Location]"
  else JStr ("[" +:+ messageType +:+ "]").

(** The record [getQuotedMessage] builds. *)
Record Quoted : Type := {
  q_remoteJid : JsVal;
  q_fromMe : bool;
  q_id : JsVal;
  q_message : JsVal;
  q_mtype : string;
  q_sender : JsVal
}.

Definition getQuotedMessage (msg : Message) : option Quoted :=
  let quoted := JsV.get (JsV.get (message msg) "extendedTextMessage") "contextInfo" in
  if negb (JsV.truthy (JsV.get quoted "quotedMessage")) then None
  else
    Some {|
      q_remoteJid := JsV.or (JsV.get quoted "participant") (JsV.get quoted "stanzaId");
      q_fromMe := JsV.eqStr (JsV.get quoted "participant") (senderOf (key msg));
      q_id := JsV.get quoted "stanzaId";
      q_message := JsV.get quoted "quotedMessage";
      q_mtype :=
        match JsV.keys (JsV.or (JsV.get quoted "quotedMessage") (JObj [])) with
        | k :: _ =>
            let t := Js.removeFirst "Message" k in
            if String.eqb t "" then "text" else t
        | [] => "text"
        end;
      q_sender := JsV.get quoted "participant"
    |}.

(** The classification of a message: its type and its text. *)
Definition classify (msg : Message) : string * JsVal :=
  let t := getMessageType msg in (t, getMessageText msg t).

(** The text of a type tag when none of the nine fields that
    [getMessageType] tests is set: the tag then comes from the scan of the
    keys, or is [UNKNOWN]. *)
Definition textOfBareTag (t : string) : JsVal :=
  if String.eqb t "TEXT" then JStr ""
  else if String.eqb t "IMAGE" then JStr "[Image]"
  else if String.eqb t "VIDEO" then JStr "[Video]"
  else if String.eqb t "AUDIO" then JStr "[Audio]"
  else if String.eqb t "DOCUMENT" then JStr "[Document]"
  else if String.eqb t "STICKER" then JStr "[Sticker]"
  else if String.eqb t "CONTACT" then JStr "[Contact]"
  else if String.eqb t "LOCATION" then JStr "[Location]"
  else JStr ("[" +:+ t +:+ "]").

End Classifier.


(* ===================================================================== *)
(** ** Process environment *)
(* ===================================================================== *)

(** The variables of [process.env] the server reads; the module variable
    [CHANNEL_JIDS] that [subscribeToChannels] iterates over, [None] when
    nothing declares it; the emoji that [Math.random] selects: [statusEmoji n] is the emoji drawn for the
    status reaction, [pingEmojis n] the reaction emoji and the text emoji
    the redraw loop of [ping] ends with, when [n] transport requests have
    been issued; and [toLowerCase], the [String.prototype.toLowerCase] of
    the runtime, of which nothing is assumed. *)
Record Env : Type := {
  env_PREFIX : option string;
  env_AUTO_STATUS_SEEN : option string;
  env_AUTO_STATUS_REACT : option string;
  env_AUTO_STATUS_REPLY : option string;
  env_AUTO_STATUS_MSG : option string;
  env_CHANNEL_JIDS : option string;
  env_OWNER_NAME : option string;
  env_BOT_NAME : option string;
  CHANNEL_JIDS : option (list string);
  statusEmoji : nat -> string;
  pingEmojis : nat -> string * string;
  toLowerCase : string -> string
}.

(** [process.env.X || d] *)
Definition envOr (v : option string) (d : string) : string :=
  match v with
  | Some s => if String.eqb s "" then d else s
  | None => d
  end.

(** [process.env.X === "true"] *)
Definition envIsTrue (v : option string) : bool :=
  match v with
  | Some s => String.eqb s "true"
  | None => false
  end.

Definition PREFIX (env : Env) : string := envOr (env_PREFIX env) ".".
Definition OWNER_NAME (env : Env) : string := envOr (env_OWNER_NAME env) "𝗡𝘆𝗼𝗻𝗶-𝗫𝗠𝗗".
Definition BOT_NAME (env : Env) : string :=
  envOr (env_BOT_NAME env) "⚔️𝙼𝙾𝚁𝚃𝙰𝙻-𝙺𝙾𝙼𝙱𝙰𝚃-𝚇𝚁⚔️".
Definition AUTO_STATUS_MSG (env : Env) : string :=
  envOr (env_AUTO_STATUS_MSG env) "© 𝙿𝙾𝚆𝙴𝚁𝙳 𝙱𝚈 𝗡𝘆𝚘𝗻𝗶-𝗫𝗠𝗗".

(** [s.split(c)] for a one-character separator. *)
Fixpoint splitChar_go (c : ascii) (cur s : string) : list string :=
  match s with
  | EmptyString => [String.rev cur]
  | String a s' =>
      if Ascii.eqb a c then String.rev cur :: splitChar_go c EmptyString s'
      else splitChar_go c (String a cur) s'
  end.

Definition splitChar (c : ascii) (s : string) : list string :=
  splitChar_go c EmptyString s.

(* ===================================================================== *)
(** ** The document store *)
(* ===================================================================== *)

Module Mongo.

Definition Creds : Type := string.
Definition Keys : Type := string.

(** The [{creds, keys}] object of the transport. *)
Record AuthState : Type := {
  as_creds : option Creds;
  as_keys : option Keys
}.

Record SessionDoc : Type := {
  s_sessionId : option string;
  s_settings : JsVal;
  s_creds : option Creds;
  s_authState : option AuthState;
  s_isActive : bool;
  s_lastActive : Z;
  s_createdAt : Z;
  s_updatedAt : Z;
  s_expiresAt : Z
}.

Record AutoStatus : Type := {
  seen : bool;
  react : bool;
  reply : bool
}.

Record SettingsDoc : Type := {
  prefix : string;
  autoStatus : AutoStatus;
  channels : list string;
  u_updatedAt : option Z
}.

Record PairingDoc : Type := {
  pc_number : string;
  pc_code : string;
  pc_createdAt : Z
}.

Record StatsDoc : Type := {
  st_totalUsers : Z;
  st_totalConnections : Z;
  st_totalCommands : Z;
  st_uptime : Z;
  st_lastUpdated : Z
}.

(** The database and the state of the driver.  [connected] is
    [mongoose.connection.readyState === 1]; [clock] is the time [new Date()]
    and [Date.now()] return; [faults] scripts the coming driver calls, one
    entry a call, [true] for a call that rejects, and every call after the
    end of the script completes.  [sessions] and [userSettings] have a unique
    index on [number]; [pairingCodes] has none. *)
Record Db : Type := {
  connected : bool;
  faults : list bool;
  clock : Z;
  sessions : gmap string SessionDoc;
  userSettings : gmap string SettingsDoc;
  pairingCodes : list PairingDoc;
  stats : option StatsDoc
}.

Definition with_faults (f : list bool) (db : Db) : Db :=
  {| connected := connected db; faults := f; clock := clock db;
     sessions := sessions db; userSettings := userSettings db;
     pairingCodes := pairingCodes db; stats := stats db |}.

Definition with_sessions (m : gmap string SessionDoc) (db : Db) : Db :=
  {| connected := connected db; faults := faults db; clock := clock db;
     sessions := m; userSettings := userSettings db;
     pairingCodes := pairingCodes db; stats := stats db |}.

Definition with_userSettings (m : gmap string SettingsDoc) (db : Db) : Db :=
  {| connected := connected db; faults := faults db; clock := clock db;
     sessions := sessions db; userSettings := m;
     pairingCodes := pairingCodes db; stats := stats db |}.

Definition with_pairingCodes (l : list PairingDoc) (db : Db) : Db :=
  {| connected := connected db; faults := faults db; clock := clock db;
     sessions := sessions db; userSettings := userSettings db;
     pairingCodes := l; stats := stats db |}.

Definition with_stats (st : option StatsDoc) (db : Db) : Db :=
  {| connected := connected db; faults := faults db; clock := clock db;
     sessions := sessions db; userSettings := userSettings db;
     pairingCodes := pairingCodes db; stats := st |}.

(** One call of the driver: [None] when the call rejects. *)
Definition call {A : Type} (op : Db -> Db * A) (db : Db) : Db * option A :=
  match faults db with
  | true :: rest => (with_faults rest db, None)
  | false :: rest => let '(db', a) := op (with_faults rest db) in (db', Some a)
  | [] => let '(db', a) := op db in (db', Some a)
  end.

(** The next [n] calls of the driver complete. *)
Definition completes (n : nat) (db : Db) : bool :=
  forallb negb (take n (faults db)).

Definition MONGO_SESSION_TTL : Z := 30 * 24 * 60 * 60 * 1000.

(** The [sessionData] argument of [saveSessionToMongo]. *)
Record SessionData : Type := {
  sd_creds : option Creds;
  sd_authState : option AuthState;
  sd_settings : JsVal;
  sd_isActive : option bool
}.

(** [Session.findOneAndUpdate({number}, {$set, $setOnInsert}, {upsert})] *)
Definition Session_findOneAndUpdate (number : string) (sd : SessionData)
    (db : Db) : Db * SessionDoc :=
  let now := clock db in
  let doc := {|
    s_sessionId := Some number;
    s_settings := JsV.or (sd_settings sd) (JObj []);
    s_creds := sd_creds sd;
    s_authState := sd_authState sd;
    s_isActive := true;
    s_lastActive := now;
    s_createdAt := match sessions db !! number with
                   | Some old => s_createdAt old
                   | None => now
                   end;
    s_updatedAt := now;
    s_expiresAt := match sessions db !! number with
                   | Some old => s_expiresAt old
                   | None => now + MONGO_SESSION_TTL
                   end
  |} in
  (with_sessions (<[number := doc]> (sessions db)) db, doc).

Definition saveSessionToMongo (number : string) (sd : SessionData)
    (db : Db) : Db * option SessionDoc :=
  if negb (connected db) then (db, None)
  else call (Session_findOneAndUpdate number sd) db.

(** What [loadSessionFromMongo] returns for a record with credentials. *)
Record LoadedSession : Type := {
  ls_creds : Creds;
  ls_authState : option AuthState;
  ls_settings : JsVal
}.

Definition loadSessionFromMongo (number : string) (db : Db)
    : Db * option LoadedSession :=
  if negb (connected db) then (db, None)
  else
    match call (fun d => (d, sessions d !! number)) db with
    | (db', Some (Some session)) =>
        match s_creds session with
        | Some c =>
            (db', Some {| ls_creds := c; ls_authState := s_authState session;
                          ls_settings := JsV.or (s_settings session) (JObj []) |})
        | None => (db', None)
        end
    | (db', _) => (db', None)
    end.

Definition deleteSessionFromMongo (number : string) (db : Db) : Db :=
  if negb (connected db) then db
  else
    match call (fun d => (with_sessions (delete number (sessions d)) d, tt)) db with
    | (db1, Some _) =>
        fst (call (fun d => (with_userSettings (delete number (userSettings d)) d, tt)) db1)
    | (db1, None) => db1
    end.

(** [deleteOne]: the first document that matches is removed. *)
Fixpoint deleteOne (number : string) (l : list PairingDoc) : list PairingDoc :=
  match l with
  | [] => []
  | d :: l' => if String.eqb (pc_number d) number then l' else d :: deleteOne number l'
  end.

(** The number of documents of a number. *)
Fixpoint countDocuments (number : string) (l : list PairingDoc) : nat :=
  match l with
  | [] => 0
  | d :: l' =>
      if String.eqb (pc_number d) number then S (countDocuments number l')
      else countDocuments number l'
  end.

Fixpoint findOne (number : string) (l : list PairingDoc) : option PairingDoc :=
  match l with
  | [] => None
  | d :: l' => if String.eqb (pc_number d) number then Some d else findOne number l'
  end.

(** [pairingCodeSchema] requires a number and a code: [save] rejects a
    document in which one of them is the empty string before it calls the
    driver. *)
Definition savePairingCodeToMongo (number code : string) (db : Db)
    : Db * option PairingDoc :=
  if negb (connected db) then (db, None)
  else if String.eqb number "" || String.eqb code "" then (db, None)
  else
    let doc := {| pc_number := number; pc_code := code; pc_createdAt := clock db |} in
    call (fun d => (with_pairingCodes (pairingCodes d ++ [doc]) d, doc)) db.

Definition getPairingCodeFromMongo (number : string) (db : Db)
    : Db * option string :=
  if negb (connected db) then (db, None)
  else
    match call (fun d => (d, findOne number (pairingCodes d))) db with
    | (db', Some (Some doc)) => (db', Some (pc_code doc))
    | (db', _) => (db', None)
    end.

Definition deletePairingCodeFromMongo (number : string) (db : Db) : Db :=
  if negb (connected db) then db
  else fst (call (fun d => (with_pairingCodes (deleteOne number (pairingCodes d)) d, tt)) db).

Section WithEnv.
Variable env : Env.

Definition getDefaultSettings : SettingsDoc :=
  {| prefix := PREFIX env;
     autoStatus := {| seen := envIsTrue (env_AUTO_STATUS_SEEN env);
                      react := envIsTrue (env_AUTO_STATUS_REACT env);
                      reply := envIsTrue (env_AUTO_STATUS_REPLY env) |};
     channels := match env_CHANNEL_JIDS env with
                 | Some s => if String.eqb s "" then ["120363399470975987@newsletter"]
                             else splitChar "," s
                 | None => ["120363399470975987@newsletter"]
                 end;
     u_updatedAt := None |}.

(** The defaults of [userSettingsSchema], applied when an upsert inserts. *)
Definition schemaDefaults : SettingsDoc :=
  {| prefix := PREFIX env;
     autoStatus := {| seen := true; react := true; reply := true |};
     channels := [];
     u_updatedAt := None |}.

(** [saveUserSettingsToMongo(number, { prefix })] *)
Definition saveUserSettingsToMongo (number newPrefix : string) (db : Db) : Db :=
  if negb (connected db) then db
  else
    fst (call (fun d =>
      let old := default schemaDefaults (userSettings d !! number) in
      let doc := {| prefix := newPrefix; autoStatus := autoStatus old;
                    channels := channels old; u_updatedAt := Some (clock d) |} in
      (with_userSettings (<[number := doc]> (userSettings d)) d, tt)) db).

Definition loadUserSettingsFromMongo (number : string) (db : Db)
    : Db * SettingsDoc :=
  if negb (connected db) then (db, getDefaultSettings)
  else
    match call (fun d => (d, userSettings d !! number)) db with
    | (db', Some (Some settings)) => (db', settings)
    | (db', _) => (db', getDefaultSettings)
    end.

End WithEnv.

End Mongo.

(* ===================================================================== *)
(** ** Transport requests and the effect monad *)
(* ===================================================================== *)

Record Participant : Type := {
  p_id : string;
  p_admin : option string
}.

Record GroupMetadata : Type := {
  participants : list Participant
}.

(** The texts the server renders from the clock and from the registry
    are symbols; every other text is the string the source builds. *)
Inductive Text : Type :=
| TStr (s : string)
| TSpeedDetails (reactionEmoji : string)
| TNewsletterSpeed
| TMenu (userPrefix sessionId : string)
| TWelcomeNotice (followed : list bool) (userPrefix : string).

(** The [contextInfo] attached to an outgoing message. *)
Inductive ContextInfo : Type :=
| NoContext
| SpeedAd
| MenuForward
| NewsletterForward
| ConnectedAd.

Record Content : Type := {
  c_text : option Text;
  c_react : option (string * MessageKey);
  c_mentions : list JsVal;
  c_contextInfo : ContextInfo
}.

Definition textOnly (t : Text) : Content :=
  {| c_text := Some t; c_react := None; c_mentions := []; c_contextInfo := NoContext |}.

Definition reactOnly (emoji : string) (k : MessageKey) : Content :=
  {| c_text := None; c_react := Some (emoji, k); c_mentions := [];
     c_contextInfo := NoContext |}.

(** The options of [sendMessage]. *)
Inductive SendOptions : Type :=
| NoOptions
| QuotedMessage
| StatusJidList (jids : list (option string)).

(** The argument [m] of a plugin. *)
Record MArg : Type := {
  mentionedJid : JsVal;
  quoted : option Classifier.Quoted;
  m_sender : string
}.

(** The context of a plugin, without its [reply] helper (see [replyTo]). *)
Record Ctx : Type := {
  args : list string;
  q : string;
  from : string;
  isGroup : bool;
  groupMetadata : option GroupMetadata;
  sender : string;
  isAdmins : bool;
  isCreator : bool
}.

(** The method of the socket that follows a channel, in the order
    [subscribeToChannels] looks for one. *)
Inductive FollowMethod : Type :=
| NewsletterFollow
| FollowNewsletter
| SubscribeToNewsletter
| NewsletterDotFollow.

(** What a handler does to the outside: the requests to the transport in
    the order they are issued, the listeners it registers, the status media
    it keeps, and the plugin bodies it enters. *)
Inductive Action : Type :=
| ASendMessage (jid : option string) (c : Content) (o : SendOptions)
| ANewsletterSend (jid : string) (t : Text)
| AReadMessages (k : MessageKey)
| AGroupMetadata (jid : string)
| AGroupParticipantsUpdate (jid : string) (targets : list JsVal) (action : string)
| AFollow (method : FollowMethod) (jid : string)
| ASendPresenceUpdate (jid : string)
| AListen (event : string)
| AStatusMedia (participant : option string)
| AExecute (pattern : string) (m : MArg) (ctx : Ctx).

(** The socket [conn]: the account it is logged in as, whether it offers
    [newsletterSend], the first method it offers to follow a channel, and
    how the transport answers.  The answers are
    indexed by the number of requests issued before: [request_fails n]
    tells whether request [n] rejects, [groupMetadata_at n jid] is the
    metadata request [n] resolves to, [None] when it rejects. *)
Record Conn : Type := {
  user_id : string;
  has_newsletterSend : bool;
  followMethod : option FollowMethod;
  request_fails : nat -> bool;
  groupMetadata_at : nat -> string -> option GroupMetadata
}.

Record Sys : Type := {
  db : Mongo.Db;
  tick : nat;
  trace : list Action
}.

(** The result of an [async] function: a value, or a rejection. *)
Inductive Res (A : Type) : Type :=
| Ok (a : A)
| Err.
Arguments Ok {A} a.
Arguments Err {A}.

Definition M (A : Type) : Type := Sys -> Sys * Res A.

Definition ret {A : Type} (a : A) : M A := fun s => (s, Ok a).

Definition throw {A : Type} : M A := fun s => (s, Err).

Definition bind {A B : Type} (m : M A) (k : A -> M B) : M B :=
  fun s => match m s with
           | (s', Ok a) => k a s'
           | (s', Err) => (s', Err)
           end.

(** [try { m } catch { h }] *)
Definition catch {A : Type} (m : M A) (h : M A) : M A :=
  fun s => match m s with
           | (s', Ok a) => (s', Ok a)
           | (s', Err) => h s'
           end.

Notation "x <- m ;; k" := (bind m (fun x => k))
  (at level 100, m at next level, right associativity).
Notation "m ;;; k" := (bind m (fun _ => k))
  (at level 100, right associativity).

Definition getTick : M nat := fun s => (s, Ok (tick s)).

(** A helper of the store, run inside a handler. *)
Definition liftDb {A : Type} (f : Mongo.Db -> Mongo.Db * A) : M A :=
  fun s => let '(d, a) := f (db s) in
           ({| db := d; tick := tick s; trace := trace s |}, Ok a).

Definition liftDb_ (f : Mongo.Db -> Mongo.Db) : M unit :=
  liftDb (fun d => (f d, tt)).

(** An effect that cannot fail. *)
Definition emit (a : Action) : M unit :=
  fun s => ({| db := db s; tick := tick s; trace := trace s ++ [a] |}, Ok tt).

(** A request to the transport. *)
Definition request (conn : Conn) (a : Action) : M unit :=
  fun s =>
    ({| db := db s; tick := S (tick s); trace := trace s ++ [a] |},
     if request_fails conn (tick s) then Err else Ok tt).

(** [conn.groupMetadata(jid)] *)
Definition fetchGroupMetadata (conn : Conn) (jid : string) : M GroupMetadata :=
  fun s =>
    ({| db := db s; tick := S (tick s); trace := trace s ++ [AGroupMetadata jid] |},
     match groupMetadata_at conn (tick s) jid with
     | Some md => Ok md
     | None => Err
     end).

(** The [reply] helper handed to a plugin:
    [conn.sendMessage(message.key.remoteJid, { text }, { quoted: message })]. *)
Definition replyTo (conn : Conn) (msg : Message) (text : string) : M unit :=
  request conn (ASendMessage (Some (remoteJid (key msg))) (textOnly (TStr text)) QuotedMessage).

(* ===================================================================== *)
(** ** Command registry *)
(* ===================================================================== *)

(** The body of a plugin: [execute(conn, message, m, context)]. *)
Definition Exec : Type := Conn -> Message -> MArg -> Ctx -> M unit.

(** A command descriptor.  A missing [pattern] is the empty string, which
    is as falsy as [undefined]; [alias] is [Some] for an array. *)
Record Descriptor : Type := {
  pattern : string;
  execute : option Exec;
  alias : option (list string)
}.

Module Registry.

(** The value of one property of a module object. *)
Inductive EntryValue : Type :=
| ENullish
| EPrimitive
| EObject (d : Descriptor).

(** What [require(filePath)] gives. *)
Inductive ModuleExport : Type :=
| RequireThrows
| ExportsNullish
| ExportsObject (self : Descriptor) (entries : list (string * EntryValue))
| ExportsOther (self : Descriptor).

Definition valid (d : Descriptor) : bool :=
  negb (String.eqb (pattern d) "") &&
  match execute d with
  | Some _ => true
  | None => false
  end.

Definition setAliases (d : Descriptor) (commands : gmap string Descriptor)
    : gmap string Descriptor :=
  match alias d with
  | Some aliases => foldl (fun cs a => <[a := d]> cs) commands aliases
  | None => commands
  end.

(** The loop over [Object.entries(commandModule)]; it stops at the first
    entry whose value is [null] or [undefined], where reading [.pattern]
    throws. *)
Fixpoint loadEntries (entries : list (string * EntryValue))
    (commands : gmap string Descriptor) : gmap string Descriptor :=
  match entries with
  | [] => commands
  | (_, ENullish) :: _ => commands
  | (_, EPrimitive) :: rest => loadEntries rest commands
  | (_, EObject d) :: rest =>
      if valid d
      then loadEntries rest (setAliases d (<[pattern d := d]> commands))
      else loadEntries rest commands
  end.

Definition loadModule (m : ModuleExport) (commands : gmap string Descriptor)
    : gmap string Descriptor :=
  match m with
  | RequireThrows | ExportsNullish => commands
  | ExportsObject self entries =>
      if valid self then <[pattern self := self]> commands
      else loadEntries entries commands
  | ExportsOther self =>
      if valid self then <[pattern self := self]> commands else commands
  end.

Definition isCommandFile (file : string) : bool :=
  Js.endsWith file ".js" && negb (Js.startsWith file ".").

(** [loadCommands()].  [dir] is the commands directory, [None] when it does
    not exist, otherwise the names [readdirSync] lists with what each file
    exports; [runtimeCommand] is the descriptor
    [runtimeTracker.getRuntimeCommand()] returns. *)
Definition loadCommands (dir : option (list (string * ModuleExport)))
    (runtimeCommand : Descriptor) : gmap string Descriptor :=
  match dir with
  | None => ∅
  | Some files =>
      let commandFiles := filter (fun f => isCommandFile (fst f) = true) files in
      let commands := foldl (fun cs f => loadModule (snd f) cs) ∅ commandFiles in
      if valid runtimeCommand
      then <[pattern runtimeCommand := runtimeCommand]> commands
      else commands
  end.

End Registry.

(* ===================================================================== *)
(** ** Command resolver and dispatcher *)
(* ===================================================================== *)

Module Dispatch.

Section WithEnv.
Variable env : Env.

(** [participant?.admin === 'admin' || participant?.admin === 'superadmin'] *)
Definition adminRank (p : option Participant) : bool :=
  match p with
  | Some {| p_admin := Some r |} => String.eqb r "admin" || String.eqb r "superadmin"
  | _ => false
  end.

(** [participant?.admin === 'superadmin'] *)
Definition superadminRank (p : option Participant) : bool :=
  match p with
  | Some {| p_admin := Some r |} => String.eqb r "superadmin"
  | _ => false
  end.

(** [metadata.participants.find(p => p.id === sender)] *)
Definition findParticipant (md : GroupMetadata) (sender : string) : option Participant :=
  List.find (fun p => String.eqb (p_id p) sender) (participants md).

(** The base identifier of an account, as the specification words it: the
    identifier without its device suffix and without its server. *)
Definition baseIdentifier (jid : string) : string :=
  Js.split0 "@" (Js.split0 ":" jid).

(** The owner test of the [prefix] command: the negation of
    [messageSenderJid !== ownerJid &&
     !messageSenderJid.includes(ownerJid.split(':')[0])]. *)
Definition passesOwnerCheck (ownerJid messageSenderJid : string) : bool :=
  String.eqb messageSenderJid ownerJid ||
  Js.includes messageSenderJid (Js.split0 ":" ownerJid).

Definition speedContent (reactionEmoji : string) : Content :=
  {| c_text := Some (TSpeedDetails reactionEmoji); c_react := None;
     c_mentions := []; c_contextInfo := SpeedAd |}.

Definition menuContent (userPrefix sessionId : string) : Content :=
  {| c_text := Some (TMenu userPrefix sessionId); c_react := None;
     c_mentions := []; c_contextInfo := MenuForward |}.

Definition isMenuName (commandName : string) : bool :=
  String.eqb commandName "menu" || String.eqb commandName "help" ||
  String.eqb commandName "nyoni".

(** The branch for a chat whose identifier ends in [@newsletter]. *)
Definition newsletterCommand (conn : Conn) (from commandName userPrefix sessionId : string)
    : M bool :=
  if String.eqb commandName "ping" then
    catch (if has_newsletterSend conn
           then request conn (ANewsletterSend from TNewsletterSpeed)
           else request conn (ASendMessage (Some from) (textOnly TNewsletterSpeed) NoOptions))
          (ret tt) ;;;
    ret true
  else if isMenuName commandName then
    catch (if has_newsletterSend conn
           then request conn (ANewsletterSend from (TMenu userPrefix sessionId))
           else request conn (ASendMessage (Some from)
                                (textOnly (TMenu userPrefix sessionId)) NoOptions))
          (ret tt) ;;;
    ret true
  else
    catch (if has_newsletterSend conn
           then request conn (ANewsletterSend from
                                (TStr ("✅ Command received: " +:+ commandName)))
           else ret tt)
          (ret tt) ;;;
    ret true.

(** The [switch] for every other chat. *)
Definition chatCommand (conn : Conn) (msg : Message) (from commandName : string)
    (args : list string) (userPrefix sessionId : string) : M bool :=
  if String.eqb commandName "ping" || String.eqb commandName "speed" then
    request conn (ASendMessage (Some from)
                    (textOnly (TStr "🏹 *𝙼𝙾𝚁𝚃𝙰𝙻-𝙺𝙾𝙼𝙱𝙰𝚃-𝚇𝚁*")) QuotedMessage) ;;;
    n <- getTick ;;
    let '(reactionEmoji, textEmoji) := pingEmojis env n in
    request conn (ASendMessage (Some from) (reactOnly textEmoji (key msg)) NoOptions) ;;;
    request conn (ASendMessage (Some from) (speedContent reactionEmoji) QuotedMessage) ;;;
    ret true
  else if String.eqb commandName "prefix" then
    let ownerJid := user_id conn in
    let messageSenderJid := senderOf (key msg) in
    if negb (passesOwnerCheck ownerJid messageSenderJid) then
      request conn (ASendMessage (Some from)
                      (textOnly (TStr ("❌ 𝙾𝚠𝚗𝚎𝚛 𝚘𝚗𝚕𝚢 " +:+ OWNER_NAME env))) QuotedMessage) ;;;
      ret true
    else
      match args with
      | newPrefix :: _ =>
          liftDb_ (Mongo.saveUserSettingsToMongo env sessionId newPrefix) ;;;
          request conn (ASendMessage (Some from)
                          (textOnly (TStr ("✅ 𝙿𝚛𝚎𝚏𝚒𝚡 𝚞𝚙𝚍𝚊𝚝𝚎𝚍 𝚝𝚘: " +:+ newPrefix)))
                          QuotedMessage) ;;;
          ret true
      | [] =>
          request conn (ASendMessage (Some from)
                          (textOnly (TStr ("⚙️ 𝙲𝚞𝚛𝚛𝚎𝚗𝚝 𝚙𝚛𝚎𝚏𝚒𝚡: " +:+ userPrefix)))
                          QuotedMessage) ;;;
          ret true
      end
  else if isMenuName commandName then
    request conn (ASendMessage (Some from) (menuContent userPrefix sessionId) QuotedMessage) ;;;
    ret true
  else ret false.

(** The names the [switch] of [chatCommand] has a case for. *)
Definition isBuiltIn (commandName : string) : bool :=
  String.eqb commandName "ping" || String.eqb commandName "speed" ||
  String.eqb commandName "prefix" || isMenuName commandName.

Definition effectivePrefix (settings : Mongo.SettingsDoc) : string :=
  if String.eqb (Mongo.prefix settings) "" then PREFIX env else Mongo.prefix settings.

Definition handleBuiltInCommands (conn : Conn) (msg : Message) (commandName : string)
    (args : list string) (sessionId : string) : M bool :=
  catch
    (userSettings <- liftDb (Mongo.loadUserSettingsFromMongo env sessionId) ;;
     let userPrefix := effectivePrefix userSettings in
     let from := remoteJid (key msg) in
     if Js.endsWith from "@newsletter"
     then newsletterCommand conn from commandName userPrefix sessionId
     else chatCommand conn msg from commandName args userPrefix sessionId)
    (ret false).

(** The auto-status path of [handleMessage]. *)
Definition autoStatus (conn : Conn) (msg : Message) (sessionId : string) : M unit :=
  userSettings <- liftDb (Mongo.loadUserSettingsFromMongo env sessionId) ;;
  let st := Mongo.autoStatus userSettings in
  (if Mongo.seen st
   then catch (request conn (AReadMessages (key msg))) (ret tt)
   else ret tt) ;;;
  (if Mongo.react st
   then n <- getTick ;;
        catch (request conn
                 (ASendMessage (Some (remoteJid (key msg)))
                    (reactOnly (statusEmoji env n) (key msg))
                    (StatusJidList [participant (key msg); Some (user_id conn)])))
              (ret tt)
   else ret tt) ;;;
  (if Mongo.reply st
   then catch (request conn
                 (ASendMessage (participant (key msg))
                    {| c_text := Some (TStr (AUTO_STATUS_MSG env));
                       c_react := Some ("⚔️", key msg);
                       c_mentions := []; c_contextInfo := NoContext |}
                    QuotedMessage))
              (ret tt)
   else ret tt) ;;;
  (if JsV.truthy (message msg) &&
      (JsV.truthy (JsV.get (message msg) "imageMessage") ||
       JsV.truthy (JsV.get (message msg) "videoMessage"))
   then emit (AStatusMedia (participant (key msg)))
   else ret tt).

(** The invocation of a registered command. *)
Definition runCommand (command : Descriptor) (conn : Conn) (msg : Message)
    (body userPrefix commandName : string) (args : list string) : M unit :=
  let from := remoteJid (key msg) in
  let isGroup := Js.endsWith from "@g.us" in
  groupMetadata <-
    (if isGroup
     then catch (md <- fetchGroupMetadata conn from ;; ret (Some md)) (ret None)
     else ret None) ;;
  let quotedMessage := Classifier.getQuotedMessage msg in
  let m := {|
    mentionedJid :=
      JsV.or (JsV.get (JsV.get (JsV.get (message msg) "extendedTextMessage")
                         "contextInfo") "mentionedJid") (JArr []);
    quoted := quotedMessage;
    m_sender := senderOf (key msg)
  |} in
  let q := Js.trim (Js.slice (Js.length userPrefix + Js.length commandName) body) in
  let participant :=
    match groupMetadata with
    | Some md => if isGroup then findParticipant md (m_sender m) else None
    | None => None
    end in
  let isAdmins := adminRank participant in
  let isCreator := superadminRank participant in
  emit (AListen "group-participants.update") ;;;
  let ctx := {| args := args; q := q; from := from; isGroup := isGroup;
                groupMetadata := groupMetadata; sender := senderOf (key msg);
                isAdmins := isAdmins; isCreator := isCreator |} in
  match execute command with
  | Some f => emit (AExecute (pattern command) m ctx) ;;; f conn msg m ctx
  | None => throw
  end.

Definition handleMessage (commands : gmap string Descriptor) (conn : Conn)
    (msg : Message) (sessionId : string) : M unit :=
  catch
    (if String.eqb (remoteJid (key msg)) "status@broadcast" then
       autoStatus conn msg sessionId
     else if negb (JsV.truthy (message msg)) then ret tt
     else
       let messageType := Classifier.getMessageType msg in
       let body := Classifier.getMessageText msg messageType in
       userSettings <- liftDb (Mongo.loadUserSettingsFromMongo env sessionId) ;;
       let userPrefix := effectivePrefix userSettings in
       match body with
       | JStr body =>
           if negb (Js.startsWith body userPrefix) then ret tt
           else
             match Js.splitSpaces (Js.trim (Js.slice (Js.length userPrefix) body)) with
             | [] => throw
             | name :: args =>
                 let commandName := toLowerCase env name in
                 handled <- handleBuiltInCommands conn msg commandName args sessionId ;;
                 if handled : bool then ret tt
                 else
                   match commands !! commandName with
                   | Some command =>
                       catch (runCommand command conn msg body userPrefix commandName args)
                             (ret tt)
                   | None => ret tt
                   end
             end
       | _ => throw
       end)
    (ret tt).

End WithEnv.

End Dispatch.

(* ===================================================================== *)
(** ** The [promote] plugin *)
(* ===================================================================== *)

Module Promote.

(** How the [try] block of [execute] ends: it falls off its end, or it
    leaves through [return reply(text)].  The promise of such a reply is
    returned without being awaited, so its rejection is not caught by the
    [catch] of [execute]. *)
Inductive Exit : Type :=
| Done
| ReturnReply (text : string).

Definition isOwner (conn : Conn) (sender : string) : bool :=
  String.eqb (Js.split0 ":" (user_id conn)) (Js.split0 "@" sender).

Definition isAdmin (md : GroupMetadata) (sender : string) : bool :=
  Dispatch.adminRank (Dispatch.findParticipant md sender).

Definition promotedContent (target : string) : Content :=
  {| c_text := Some (TStr ("⚡ Promoted @" +:+ Js.split0 "@" target +:+ " to admin"));
     c_react := None;
     c_mentions := [JStr target];
     c_contextInfo := NewsletterForward |}.

Definition failedContent : Content :=
  {| c_text := Some (TStr "⚠️ Failed to promote user.");
     c_react := None;
     c_mentions := [];
     c_contextInfo := NewsletterForward |}.

Definition pickTarget (m : MArg) : JsVal :=
  if JsV.truthy (mentionedJid m) && JsV.positive (JsV.length (mentionedJid m))
  then JsV.first (mentionedJid m)
  else match quoted m with
       | Some qm => Classifier.q_sender qm
       | None => JNull
       end.

Definition tryBlock (conn : Conn) (msg : Message) (m : MArg) (ctx : Ctx) : M Exit :=
  if negb (isGroup ctx) then ret (ReturnReply "❌ This command can only be used in groups.")
  else
    metadata <- catch (md <- fetchGroupMetadata conn (from ctx) ;; ret (Some md)) (ret None) ;;
    match metadata with
    | None => ret (ReturnReply "❌ Failed to get group info.")
    | Some md =>
        if negb (isAdmin md (sender ctx)) && negb (isOwner conn (sender ctx))
        then ret (ReturnReply "❌ Only admins can use this command.")
        else
          let target := pickTarget m in
          if negb (JsV.truthy target)
          then ret (ReturnReply "❌ Mention or reply to a user to promote.")
          else
            request conn (ASendMessage (Some (from ctx)) (reactOnly "✅" (key msg)) NoOptions) ;;;
            request conn (AGroupParticipantsUpdate (from ctx) [target] "promote") ;;;
            match target with
            | JStr t =>
                request conn (ASendMessage (Some (from ctx)) (promotedContent t) QuotedMessage) ;;;
                ret Done
            | _ => throw
            end
    end.

Definition catchBlock (conn : Conn) (msg : Message) (ctx : Ctx) : M Exit :=
  request conn (ASendMessage (Some (from ctx)) (reactOnly "❌" (key msg)) NoOptions) ;;;
  request conn (ASendMessage (Some (from ctx)) failedContent QuotedMessage) ;;;
  ret Done.

Definition execute : Exec := fun conn msg m ctx =>
  exit <- catch (tryBlock conn msg m ctx) (catchBlock conn msg ctx) ;;
  match exit with
  | Done => ret tt
  | ReturnReply text => replyTo conn msg text
  end.

Definition descriptor : Descriptor :=
  Build_Descriptor "promote" (Some execute) None.

End Promote.

(* ===================================================================== *)
(** ** Connection lifecycle *)
(* ===================================================================== *)

Module Lifecycle.

(** [DisconnectReason.loggedOut] of the socket library. *)
Definition loggedOut : Z := 401.

Definition MAX_RECONNECT_ATTEMPTS : Z := 3.

Inductive Connection : Type :=
| Open
| Close
| Connecting.

(** A [connection.update] event; [statusCode] is
    [lastDisconnect?.error?.output?.statusCode]. *)
Record Update : Type := {
  connection : option Connection;
  statusCode : option Z;
  qr : bool
}.

(** Which [saveCreds] a socket was given: the one of
    [useMultiFileAuthState], or one that writes the Session record. *)
Inductive SaveCreds : Type :=
| FileAuthState
| MongoAuthState.

(** The variables one call of [setupConnectionHandlers] closes over. *)
Record Handle : Type := {
  h_sessionId : string;
  h_saveCreds : SaveCreds;
  hasShownConnectedMessage : bool;
  isLoggedOut : bool;
  reconnectAttempts : Z
}.

(** An entry of [activeConnections]; [ce_conn] names the socket by the
    index of its handle. *)
Record ConnEntry : Type := {
  ce_conn : nat;
  ce_hasLinked : option bool;
  ce_isNewUser : option bool
}.

(** The callbacks handed to [setTimeout], and the continuation of
    [/api/pair] after its wait. *)
Inductive Timer : Type :=
| TWelcome (h : nat)
| TReconnect (sessionId : string)
| TLogoutCleanup (sessionId : string)
| TPairContinue (number : string) (h : nat) (isNewUser : bool).

(** What the server pushes to its front end. *)
Inductive IoEvent : Type :=
| StatsUpdate (activeSockets totalUsers : Z)
| Linked (sessionId : string)
| Unlinked (sessionId : string)
| PairOk (pairingCode : string) (isNewUser : bool)
| PairBadRequest
| PairFailed
| WsClose (h : nat).

Record World : Type := {
  sys : Sys;
  commands : gmap string Descriptor;
  activeConnections : gmap string ConnEntry;
  activeSockets : Z;
  totalUsers : Z;
  isUserLoggedIn : bool;
  handles : list Handle;
  timers : list (Z * Timer);
  emitted : list IoEvent
}.

Definition with_sys (s : Sys) (w : World) : World :=
  {| sys := s; commands := commands w; activeConnections := activeConnections w;
     activeSockets := activeSockets w; totalUsers := totalUsers w;
     isUserLoggedIn := isUserLoggedIn w; handles := handles w;
     timers := timers w; emitted := emitted w |}.

Definition with_commands (c : gmap string Descriptor) (w : World) : World :=
  {| sys := sys w; commands := c; activeConnections := activeConnections w;
     activeSockets := activeSockets w; totalUsers := totalUsers w;
     isUserLoggedIn := isUserLoggedIn w; handles := handles w;
     timers := timers w; emitted := emitted w |}.

Definition with_activeConnections (m : gmap string ConnEntry) (w : World) : World :=
  {| sys := sys w; commands := commands w; activeConnections := m;
     activeSockets := activeSockets w; totalUsers := totalUsers w;
     isUserLoggedIn := isUserLoggedIn w; handles := handles w;
     timers := timers w; emitted := emitted w |}.

Definition with_activeSockets (n : Z) (w : World) : World :=
  {| sys := sys w; commands := commands w; activeConnections := activeConnections w;
     activeSockets := n; totalUsers := totalUsers w;
     isUserLoggedIn := isUserLoggedIn w; handles := handles w;
     timers := timers w; emitted := emitted w |}.

Definition with_totalUsers (n : Z) (w : World) : World :=
  {| sys := sys w; commands := commands w; activeConnections := activeConnections w;
     activeSockets := activeSockets w; totalUsers := n;
     isUserLoggedIn := isUserLoggedIn w; handles := handles w;
     timers := timers w; emitted := emitted w |}.

Definition with_isUserLoggedIn (b : bool) (w : World) : World :=
  {| sys := sys w; commands := commands w; activeConnections := activeConnections w;
     activeSockets := activeSockets w; totalUsers := totalUsers w;
     isUserLoggedIn := b; handles := handles w;
     timers := timers w; emitted := emitted w |}.

Definition with_handles (l : list Handle) (w : World) : World :=
  {| sys := sys w; commands := commands w; activeConnections := activeConnections w;
     activeSockets := activeSockets w; totalUsers := totalUsers w;
     isUserLoggedIn := isUserLoggedIn w; handles := l;
     timers := timers w; emitted := emitted w |}.

Definition with_timers (l : list (Z * Timer)) (w : World) : World :=
  {| sys := sys w; commands := commands w; activeConnections := activeConnections w;
     activeSockets := activeSockets w; totalUsers := totalUsers w;
     isUserLoggedIn := isUserLoggedIn w; handles := handles w;
     timers := l; emitted := emitted w |}.

Definition with_emitted (l : list IoEvent) (w : World) : World :=
  {| sys := sys w; commands := commands w; activeConnections := activeConnections w;
     activeSockets := activeSockets w; totalUsers := totalUsers w;
     isUserLoggedIn := isUserLoggedIn w; handles := handles w;
     timers := timers w; emitted := l |}.

Definition with_db (d : Mongo.Db) (w : World) : World :=
  with_sys {| db := d; tick := tick (sys w); trace := trace (sys w) |} w.

Definition theDb (w : World) : Mongo.Db := db (sys w).

(** A helper of the store, run by a handler. *)
Definition onDb (f : Mongo.Db -> Mongo.Db) (w : World) : World :=
  with_db (f (theDb w)) w.

(** A computation of the dispatcher, run by a handler. *)
Definition run {A : Type} (m : M A) (w : World) : World * Res A :=
  let '(s, r) := m (sys w) in (with_sys s w, r).

Definition ioEmit (e : IoEvent) (w : World) : World :=
  with_emitted (emitted w ++ [e]) w.

Definition broadcastStats (w : World) : World :=
  ioEmit (StatsUpdate (activeSockets w) (totalUsers w)) w.

(** [setTimeout(callback, delay)] *)
Definition setTimeout (t : Timer) (delay : Z) (w : World) : World :=
  with_timers (timers w ++ [(delay, t)]) w.

Definition setHandle (h : nat) (hs : Handle) (w : World) : World :=
  with_handles (<[h := hs]> (handles w)) w.

(** [setupConnectionHandlers(conn, sessionId, io, saveCreds)] for a new
    socket: the socket gets the next index, and its handlers start from
    fresh variables. *)
Definition setupConnectionHandlers (sessionId : string) (sc : SaveCreds) (w : World)
    : World :=
  with_handles
    (handles w ++ [{| h_sessionId := sessionId; h_saveCreds := sc;
                      hasShownConnectedMessage := false; isLoggedOut := false;
                      reconnectAttempts := 0 |}]) w.

Definition isLoggedOutCode (c : option Z) : bool :=
  match c with
  | Some n => n =? loggedOut
  | None => false
  end.

(** The session data written on a final disconnect that is no logout. *)
Definition inactiveSessionData : Mongo.SessionData :=
  {| Mongo.sd_creds := None; Mongo.sd_authState := None;
     Mongo.sd_settings := JObj []; Mongo.sd_isActive := Some false |}.

Definition onOpen (h : nat) (hs : Handle) (w : World) : World :=
  let w1 := with_activeSockets (activeSockets w + 1) (with_isUserLoggedIn true w) in
  let w2 := ioEmit (Linked (h_sessionId hs)) (broadcastStats w1) in
  let hs1 := {| h_sessionId := h_sessionId hs; h_saveCreds := h_saveCreds hs;
                hasShownConnectedMessage := true; isLoggedOut := false;
                reconnectAttempts := 0 |} in
  if hasShownConnectedMessage hs then setHandle h hs1 w2
  else setTimeout (TWelcome h) 2000 (setHandle h hs1 w2).

Definition onClose (h : nat) (hs : Handle) (code : option Z) (w : World) : World :=
  let sessionId := h_sessionId hs in
  let shouldReconnect := negb (isLoggedOutCode code) in
  if shouldReconnect && (reconnectAttempts hs <? MAX_RECONNECT_ATTEMPTS) then
    let attempts := reconnectAttempts hs + 1 in
    let hs1 := {| h_sessionId := sessionId; h_saveCreds := h_saveCreds hs;
                  hasShownConnectedMessage := false; isLoggedOut := isLoggedOut hs;
                  reconnectAttempts := attempts |} in
    setTimeout (TReconnect sessionId) (attempts * 5000) (setHandle h hs1 w)
  else
    let hs1 := {| h_sessionId := sessionId; h_saveCreds := h_saveCreds hs;
                  hasShownConnectedMessage := hasShownConnectedMessage hs;
                  isLoggedOut := true; reconnectAttempts := reconnectAttempts hs |} in
    let w1 := with_activeSockets (Z.max 0 (activeSockets w - 1))
                (with_isUserLoggedIn false (setHandle h hs1 w)) in
    let w2 := broadcastStats w1 in
    let w3 := if isLoggedOutCode code
              then setTimeout (TLogoutCleanup sessionId) 3000 w2
              else onDb (fun d => fst (Mongo.saveSessionToMongo sessionId inactiveSessionData d)) w2 in
    ioEmit (Unlinked sessionId)
      (with_activeConnections (delete sessionId (activeConnections w3)) w3).

Definition clearShown (hs : Handle) : Handle :=
  {| h_sessionId := h_sessionId hs; h_saveCreds := h_saveCreds hs;
     hasShownConnectedMessage := false; isLoggedOut := isLoggedOut hs;
     reconnectAttempts := reconnectAttempts hs |}.

(** The [connection.update] listener of socket [h]. *)
Definition onConnectionUpdate (h : nat) (u : Update) (w : World) : World :=
  match handles w !! h with
  | None => w
  | Some hs =>
      if qr u then setHandle h (clearShown hs) w
      else
        match connection u with
        | Some Open => onOpen h hs w
        | Some Close => onClose h hs (statusCode u) w
        | Some Connecting => setHandle h (clearShown hs) w
        | None => w
        end
  end.

(** The [creds.update] listener of socket [h]; [st] is [conn.authState]
    and [fileOk] tells whether the [saveCreds] of [useMultiFileAuthState]
    completes. *)
Definition onCredsUpdate (h : nat) (st : Mongo.AuthState) (fileOk : bool) (w : World)
    : World :=
  match handles w !! h with
  | None => w
  | Some hs =>
      let sd := {| Mongo.sd_creds := Mongo.as_creds st; Mongo.sd_authState := Some st;
                   Mongo.sd_settings := JObj []; Mongo.sd_isActive := Some true |} in
      let save := onDb (fun d => fst (Mongo.saveSessionToMongo (h_sessionId hs) sd d)) in
      match h_saveCreds hs with
      | FileAuthState => if fileOk then save w else w
      | MongoAuthState => save (save w)
      end
  end.

(** [initializeConnection(sessionId)]; [ok] tells whether
    [fetchLatestBaileysVersion] and [makeWASocket] complete. *)
Definition initializeConnection (sessionId : string) (ok : bool) (w : World) : World :=
  let '(d, sessionData) := Mongo.loadSessionFromMongo sessionId (theDb w) in
  let w1 := with_db d w in
  match sessionData with
  | None => w1
  | Some _ =>
      if ok then
        let h := length (handles w1) in
        setupConnectionHandlers sessionId MongoAuthState
          (with_activeConnections
             (<[sessionId := {| ce_conn := h; ce_hasLinked := None; ce_isNewUser := None |}]>
                (activeConnections w1)) w1)
      else with_activeConnections (delete sessionId (activeConnections w1)) w1
  end.

(** The loop of [reloadExistingSessions] over the active sessions. *)
Fixpoint reloadSessions (l : list (string * Mongo.SessionDoc)) (ok : string -> bool)
    (w : World) : World :=
  match l with
  | [] => w
  | (number, session) :: rest =>
      match Mongo.s_creds session with
      | Some _ =>
          let w1 := initializeConnection number (ok number) w in
          reloadSessions rest ok (with_activeSockets (activeSockets w1 + 1) w1)
      | None => reloadSessions rest ok w
      end
  end.

Definition activeSessions (d : Mongo.Db) : list (string * Mongo.SessionDoc) :=
  filter (fun x => Mongo.s_isActive (snd x) = true) (map_to_list (Mongo.sessions d)).

Definition reloadExistingSessions (ok : string -> bool) (w : World) : World :=
  if negb (Mongo.connected (theDb w)) then w
  else
    match Mongo.call (fun d => (d, activeSessions d)) (theDb w) with
    | (d, Some sessions) => broadcastStats (reloadSessions sessions ok (with_db d w))
    | (d, None) => broadcastStats (with_db d w)
    end.


Section WithEnv.
Variable env : Env.

(** One round of the loop of [subscribeToChannels]: whether the channel
    counts as followed. *)
Definition subscribeToChannel (conn : Conn) (channelJid : string) : M bool :=
  catch
    (match followMethod conn with
     | Some method => request conn (AFollow method channelJid)
     | None => request conn (ASendPresenceUpdate channelJid)
     end ;;;
     ret true)
    (catch (request conn (ASendPresenceUpdate channelJid) ;;; ret true) (ret false)).

Fixpoint subscribeAll (conn : Conn) (jids : list string) : M (list bool) :=
  match jids with
  | [] => ret []
  | jid :: rest =>
      r <- subscribeToChannel conn jid ;;
      rs <- subscribeAll conn rest ;;
      ret (r :: rs)
  end.

Definition subscribeToChannels (conn : Conn) : M (list bool) :=
  match CHANNEL_JIDS env with
  | Some jids => subscribeAll conn jids
  | None => throw
  end.

(** The callback of the welcome timer. *)
Definition welcome (conn : Conn) (sessionId : string) : M unit :=
  catch
    (userSettings <- liftDb (Mongo.loadUserSettingsFromMongo env sessionId) ;;
     subscriptionResults <- subscribeToChannels conn ;;
     let userJid := Js.split0 ":" (user_id conn) +:+ "@s.whatsapp.net" in
     request conn
       (ASendMessage (Some userJid)
          {| c_text := Some (TWelcomeNotice subscriptionResults
                               (Dispatch.effectivePrefix env userSettings));
             c_react := None;
             c_mentions := [JStr userJid];
             c_contextInfo := ConnectedAd |}
          NoOptions))
    (ret tt).

(** The first [messages.upsert] listener. *)
Definition onMessage (commands : gmap string Descriptor) (conn : Conn) (msg : Message)
    (sessionId : string) : M unit :=
  let botJid := user_id conn in
  let normalizedBotJid :=
    if Js.includes botJid ":" then Js.split0 ":" botJid +:+ "@s.whatsapp.net" else botJid in
  let isFromBot :=
    fromMe (key msg) ||
    match participant (key msg) with
    | Some p => negb (String.eqb p "") && String.eqb p normalizedBotJid
    | None => false
    end ||
    (negb (String.eqb (remoteJid (key msg)) "") &&
     String.eqb (remoteJid (key msg)) normalizedBotJid) in
  if fromMe (key msg) && negb isFromBot then ret tt
  else
    let from := remoteJid (key msg) in
    if Js.endsWith from "@newsletter" then Dispatch.handleMessage env commands conn msg sessionId
    else if Js.endsWith from "@g.us" then Dispatch.handleMessage env commands conn msg sessionId
    else if Js.endsWith from "@s.whatsapp.net" || isFromBot
    then Dispatch.handleMessage env commands conn msg sessionId
    else ret tt.

Definition isStatus (msg : Message) : bool :=
  negb (fromMe (key msg)) && String.eqb (remoteJid (key msg)) "status@broadcast".

(** The second listener: auto view of a status. *)
Definition autoView (conn : Conn) (msg : Message) (sessionId : string) : M unit :=
  catch
    (if isStatus msg then
       userSettings <- liftDb (Mongo.loadUserSettingsFromMongo env sessionId) ;;
       if Mongo.seen (Mongo.autoStatus userSettings)
       then request conn (AReadMessages (key msg))
       else ret tt
     else ret tt)
    (ret tt).

(** The third listener: auto like of a status. *)
Definition autoLike (conn : Conn) (msg : Message) (sessionId : string) : M unit :=
  catch
    (userSettings <- liftDb (Mongo.loadUserSettingsFromMongo env sessionId) ;;
     if isStatus msg && Mongo.react (Mongo.autoStatus userSettings) then
       n <- getTick ;;
       request conn
         (ASendMessage (Some (remoteJid (key msg)))
            (reactOnly (statusEmoji env n) (key msg))
            (StatusJidList [participant (key msg); Some (user_id conn)]))
     else ret tt)
    (ret tt).

(** A [messages.upsert] event on socket [h]: the three listeners in the
    order they were registered. *)
Definition onMessagesUpsert (h : nat) (conn : Conn) (msg : Message) (w : World) : World :=
  match handles w !! h with
  | None => w
  | Some hs =>
      fst (run (catch (onMessage (commands w) conn msg (h_sessionId hs)) (ret tt) ;;;
                autoView conn msg (h_sessionId hs) ;;;
                autoLike conn msg (h_sessionId hs)) w)
  end.

(** [savePersistentData()] *)
Definition savePersistentData (w : World) : World :=
  if negb (Mongo.connected (theDb w)) then w
  else
    onDb (fun d0 => fst (Mongo.call (fun d =>
      let old := Mongo.stats d in
      (Mongo.with_stats
         (Some {| Mongo.st_totalUsers := totalUsers w;
                  Mongo.st_totalConnections := activeSockets w;
                  Mongo.st_totalCommands := from_option Mongo.st_totalCommands 0 old;
                  Mongo.st_uptime := from_option Mongo.st_uptime 0 old + 30;
                  Mongo.st_lastUpdated := Mongo.clock d |}) d, tt)) d0)) w.

(** [loadPersistentData()] *)
Definition loadPersistentData (w : World) : World :=
  if negb (Mongo.connected (theDb w)) then w
  else
    match Mongo.call (fun d => (d, Mongo.stats d)) (theDb w) with
    | (d, Some (Some st)) => with_totalUsers (Mongo.st_totalUsers st) (with_db d w)
    | (d, Some None) =>
        match Mongo.call (fun d' =>
                (Mongo.with_stats
                   (Some {| Mongo.st_totalUsers := 0; Mongo.st_totalConnections := 0;
                            Mongo.st_totalCommands := 0; Mongo.st_uptime := 0;
                            Mongo.st_lastUpdated := Mongo.clock d' |}) d', tt)) d with
        | (d1, Some _) => with_db d1 w
        | (d1, None) => with_totalUsers 0 (with_db d1 w)
        end
    | (d, None) => with_totalUsers 0 (with_db d w)
    end.

Definition isDigit (a : ascii) : bool :=
  let n := nat_of_ascii a in (48 <=? n)%nat && (n <=? 57)%nat.

(** [number.replace(/\D/g, '')] *)
Fixpoint digitsOnly (s : string) : string :=
  match s with
  | EmptyString => EmptyString
  | String a s' => if isDigit a then String a (digitsOnly s') else digitsOnly s'
  end.

(** [/api/pair] from the creation of the socket to its wait. *)
Definition pairSocket (normalizedNumber : string) (sc : SaveCreds) (isNewUser versionOk : bool)
    (w : World) : World :=
  if versionOk then
    let h := length (handles w) in
    let hasLinked :=
      match activeConnections w !! normalizedNumber with
      | Some {| ce_hasLinked := Some true |} => true
      | _ => false
      end in
    let w1 := with_activeConnections
                (<[normalizedNumber := {| ce_conn := h; ce_hasLinked := Some hasLinked;
                                          ce_isNewUser := Some isNewUser |}]>
                   (activeConnections w)) w in
    setTimeout (TPairContinue normalizedNumber h isNewUser) 3000
      (setupConnectionHandlers normalizedNumber sc (broadcastStats w1))
  else ioEmit PairFailed w.

(** [POST /api/pair] up to its wait; [fileOk] and [versionOk] tell whether
    [useMultiFileAuthState] and [fetchLatestBaileysVersion] complete. *)
Definition pair (number : option string) (fileOk versionOk : bool) (w : World) : World :=
  match number with
  | None => ioEmit PairBadRequest w
  | Some number =>
      if String.eqb number "" then ioEmit PairBadRequest w
      else
        let normalizedNumber := digitsOnly number in
        let '(d, existingSession) := Mongo.loadSessionFromMongo normalizedNumber (theDb w) in
        let w1 := with_db d w in
        match existingSession with
        | Some _ => pairSocket normalizedNumber MongoAuthState false versionOk w1
        | None =>
            if fileOk then
              pairSocket normalizedNumber FileAuthState true versionOk
                (savePersistentData (with_totalUsers (totalUsers w1 + 1) w1))
            else ioEmit PairFailed w1
        end
  end.

(** [/api/pair] after its wait; [code] is what [requestPairingCode]
    resolves to, [None] when it rejects. *)
Definition pairContinue (number : string) (h : nat) (isNewUser : bool)
    (code : option string) (w : World) : World :=
  if isNewUser then
    match code with
    | Some pairingCode =>
        ioEmit (PairOk pairingCode isNewUser)
          (onDb (fun d => fst (Mongo.savePairingCodeToMongo number pairingCode d)) w)
    | None => ioEmit PairFailed (ioEmit (WsClose h) w)
    end
  else
    let '(d, stored) := Mongo.getPairingCodeFromMongo number (theDb w) in
    let pairingCode :=
      match stored with
      | Some c => if String.eqb c "" then "Already connected" else c
      | None => "Already connected"
      end in
    ioEmit (PairOk pairingCode isNewUser) (with_db d w).

(** The logout cleanup, three seconds after the final disconnect. *)
Definition logoutCleanup (sessionId : string) (w : World) : World :=
  onDb (fun d => Mongo.deletePairingCodeFromMongo sessionId
                   (Mongo.deleteSessionFromMongo sessionId d)) w.

(** What the outside contributes when a timer fires. *)
Record TimerInput : Type := {
  ti_conn : Conn;
  ti_ok : bool;
  ti_code : option string
}.

Definition fire (t : Timer) (i : TimerInput) (w : World) : World :=
  match t with
  | TWelcome h =>
      match handles w !! h with
      | Some hs => fst (run (welcome (ti_conn i) (h_sessionId hs)) w)
      | None => w
      end
  | TReconnect sessionId =>
      match activeConnections w !! sessionId with
      | Some _ => initializeConnection sessionId (ti_ok i) w
      | None => w
      end
  | TLogoutCleanup sessionId => logoutCleanup sessionId w
  | TPairContinue number h isNewUser => pairContinue number h isNewUser (ti_code i) w
  end.

(** What happens to the server.  [ETimer n i] fires the [n]-th pending
    timer: the delay of a timer is recorded, and any pending timer may be
    the next to fire.  [EStore] is the store going up or down, the clock
    moving, and a new script for the driver. *)
Inductive Event : Type :=
| EConnectionUpdate (h : nat) (u : Update)
| ECredsUpdate (h : nat) (st : Mongo.AuthState) (fileOk : bool)
| EMessagesUpsert (h : nat) (conn : Conn) (msg : Message)
| ETimer (n : nat) (i : TimerInput)
| EPair (number : option string) (fileOk versionOk : bool)
| EReloadExistingSessions (ok : string -> bool)
| ELoadPersistentData
| ESavePersistentData
| ELoadCommands (dir : option (list (string * Registry.ModuleExport)))
    (runtimeCommand : Descriptor)
| EStore (connected : bool) (faults : list bool) (clock : Z).

Definition step (e : Event) (w : World) : World :=
  match e with
  | EConnectionUpdate h u => onConnectionUpdate h u w
  | ECredsUpdate h st fileOk => onCredsUpdate h st fileOk w
  | EMessagesUpsert h conn msg => onMessagesUpsert h conn msg w
  | ETimer n i =>
      match timers w !! n with
      | Some (_, t) => fire t i (with_timers (delete n (timers w)) w)
      | None => w
      end
  | EPair number fileOk versionOk => pair number fileOk versionOk w
  | EReloadExistingSessions ok => reloadExistingSessions ok w
  | ELoadPersistentData => loadPersistentData w
  | ESavePersistentData => savePersistentData w
  | ELoadCommands dir runtimeCommand =>
      with_commands (Registry.loadCommands dir runtimeCommand) w
  | EStore c f t =>
      onDb (fun d => {| Mongo.connected := c; Mongo.faults := f; Mongo.clock := t;
                        Mongo.sessions := Mongo.sessions d;
                        Mongo.userSettings := Mongo.userSettings d;
                        Mongo.pairingCodes := Mongo.pairingCodes d;
                        Mongo.stats := Mongo.stats d |}) w
  end.

(** The server after a sequence of events. *)
Definition steps (es : list Event) (w : World) : World :=
  foldl (fun w e => step e w) w es.

End WithEnv.

(** On one socket the counter stays between zero and the cap. *)
Definition attemptsBounded (hs : Handle) : Prop :=
  0 <= reconnectAttempts hs <= MAX_RECONNECT_ATTEMPTS.

(** The server when the module has been loaded. *)
Definition start (d : Mongo.Db) : World :=
  {| sys := {| db := d; tick := 0; trace := [] |};
     commands := ∅; activeConnections := ∅; activeSockets := 0; totalUsers := 0;
     isUserLoggedIn := false; handles := []; timers := []; emitted := [] |}.

End Lifecycle.

(* ===================================================================== *)
(** ** Scenarios *)
(* ===================================================================== *)

Module Scenario.

Definition env0 : Env :=
  {| env_PREFIX := None; env_AUTO_STATUS_SEEN := None; env_AUTO_STATUS_REACT := None;
     env_AUTO_STATUS_REPLY := None; env_AUTO_STATUS_MSG := None;
     env_CHANNEL_JIDS := None; env_OWNER_NAME := None; env_BOT_NAME := None;
     CHANNEL_JIDS := None;
     statusEmoji := fun _ => "🔥";
     pingEmojis := fun _ => ("🔥", "⚡");
     toLowerCase := Js.toLowerCaseAscii |}.

(** A connected, empty store whose driver never rejects. *)
Definition db0 : Mongo.Db :=
  {| Mongo.connected := true; Mongo.faults := []; Mongo.clock := 1000;
     Mongo.sessions := ∅; Mongo.userSettings := ∅; Mongo.pairingCodes := [];
     Mongo.stats := None |}.

Definition sys0 : Sys := {| db := db0; tick := 0; trace := [] |}.

(** A socket of account [15551234567] on which every request completes;
    groups have the one member [adminJid], who is an admin. *)
Definition adminJid : string := "447700900001@s.whatsapp.net".

Definition conn0 : Conn :=
  {| user_id := "15551234567:5@s.whatsapp.net";
     has_newsletterSend := true;
     followMethod := Some NewsletterFollow;
     request_fails := fun _ => false;
     groupMetadata_at := fun _ _ =>
       Some {| participants := [{| p_id := adminJid; p_admin := Some "admin" |}] |} |}.

Definition textMessage (from : string) (sender : option string) (body : string) : Message :=
  {| key := {| remoteJid := from; participant := sender; fromMe := false; id := "3EB0" |};
     message := JObj [("conversation", JStr body)] |}.

Definition payloadOnly (payload : JsVal) : Message :=
  {| key := {| remoteJid := "447700900002@s.whatsapp.net"; participant := None;
               fromMe := false; id := "3EB1" |};
     message := payload |}.

Definition noop : Exec := fun _ _ _ _ => ret tt.

(** A single-descriptor module that declares an alias. *)
Definition kickDescriptor : Descriptor :=
  {| pattern := "kick"; execute := Some noop; alias := Some ["remove"] |}.

Definition runtimeDescriptor : Descriptor :=
  {| pattern := "runtime"; execute := Some noop; alias := None |}.

Definition singleModuleDir : option (list (string * Registry.ModuleExport)) :=
  Some [("kick.js",
         Registry.ExportsObject kickDescriptor
           [("pattern", Registry.EPrimitive); ("execute", Registry.EPrimitive);
            ("alias", Registry.EPrimitive)])].

(** The same descriptor, exported as the one member of a multi-descriptor
    module. *)
Definition multiModuleDir : option (list (string * Registry.ModuleExport)) :=
  Some [("group.js",
         Registry.ExportsObject {| pattern := ""; execute := None; alias := None |}
           [("kick", Registry.EObject kickDescriptor)])].

(** A member of a group who holds no rank there and is not the account
    of [conn0], the [.promote] they send to the group, and what the
    dispatcher hands to the plugin for it. *)
Definition memberJid : string := "447700900009@s.whatsapp.net".

Definition groupJid : string := "120363000000000001@g.us".

Definition promoteMessage : Message := textMessage groupJid (Some memberJid) ".promote".

Definition promoteArg : MArg :=
  {| mentionedJid := JArr []; quoted := None; m_sender := memberJid |}.

Definition promoteCtx : Ctx :=
  {| args := []; q := ""; from := groupJid; isGroup := true;
     groupMetadata := groupMetadata_at conn0 0%nat groupJid;
     sender := memberJid; isAdmins := false; isCreator := false |}.

(** A private chat with [strangerJid], whose number ends in the number of
    the account of [conn0] without being it. *)
Definition strangerJid : string := "915551234567@s.whatsapp.net".

Definition channelJid : string := "120363399470975987@newsletter".

(** A socket of the same account on which the request for the group
    metadata rejects, a registry that holds the [promote] plugin, and the
    context the dispatcher then builds for [promoteMessage]. *)
Definition connNoMetadata : Conn :=
  {| user_id := "15551234567:5@s.whatsapp.net";
     has_newsletterSend := true;
     followMethod := Some NewsletterFollow;
     request_fails := fun _ => false;
     groupMetadata_at := fun _ _ => None |}.

Definition promoteRegistry : gmap string Descriptor :=
  {[ "promote" := Promote.descriptor ]}.

Definition ctxNoMetadata : Ctx :=
  {| args := []; q := ""; from := groupJid; isGroup := true;
     groupMetadata := None; sender := memberJid; isAdmins := false; isCreator := false |}.

(** The life of one session.  [paired]: the number is paired on an empty
    store, the pairing code is issued, the transport reports its
    credentials, and the connection opens. *)
Definition number0 : string := "15551234567".

Definition auth0 : Mongo.AuthState :=
  {| Mongo.as_creds := Some "creds-1"; Mongo.as_keys := Some "keys-1" |}.

Definition input0 : Lifecycle.TimerInput :=
  {| Lifecycle.ti_conn := conn0; Lifecycle.ti_ok := true;
     Lifecycle.ti_code := Some "ABCD1234" |}.

Definition opened : Lifecycle.Update :=
  {| Lifecycle.connection := Some Lifecycle.Open; Lifecycle.statusCode := None;
     Lifecycle.qr := false |}.

(** A close with status 428, connection closed. *)
Definition closedLost : Lifecycle.Update :=
  {| Lifecycle.connection := Some Lifecycle.Close; Lifecycle.statusCode := Some 428;
     Lifecycle.qr := false |}.

Definition closedLoggedOut : Lifecycle.Update :=
  {| Lifecycle.connection := Some Lifecycle.Close;
     Lifecycle.statusCode := Some Lifecycle.loggedOut; Lifecycle.qr := false |}.

Definition paired : list Lifecycle.Event :=
  [Lifecycle.EPair (Some "+1 555 123 4567") true true;
   Lifecycle.ETimer 0 input0;
   Lifecycle.ECredsUpdate 0 auth0 true;
   Lifecycle.EConnectionUpdate 0 opened].

(** The socket of [paired] closes three times and a reconnect is
    scheduled each time; [capExhausted] adds the fourth close. *)
Definition threeCloses : list Lifecycle.Event :=
  paired ++ [Lifecycle.EConnectionUpdate 0 closedLost;
             Lifecycle.EConnectionUpdate 0 closedLost;
             Lifecycle.EConnectionUpdate 0 closedLost].

Definition capExhausted : list Lifecycle.Event :=
  threeCloses ++ [Lifecycle.EConnectionUpdate 0 closedLost].

(** Socket [h] closes, and the reconnect timer, the second pending timer
    after the welcome timer of [paired], fires and builds socket [h + 1]. *)
Definition reconnectRound (h : nat) : list Lifecycle.Event :=
  [Lifecycle.EConnectionUpdate h closedLost; Lifecycle.ETimer 1 input0].

(** Five closes in a row, each of the socket the reconnect before it
    built, and no open in between. *)
Definition fiveCloses : list Lifecycle.Event :=
  paired ++ reconnectRound 0 ++ reconnectRound 1 ++ reconnectRound 2 ++ reconnectRound 3
         ++ [Lifecycle.EConnectionUpdate 4 closedLost].

(** The account sets its prefix, the store goes down, the connection
    closes as logged out, and the cleanup timer fires. *)
Definition logoutStoreDown : list Lifecycle.Event :=
  paired ++ [Lifecycle.EMessagesUpsert 0 conn0
               (textMessage "15551234567@s.whatsapp.net" None ".prefix !");
             Lifecycle.EStore false [] 2000;
             Lifecycle.EConnectionUpdate 0 closedLoggedOut;
             Lifecycle.ETimer 1 input0].

(** Two pairing requests for a new number, both before the transport has
    reported credentials, then the same life up to a logout with the store
    up. *)
Definition pairedTwice : list Lifecycle.Event :=
  [Lifecycle.EPair (Some "15551234567") true true;
   Lifecycle.EPair (Some "15551234567") true true;
   Lifecycle.ETimer 0 input0;
   Lifecycle.ETimer 0 input0;
   Lifecycle.ECredsUpdate 1 auth0 true;
   Lifecycle.EConnectionUpdate 1 opened;
   Lifecycle.EConnectionUpdate 1 closedLoggedOut;
   Lifecycle.ETimer 1 input0].

(** The store of [db0] when it is down, when its driver rejects the next
    call, and when it completes one call and rejects the one after. *)
Definition dbDown : Mongo.Db :=
  {| Mongo.connected := false; Mongo.faults := []; Mongo.clock := 1000;
     Mongo.sessions := ∅; Mongo.userSettings := ∅; Mongo.pairingCodes := [];
     Mongo.stats := None |}.

Definition dbRejecting : Mongo.Db := Mongo.with_faults [true] db0.

Definition dbHalfRejecting : Mongo.Db := Mongo.with_faults [false; true] db0.

(** The session data the transport reports in [paired]. *)
Definition sessionData0 : Mongo.SessionData :=
  {| Mongo.sd_creds := Some "creds-1"; Mongo.sd_authState := Some auth0;
     Mongo.sd_settings := JObj []; Mongo.sd_isActive := Some true |}.

(** An admin of the group who asks to promote [memberJid], and a socket
    on which the third request, the update of the participants, is
    rejected. *)
Definition promoteArgMention : MArg :=
  {| mentionedJid := JArr [JStr memberJid]; quoted := None; m_sender := adminJid |}.

Definition adminCtx : Ctx :=
  {| args := ["@447700900009"]; q := "@447700900009"; from := groupJid; isGroup := true;
     groupMetadata := groupMetadata_at conn0 0%nat groupJid;
     sender := adminJid; isAdmins := true; isCreator := false |}.

Definition adminPromoteMessage : Message :=
  textMessage groupJid (Some adminJid) ".promote @447700900009".

Definition connUpdateRejected : Conn :=
  {| user_id := "15551234567:5@s.whatsapp.net";
     has_newsletterSend := true;
     followMethod := Some NewsletterFollow;
     request_fails := fun n => Nat.eqb n 2;
     groupMetadata_at := groupMetadata_at conn0 |}.

(** A socket on which the first request is rejected, and a registry with a
    plugin under the name of a built-in. *)
Definition connFirstRejected : Conn :=
  {| user_id := "15551234567:5@s.whatsapp.net";
     has_newsletterSend := true;
     followMethod := Some NewsletterFollow;
     request_fails := fun n => Nat.eqb n 0;
     groupMetadata_at := groupMetadata_at conn0 |}.

Definition menuDescriptor : Descriptor :=
  {| pattern := "menu"; execute := Some noop; alias := None |}.

Definition menuRegistry : gmap string Descriptor := {[ "menu" := menuDescriptor ]}.

Definition ownerJid : string := "15551234567@s.whatsapp.net".

(** A socket on which the group metadata can be fetched once, by the
    dispatcher, and not a second time, by the plugin; and the state the
    dispatcher leaves to the plugin. *)
Definition connMetadataOnce : Conn :=
  {| user_id := "15551234567:5@s.whatsapp.net";
     has_newsletterSend := true;
     followMethod := Some NewsletterFollow;
     request_fails := fun _ => false;
     groupMetadata_at := fun n jid =>
       if Nat.eqb n 0 then groupMetadata_at conn0 n jid else None |}.

Definition sysDispatched : Sys := {| db := db0; tick := 1; trace := [] |}.

(** A group of three: a member without rank, an admin and the creator of
    the group; and a socket that fetches its metadata. *)
Definition creatorJid : string := "447700900002@s.whatsapp.net".

Definition groupOfThree : GroupMetadata :=
  {| participants := [{| p_id := memberJid; p_admin := None |};
                      {| p_id := adminJid; p_admin := Some "admin" |};
                      {| p_id := creatorJid; p_admin := Some "superadmin" |}] |}.

Definition connGroupOfThree : Conn :=
  {| user_id := "15551234567:5@s.whatsapp.net";
     has_newsletterSend := true;
     followMethod := Some NewsletterFollow;
     request_fails := fun _ => false;
     groupMetadata_at := fun _ _ => Some groupOfThree |}.

(** The [.promote] that [who] sends to the group, what the dispatcher
    hands to the plugin for it, and the context it builds when the flags
    are [a] and [c]. *)
Definition promoteBy (who : string) : Message := textMessage groupJid (Some who) ".promote".

Definition argBy (who : string) : MArg :=
  {| mentionedJid := JArr []; quoted := None; m_sender := who |}.

Definition ctxOfThree (who : string) (a c : bool) : Ctx :=
  {| args := []; q := ""; from := groupJid; isGroup := true;
     groupMetadata := Some groupOfThree; sender := who; isAdmins := a; isCreator := c |}.

(** The number is paired, its credentials are stored, and the store goes
    down. *)
Definition pairedStoreDown : list Lifecycle.Event :=
  paired ++ [Lifecycle.EStore false [] 2000].

(** A status of a contact. *)
Definition statusMessage : Message :=
  {| key := {| remoteJid := "status@broadcast"; participant := Some strangerJid;
               fromMe := false; id := "3EB2" |};
     message := JObj [("imageMessage", JObj [("caption", JStr ".menu")])] |}.

(** The store once the account has set its prefix, so that its settings
    are those of a stored record. *)
Definition sysWithSettings : Sys :=
  {| db := Mongo.saveUserSettingsToMongo env0 number0 "!" db0; tick := 0; trace := [] |}.

Definition sysStoreDown : Sys := {| db := dbDown; tick := 0; trace := [] |}.

(** The closure state of the socket of [paired]: as it is built, and
    after [threeCloses]. *)
Definition handleBuilt : Lifecycle.Handle :=
  {| Lifecycle.h_sessionId := number0; Lifecycle.h_saveCreds := Lifecycle.FileAuthState;
     Lifecycle.hasShownConnectedMessage := false; Lifecycle.isLoggedOut := false;
     Lifecycle.reconnectAttempts := 0 |}.

Definition handleAtCap : Lifecycle.Handle :=
  {| Lifecycle.h_sessionId := number0; Lifecycle.h_saveCreds := Lifecycle.FileAuthState;
     Lifecycle.hasShownConnectedMessage := false; Lifecycle.isLoggedOut := false;
     Lifecycle.reconnectAttempts := 3 |}.

(** The number is paired and its socket is built; the transport has not
    reported credentials yet. *)
Definition pairedOnly : list Lifecycle.Event :=
  [Lifecycle.EPair (Some "+1 555 123 4567") true true; Lifecycle.ETimer 0 input0].

(** A directory in which [kick.js] is read after a module that registers
    the same pattern. *)
Definition kickPlain : Descriptor :=
  {| pattern := "kick"; execute := Some noop; alias := None |}.

Definition groupModule : list (string * Registry.ModuleExport) :=
  [("group.js",
    Registry.ExportsObject {| pattern := ""; execute := None; alias := None |}
      [("kick", Registry.EObject kickDescriptor)])].

End Scenario.

(* ===================================================================== *)
(** * Properties *)
(* ===================================================================== *)

(** ** Message classifier *)

Lemma falsy_get (v : JsVal) (k : string) :
  JsV.truthy v = false -> JsV.get v k = JUndef.
Proof. destruct v; simpl; intros H; try reflexivity; discriminate. Qed.

Lemma falsy_or (a b : JsVal) : JsV.truthy a = false -> JsV.or a b = b.
Proof. unfold JsV.or. intros ->. reflexivity. Qed.

Lemma truthy_or (a b : JsVal) : JsV.truthy a = true -> JsV.or a b = a.
Proof. unfold JsV.or. intros ->. reflexivity. Qed.

(** With the nine known fields unset, the text depends on the tag alone. *)
Lemma getMessageText_bare (msg : Message) (t : string) :
  JsV.truthy (JsV.get (message msg) "conversation") = false ->
  JsV.truthy (JsV.get (message msg) "extendedTextMessage") = false ->
  JsV.truthy (JsV.get (message msg) "imageMessage") = false ->
  JsV.truthy (JsV.get (message msg) "videoMessage") = false ->
  JsV.truthy (JsV.get (message msg) "documentMessage") = false ->
  Classifier.getMessageText msg t = Classifier.textOfBareTag t.
Proof.
  intros Hc He Hi Hv Hd.
  unfold Classifier.getMessageText, Classifier.textOfBareTag.
  rewrite (falsy_or _ _ Hc).
  rewrite (falsy_get _ "text" He), (falsy_get _ "caption" Hi),
    (falsy_get _ "caption" Hv), (falsy_get _ "fileName" Hd).
  reflexivity.
Qed.

(** C7 (as amended): the classification of every message, read off its
    payload.  A text message yields its body; an image or a video its
    caption, a document its file name, each with a fixed placeholder when
    that field is empty; audio, sticker, contact and location yield their
    placeholder; a tag found by the key scan, and [UNKNOWN], yield the
    bracketed tag unless the tag is one of the nine known ones.  A payload
    with only an [imageMessage] whose caption is [hi] is [IMAGE] with text
    [hi], and with an empty or absent caption the text is the placeholder. *)
Theorem classify_by_payload :
  (forall msg : Message,
     let m := message msg in
     Classifier.classify msg =
       if JsV.truthy (JsV.get m "conversation") then ("TEXT", JsV.get m "conversation")
       else if JsV.truthy (JsV.get m "extendedTextMessage")
         then ("TEXT", JsV.or (JsV.get (JsV.get m "extendedTextMessage") "text") (JStr ""))
       else if JsV.truthy (JsV.get m "imageMessage")
         then ("IMAGE", JsV.or (JsV.get (JsV.get m "imageMessage") "caption") (JStr "[Image]"))
       else if JsV.truthy (JsV.get m "videoMessage")
         then ("VIDEO", JsV.or (JsV.get (JsV.get m "videoMessage") "caption") (JStr "[Video]"))
       else if JsV.truthy (JsV.get m "audioMessage") then ("AUDIO", JStr "[Audio]")
       else if JsV.truthy (JsV.get m "documentMessage")
         then ("DOCUMENT",
               JsV.or (JsV.get (JsV.get m "documentMessage") "fileName") (JStr "[Document]"))
       else if JsV.truthy (JsV.get m "stickerMessage") then ("STICKER", JStr "[Sticker]")
       else if JsV.truthy (JsV.get m "contactMessage") then ("CONTACT", JStr "[Contact]")
       else if JsV.truthy (JsV.get m "locationMessage") then ("LOCATION", JStr "[Location]")
       else
         match Classifier.firstMessageKey (JsV.keys (JsV.or m (JObj []))) with
         | Some t => (t, Classifier.textOfBareTag t)
         | None => ("UNKNOWN", JStr "[UNKNOWN]")
         end) /\
  (forall k : MessageKey,
     Classifier.classify
       {| key := k; message := JObj [("imageMessage", JObj [("caption", JStr "hi")])] |}
     = ("IMAGE", JStr "hi")) /\
  (forall k : MessageKey,
     Classifier.classify
       {| key := k; message := JObj [("imageMessage", JObj [("caption", JStr "")])] |}
     = ("IMAGE", JStr "[Image]")) /\
  (forall k : MessageKey,
     Classifier.classify {| key := k; message := JObj [("imageMessage", JObj [])] |}
     = ("IMAGE", JStr "[Image]")).
Proof.
  split; [| repeat split; intros k; reflexivity].
  intros msg m. unfold Classifier.classify, Classifier.getMessageType. fold m.
  destruct (JsV.truthy (JsV.get m "conversation")) eqn:Hc.
  { unfold Classifier.getMessageText. fold m. simpl. by rewrite truthy_or. }
  destruct (JsV.truthy (JsV.get m "extendedTextMessage")) eqn:He.
  { unfold Classifier.getMessageText. fold m. simpl. by rewrite falsy_or. }
  destruct (JsV.truthy (JsV.get m "imageMessage")) eqn:Hi; [reflexivity |].
  destruct (JsV.truthy (JsV.get m "videoMessage")) eqn:Hv; [reflexivity |].
  destruct (JsV.truthy (JsV.get m "audioMessage")) eqn:Ha; [reflexivity |].
  destruct (JsV.truthy (JsV.get m "documentMessage")) eqn:Hd; [reflexivity |].
  destruct (JsV.truthy (JsV.get m "stickerMessage")) eqn:Hs; [reflexivity |].
  destruct (JsV.truthy (JsV.get m "contactMessage")) eqn:Hk; [reflexivity |].
  destruct (JsV.truthy (JsV.get m "locationMessage")) eqn:Hl; [reflexivity |].
  destruct (Classifier.firstMessageKey _) as [t |].
  - f_equal. by apply getMessageText_bare.
  - reflexivity.
Qed.

(** C7, the claim as stated, fails for documents: the text of a document
    is its file name, which is neither its caption nor a fixed label. *)
Lemma document_text_is_file_name :
  ~ exists label : string,
      forall msg : Message,
        Classifier.getMessageType msg = "DOCUMENT" ->
        Classifier.getMessageText msg "DOCUMENT"
          = JsV.get (JsV.get (message msg) "documentMessage") "caption" \/
        Classifier.getMessageText msg "DOCUMENT" = JStr label.
Proof.
  intros [label H].
  pose proof (H (Scenario.payloadOnly
                   (JObj [("documentMessage",
                           JObj [("fileName", JStr "a.pdf"); ("caption", JStr "hi")])]))
                eq_refl) as Ha.
  pose proof (H (Scenario.payloadOnly
                   (JObj [("documentMessage",
                           JObj [("fileName", JStr "b.pdf"); ("caption", JStr "hi")])]))
                eq_refl) as Hb.
  vm_compute in Ha, Hb.
  destruct Ha as [Ha | Ha]; [discriminate |].
  destruct Hb as [Hb | Hb]; [discriminate |].
  congruence.
Qed.

(** ** Command registry *)

Lemma setAliases_lookup_alias (d : Descriptor) (aliases : list string)
    (commands : gmap string Descriptor) (a : string) :
  alias d = Some aliases -> a ∈ aliases ->
  Registry.setAliases d commands !! a = Some d.
Proof.
  unfold Registry.setAliases. intros -> Ha.
  revert commands. induction aliases as [| b rest IH] using rev_ind; intros commands.
  - by apply elem_of_nil in Ha.
  - rewrite foldl_app. simpl.
    destruct (decide (b = a)) as [-> | Hne].
    + by rewrite lookup_insert_eq.
    + rewrite lookup_insert_ne by done. apply IH.
      apply elem_of_app in Ha as [Ha | Ha]; [done |].
      apply list_elem_of_singleton in Ha. congruence.
Qed.

Lemma setAliases_lookup_other (d : Descriptor) (commands : gmap string Descriptor)
    (a : string) :
  (forall aliases, alias d = Some aliases -> a ∉ aliases) ->
  Registry.setAliases d commands !! a = commands !! a.
Proof.
  unfold Registry.setAliases. destruct (alias d) as [aliases |]; [| done].
  intros H. specialize (H aliases eq_refl).
  revert commands. induction aliases as [| b rest IH] using rev_ind; intros commands.
  - done.
  - rewrite foldl_app. simpl.
    apply not_elem_of_app in H as [Hrest Hb].
    rewrite lookup_insert_ne.
    + by apply IH.
    + intros ->. apply Hb. by apply list_elem_of_singleton.
Qed.

(** A module that is itself a descriptor is registered under its pattern
    and under nothing else: its [alias] is not read. *)
Lemma loadModule_single (self : Descriptor) (entries : list (string * Registry.EntryValue))
    (commands : gmap string Descriptor) (name : string) :
  Registry.valid self = true ->
  Registry.loadModule (Registry.ExportsObject self entries) commands !! name =
    if decide (pattern self = name) then Some self else commands !! name.
Proof.
  intros Hv. unfold Registry.loadModule. rewrite Hv. apply lookup_insert.
Qed.

(** A descriptor that is the one member of a multi-descriptor module is
    registered under its pattern and under each of its aliases. *)
Lemma loadModule_member (self d : Descriptor) (k : string)
    (commands : gmap string Descriptor) (aliases : list string) (a : string) :
  Registry.valid self = false -> Registry.valid d = true ->
  alias d = Some aliases -> a ∈ aliases ->
  Registry.loadModule (Registry.ExportsObject self [(k, Registry.EObject d)]) commands !! a
    = Some d.
Proof.
  intros Hs Hd Ha Hin. unfold Registry.loadModule. rewrite Hs. simpl. rewrite Hd.
  by eapply setAliases_lookup_alias.
Qed.

Lemma setAliases_valid (d : Descriptor) (commands : gmap string Descriptor) :
  Registry.valid d = true ->
  map_Forall (fun _ c => Registry.valid c = true) commands ->
  map_Forall (fun _ c => Registry.valid c = true) (Registry.setAliases d commands).
Proof.
  intros Hd. unfold Registry.setAliases. destruct (alias d) as [aliases |]; [| done].
  revert commands. induction aliases as [| a rest IH]; intros commands Hc; simpl; [done |].
  apply IH. by apply map_Forall_insert_2.
Qed.

Lemma loadEntries_valid (entries : list (string * Registry.EntryValue))
    (commands : gmap string Descriptor) :
  map_Forall (fun _ c => Registry.valid c = true) commands ->
  map_Forall (fun _ c => Registry.valid c = true) (Registry.loadEntries entries commands).
Proof.
  revert commands.
  induction entries as [| [k [| | d]] rest IH]; intros commands Hc; simpl; auto.
  destruct (Registry.valid d) eqn:Hd; [| auto].
  apply IH, setAliases_valid; [done |]. by apply map_Forall_insert_2.
Qed.

Lemma loadModule_valid (m : Registry.ModuleExport) (commands : gmap string Descriptor) :
  map_Forall (fun _ c => Registry.valid c = true) commands ->
  map_Forall (fun _ c => Registry.valid c = true) (Registry.loadModule m commands).
Proof.
  intros Hc. destruct m as [| | self entries | self]; simpl; auto.
  - destruct (Registry.valid self) eqn:Hs;
      [by apply map_Forall_insert_2 | by apply loadEntries_valid].
  - destruct (Registry.valid self) eqn:Hs; [by apply map_Forall_insert_2 | done].
Qed.

(** Whatever the directory holds, every descriptor in the registry has a
    pattern and a body. *)
Lemma loadCommands_registers_valid (dir : option (list (string * Registry.ModuleExport)))
    (runtimeCommand : Descriptor) (name : string) (d : Descriptor) :
  Registry.loadCommands dir runtimeCommand !! name = Some d ->
  pattern d <> "" /\ is_Some (execute d).
Proof.
  intros Hd.
  assert (map_Forall (fun _ c => Registry.valid c = true)
            (Registry.loadCommands dir runtimeCommand)) as Hall.
  { unfold Registry.loadCommands. destruct dir as [files |]; [| apply map_Forall_empty].
    assert (forall (l : list (string * Registry.ModuleExport)) cs,
              map_Forall (fun _ c => Registry.valid c = true) cs ->
              map_Forall (fun _ c => Registry.valid c = true)
                (foldl (fun cs f => Registry.loadModule (snd f) cs) cs l)) as Hfold.
    { induction l as [| f l IH]; intros cs Hcs; simpl; [done |].
      by apply IH, loadModule_valid. }
    destruct (Registry.valid runtimeCommand) eqn:Hr.
    - apply map_Forall_insert_2; [done |]. apply Hfold, map_Forall_empty.
    - apply Hfold, map_Forall_empty. }
  specialize (Hall name d Hd). unfold Registry.valid in Hall.
  apply andb_true_iff in Hall as [Hp He]. split.
  - intros E. rewrite E in Hp. discriminate.
  - by destruct (execute d).
Qed.

(** C4: a module that exports one descriptor with an alias is registered
    under its pattern, and the lookup of its alias finds nothing; the same
    descriptor exported as a member of a multi-descriptor module is found
    under its alias too. *)
Theorem single_descriptor_alias_is_not_registered :
  Registry.loadCommands Scenario.singleModuleDir Scenario.runtimeDescriptor !! "kick"
    = Some Scenario.kickDescriptor /\
  Registry.loadCommands Scenario.singleModuleDir Scenario.runtimeDescriptor !! "remove"
    = None /\
  Registry.loadCommands Scenario.multiModuleDir Scenario.runtimeDescriptor !! "kick"
    = Some Scenario.kickDescriptor /\
  Registry.loadCommands Scenario.multiModuleDir Scenario.runtimeDescriptor !! "remove"
    = Some Scenario.kickDescriptor.
Proof. repeat split; vm_compute; reflexivity. Qed.

(** ** The promote plugin *)

(** C9 (as amended): in a group, when [execute]'s own request for the
    metadata resolves, the metadata lists the sender with no admin rank and
    the sender is not the account of the socket, [execute] asks for the
    metadata, sends the denial as a reply to the message, and returns; it
    issues no other request, so the participants of the group are never
    updated. *)
Theorem promote_denies_sender_without_rank (conn : Conn) (msg : Message) (m : MArg)
    (ctx : Ctx) (s : Sys) (md : GroupMetadata) :
  isGroup ctx = true ->
  groupMetadata_at conn (tick s) (from ctx) = Some md ->
  Promote.isAdmin md (sender ctx) = false ->
  Promote.isOwner conn (sender ctx) = false ->
  Promote.execute conn msg m ctx s =
    ({| db := db s; tick := S (S (tick s));
        trace := trace s ++
          [AGroupMetadata (from ctx);
           ASendMessage (Some (remoteJid (key msg)))
             (textOnly (TStr "❌ Only admins can use this command.")) QuotedMessage] |},
     if request_fails conn (S (tick s)) then Err else Ok tt) /\
  forall jid targets action,
    AGroupParticipantsUpdate jid targets action ∈ trace (fst (Promote.execute conn msg m ctx s)) ->
    AGroupParticipantsUpdate jid targets action ∈ trace s.
Proof.
  intros Hg Hmd Hadmin Howner.
  assert (Promote.execute conn msg m ctx s =
    ({| db := db s; tick := S (S (tick s));
        trace := trace s ++
          [AGroupMetadata (from ctx);
           ASendMessage (Some (remoteJid (key msg)))
             (textOnly (TStr "❌ Only admins can use this command.")) QuotedMessage] |},
     if request_fails conn (S (tick s)) then Err else Ok tt)) as Heq.
  { unfold Promote.execute, Promote.tryBlock, bind, catch, fetchGroupMetadata, ret.
    rewrite Hg. simpl. rewrite Hmd. simpl. rewrite Hadmin, Howner. simpl.
    unfold replyTo, request. simpl. by rewrite <- app_assoc. }
  split; [exact Heq |].
  intros jid targets action. rewrite Heq. simpl.
  rewrite elem_of_app. intros [H | H]; [done |].
  apply elem_of_cons in H as [H | H]; [discriminate |].
  apply list_elem_of_singleton in H. discriminate.
Qed.

Lemma promote_denies_member :
  Promote.execute Scenario.conn0 Scenario.promoteMessage Scenario.promoteArg
    Scenario.promoteCtx Scenario.sys0 =
    ({| db := Scenario.db0; tick := 2;
        trace := [AGroupMetadata Scenario.groupJid;
                  ASendMessage (Some Scenario.groupJid)
                    (textOnly (TStr "❌ Only admins can use this command.")) QuotedMessage] |},
     Ok tt).
Proof.
  exact (proj1 (promote_denies_sender_without_rank Scenario.conn0 Scenario.promoteMessage
                  Scenario.promoteArg Scenario.promoteCtx Scenario.sys0
                  {| participants := [{| p_id := Scenario.adminJid; p_admin := Some "admin" |}] |}
                  eq_refl eq_refl eq_refl eq_refl)).
Defined.

(** When [execute]'s own request for the metadata rejects, the sender is
    told that the group information could not be fetched, whatever their
    rank: the denial is not sent, and nothing else is requested. *)
Lemma promote_without_metadata_reports_failure (conn : Conn) (msg : Message) (m : MArg)
    (ctx : Ctx) (s : Sys) :
  isGroup ctx = true ->
  groupMetadata_at conn (tick s) (from ctx) = None ->
  Promote.execute conn msg m ctx s =
    ({| db := db s; tick := S (S (tick s));
        trace := trace s ++
          [AGroupMetadata (from ctx);
           ASendMessage (Some (remoteJid (key msg)))
             (textOnly (TStr "❌ Failed to get group info.")) QuotedMessage] |},
     if request_fails conn (S (tick s)) then Err else Ok tt).
Proof.
  intros Hg Hmd.
  unfold Promote.execute, Promote.tryBlock, bind, catch, fetchGroupMetadata, ret.
  rewrite Hg. simpl. rewrite Hmd. simpl.
  unfold replyTo, request. simpl. by rewrite <- app_assoc.
Qed.

(** C9, the claim as stated, fails when the plugin cannot fetch the
    metadata: the member of [promoteCtx], whom the metadata the dispatcher
    fetched lists without rank and who is not the account, gets the reply
    that the group information could not be fetched, and no denial. *)
Lemma promote_without_metadata_sends_no_denial :
  isGroup Scenario.promoteCtx = true /\
  (fun md => Promote.isAdmin md (sender Scenario.promoteCtx))
    <$> groupMetadata Scenario.promoteCtx = Some false /\
  Promote.isOwner Scenario.connMetadataOnce (sender Scenario.promoteCtx) = false /\
  Promote.execute Scenario.connMetadataOnce Scenario.promoteMessage Scenario.promoteArg
    Scenario.promoteCtx Scenario.sysDispatched =
    ({| db := Scenario.db0; tick := 3;
        trace := [AGroupMetadata Scenario.groupJid;
                  ASendMessage (Some Scenario.groupJid)
                    (textOnly (TStr "❌ Failed to get group info.")) QuotedMessage] |},
     Ok tt).
Proof. repeat split; vm_compute; reflexivity. Qed.

(** ** Dispatch *)

Lemma load_settings_quiet (env : Env) (sessionId : string) (s : Sys) :
  liftDb (Mongo.loadUserSettingsFromMongo env sessionId) s =
    ({| db := fst (Mongo.loadUserSettingsFromMongo env sessionId (db s));
        tick := tick s; trace := trace s |},
     Ok (snd (Mongo.loadUserSettingsFromMongo env sessionId (db s)))).
Proof.
  unfold liftDb. by destruct (Mongo.loadUserSettingsFromMongo env sessionId (db s)).
Qed.

Lemma isBuiltIn_false (name : string) :
  Dispatch.isBuiltIn name = false ->
  (String.eqb name "ping" || String.eqb name "speed") = false /\
  String.eqb name "prefix" = false /\ Dispatch.isMenuName name = false.
Proof.
  unfold Dispatch.isBuiltIn. intros H.
  apply orb_false_iff in H as [H Hmenu].
  apply orb_false_iff in H as [H Hprefix].
  auto.
Qed.

(** Outside a newsletter, a name that is no built-in is left to the
    registry, and nothing is sent. *)
Lemma handleBuiltInCommands_unknown (env : Env) (conn : Conn) (msg : Message)
    (name : string) (args : list string) (sessionId : string) (s : Sys) :
  Js.endsWith (remoteJid (key msg)) "@newsletter" = false ->
  Dispatch.isBuiltIn name = false ->
  Dispatch.handleBuiltInCommands env conn msg name args sessionId s =
    ({| db := fst (Mongo.loadUserSettingsFromMongo env sessionId (db s));
        tick := tick s; trace := trace s |}, Ok false).
Proof.
  intros Hnl Hb. apply isBuiltIn_false in Hb as (Hping & Hprefix & Hmenu).
  unfold Dispatch.handleBuiltInCommands, catch, bind.
  rewrite load_settings_quiet, Hnl.
  unfold Dispatch.chatCommand. rewrite Hping, Hprefix, Hmenu. reflexivity.
Qed.

(** Reading the settings leaves the collections, the connection and the
    clock of the store as they are. *)
Lemma load_settings_frame (env : Env) (sessionId : string) (d : Mongo.Db) :
  let d' := fst (Mongo.loadUserSettingsFromMongo env sessionId d) in
  Mongo.sessions d' = Mongo.sessions d /\
  Mongo.userSettings d' = Mongo.userSettings d /\
  Mongo.pairingCodes d' = Mongo.pairingCodes d /\
  Mongo.stats d' = Mongo.stats d /\
  Mongo.connected d' = Mongo.connected d /\
  Mongo.clock d' = Mongo.clock d.
Proof.
  destruct d as [c f t ss us pcs st].
  unfold Mongo.loadUserSettingsFromMongo, Mongo.call. simpl.
  destruct c; simpl; [| done].
  destruct f as [| [|] f]; simpl; [by destruct (us !! sessionId) | done |
                                   by destruct (us !! sessionId)].
Qed.

(** In a newsletter, a name that is neither [ping] nor a name of the menu
    is acknowledged through [newsletterSend] when the socket has it, and
    counts as handled whether or not the acknowledgement is sent. *)
Lemma handleBuiltInCommands_newsletter_other (env : Env) (conn : Conn) (msg : Message)
    (name : string) (args : list string) (sessionId : string) (s : Sys) :
  Js.endsWith (remoteJid (key msg)) "@newsletter" = true ->
  String.eqb name "ping" = false ->
  Dispatch.isMenuName name = false ->
  let ack :=
    if has_newsletterSend conn
    then [ANewsletterSend (remoteJid (key msg)) (TStr ("✅ Command received: " +:+ name))]
    else [] in
  Dispatch.handleBuiltInCommands env conn msg name args sessionId s =
    ({| db := fst (Mongo.loadUserSettingsFromMongo env sessionId (db s));
        tick := (tick s + length ack)%nat; trace := trace s ++ ack |}, Ok true).
Proof.
  intros Hnl Hping Hmenu. cbv zeta.
  unfold Dispatch.handleBuiltInCommands, catch at 1, bind at 1.
  rewrite load_settings_quiet, Hnl. cbn [db tick trace].
  unfold Dispatch.newsletterCommand. rewrite Hping, Hmenu.
  unfold bind, catch, request, ret. cbn [db tick trace].
  destruct (has_newsletterSend conn); simpl.
  - replace (tick s + 1)%nat with (S (tick s)) by lia.
    by destruct (request_fails conn (tick s)).
  - by rewrite Nat.add_0_r, app_nil_r.
Qed.

(** C5 (as amended): a message whose body starts with the effective
    prefix and whose command name is no built-in and is not in the registry
    gets no answer in a chat that is neither a newsletter nor the status
    broadcast: [handleMessage] issues no request at all and leaves every
    collection of the store as it was.  In a newsletter the command is
    acknowledged, by one [newsletterSend] with the text
    [✅ Command received: <name>], when the socket has [newsletterSend] and
    the message has a payload; nothing is requested otherwise.
    [handleMessage] returns normally in every case, also when the
    acknowledgement is rejected. *)
Theorem unknown_command_is_silent (env : Env) (commands : gmap string Descriptor)
    (conn : Conn) (msg : Message) (sessionId : string) (s : Sys)
    (body name : string) (args : list string) :
  remoteJid (key msg) <> "status@broadcast" ->
  Classifier.getMessageText msg (Classifier.getMessageType msg) = JStr body ->
  let userPrefix :=
    Dispatch.effectivePrefix env (snd (Mongo.loadUserSettingsFromMongo env sessionId (db s))) in
  Js.startsWith body userPrefix = true ->
  Js.splitSpaces (Js.trim (Js.slice (Js.length userPrefix) body)) = name :: args ->
  Dispatch.isBuiltIn (toLowerCase env name) = false ->
  commands !! toLowerCase env name = None ->
  let ack :=
    if Js.endsWith (remoteJid (key msg)) "@newsletter" && JsV.truthy (message msg) &&
       has_newsletterSend conn
    then [ANewsletterSend (remoteJid (key msg))
            (TStr ("✅ Command received: " +:+ toLowerCase env name))]
    else [] in
  exists d : Mongo.Db,
    Dispatch.handleMessage env commands conn msg sessionId s =
      ({| db := d; tick := (tick s + length ack)%nat; trace := trace s ++ ack |}, Ok tt) /\
    Mongo.sessions d = Mongo.sessions (db s) /\
    Mongo.userSettings d = Mongo.userSettings (db s) /\
    Mongo.pairingCodes d = Mongo.pairingCodes (db s) /\
    Mongo.stats d = Mongo.stats (db s).
Proof.
  intros Hst Hbody userPrefix Hpre Hsplit Hb Hreg.
  unfold Dispatch.handleMessage, catch.
  apply String.eqb_neq in Hst. rewrite Hst.
  destruct (JsV.truthy (message msg)); simpl.
  2: { exists (db s). rewrite andb_false_r. simpl. rewrite Nat.add_0_r, app_nil_r.
       by destruct s. }
  rewrite andb_true_r.
  pose proof (load_settings_frame env sessionId (db s)) as (Hs1 & Hu1 & Hp1 & Ht1 & _).
  pose proof (load_settings_frame env sessionId
                (fst (Mongo.loadUserSettingsFromMongo env sessionId (db s))))
    as (Hs2 & Hu2 & Hp2 & Ht2 & _).
  exists (fst (Mongo.loadUserSettingsFromMongo env sessionId
                 (fst (Mongo.loadUserSettingsFromMongo env sessionId (db s))))).
  split; [| by rewrite Hs2, Hu2, Hp2, Ht2].
  unfold bind. rewrite load_settings_quiet, Hbody. fold userPrefix.
  rewrite Hpre. simpl. rewrite Hsplit.
  destruct (Js.endsWith (remoteJid (key msg)) "@newsletter") eqn:Hnl.
  - apply isBuiltIn_false in Hb as (Hping & _ & Hmenu).
    apply orb_false_iff in Hping as [Hping _].
    rewrite (handleBuiltInCommands_newsletter_other _ _ _ _ _ _ _ Hnl Hping Hmenu).
    simpl. by destruct (has_newsletterSend conn).
  - rewrite (handleBuiltInCommands_unknown _ _ _ _ _ _ _ Hnl Hb). simpl.
    rewrite Hreg. simpl. by rewrite Nat.add_0_r, app_nil_r.
Qed.

Lemma unknown_command_in_private_chat :
  exists d : Mongo.Db,
    Dispatch.handleMessage Scenario.env0 ∅ Scenario.conn0
      (Scenario.textMessage Scenario.strangerJid None ".unknowncmd args") "15551234567"
      Scenario.sys0
    = ({| db := d; tick := 0; trace := [] |}, Ok tt) /\
    Mongo.sessions d = ∅ /\ Mongo.userSettings d = ∅ /\
    Mongo.pairingCodes d = [] /\ Mongo.stats d = None.
Proof.
  apply (unknown_command_is_silent Scenario.env0 ∅ Scenario.conn0
           (Scenario.textMessage Scenario.strangerJid None ".unknowncmd args")
           "15551234567" Scenario.sys0 ".unknowncmd args" "unknowncmd" ["args"]).
  - discriminate.
  - reflexivity.
  - reflexivity.
  - reflexivity.
  - reflexivity.
  - reflexivity.
Defined.

(** C5, the claim as stated, fails in a newsletter: there an unknown
    command is acknowledged through [newsletterSend]. *)
Lemma unknown_command_in_newsletter_is_acknowledged :
  trace (fst (Dispatch.handleMessage Scenario.env0 ∅ Scenario.conn0
                (Scenario.textMessage Scenario.channelJid None ".unknowncmd args")
                "15551234567" Scenario.sys0))
  = [ANewsletterSend Scenario.channelJid (TStr "✅ Command received: unknowncmd")].
Proof. vm_compute. reflexivity. Qed.

(** Outside a newsletter, a sender who fails the owner test of [prefix]
    gets the refusal and nothing else, and the settings are not written. *)
Lemma prefix_refuses_failed_owner_test (env : Env) (conn : Conn) (msg : Message)
    (args : list string) (sessionId : string) (s : Sys) :
  Js.endsWith (remoteJid (key msg)) "@newsletter" = false ->
  Dispatch.passesOwnerCheck (user_id conn) (senderOf (key msg)) = false ->
  Dispatch.handleBuiltInCommands env conn msg "prefix" args sessionId s =
    ({| db := fst (Mongo.loadUserSettingsFromMongo env sessionId (db s));
        tick := S (tick s);
        trace := trace s ++
          [ASendMessage (Some (remoteJid (key msg)))
             (textOnly (TStr ("❌ 𝙾𝚠𝚗𝚎𝚛 𝚘𝚗𝚕𝚢 " +:+ OWNER_NAME env))) QuotedMessage] |},
     Ok (negb (request_fails conn (tick s)))).
Proof.
  intros Hnl Hown.
  unfold Dispatch.handleBuiltInCommands, catch, bind.
  rewrite load_settings_quiet, Hnl.
  unfold Dispatch.chatCommand. simpl. rewrite Hown. simpl.
  unfold bind, request. simpl.
  by destruct (request_fails conn (tick s)).
Qed.

(** A sender whose identifier starts with the identifier of the account
    up to its device suffix passes the owner test. *)
Lemma owner_passes_owner_test (ownerJid senderJid : string) :
  Js.startsWith senderJid (Js.split0 ":" ownerJid) = true ->
  Dispatch.passesOwnerCheck ownerJid senderJid = true.
Proof.
  intros Hpre. unfold Dispatch.passesOwnerCheck.
  assert (Js.includes senderJid (Js.split0 ":" ownerJid) = true) as ->.
  { destruct senderJid; cbn [Js.includes]; by rewrite Hpre. }
  apply orb_true_r.
Qed.

(** C6: the [prefix] command accepts a sender whose identifier contains
    the number of the account without having the same base identifier: the
    stranger is not refused, and the prefix of the session is rewritten. *)
Theorem prefix_accepts_sender_containing_owner_number :
  Dispatch.baseIdentifier Scenario.strangerJid
    <> Dispatch.baseIdentifier (user_id Scenario.conn0) /\
  Dispatch.passesOwnerCheck (user_id Scenario.conn0) Scenario.strangerJid = true /\
  trace (fst (Dispatch.handleMessage Scenario.env0 ∅ Scenario.conn0
                (Scenario.textMessage Scenario.strangerJid None ".prefix !")
                "15551234567" Scenario.sys0))
  = [ASendMessage (Some Scenario.strangerJid)
       (textOnly (TStr "✅ 𝙿𝚛𝚎𝚏𝚒𝚡 𝚞𝚙𝚍𝚊𝚝𝚎𝚍 𝚝𝚘: !")) QuotedMessage] /\
  Mongo.prefix <$>
    (Mongo.userSettings
       (db (fst (Dispatch.handleMessage Scenario.env0 ∅ Scenario.conn0
                   (Scenario.textMessage Scenario.strangerJid None ".prefix !")
                   "15551234567" Scenario.sys0))) !! "15551234567")
  = Some "!".
Proof.
  split; [| split; [| split]].
  - vm_compute. discriminate.
  - vm_compute. reflexivity.
  - vm_compute. reflexivity.
  - vm_compute. reflexivity.
Qed.

Lemma endsWith_group_not_newsletter (from : string) :
  Js.endsWith from "@g.us" = true ->
  Js.endsWith from "@newsletter" = false /\ from <> "status@broadcast".
Proof.
  intros H. split.
  - unfold Js.endsWith in *.
    change (String.rev "@g.us") with "su.g@" in H.
    change (String.rev "@newsletter") with "rettelswen@".
    destruct (String.rev from) as [| a r]; cbn [Js.startsWith] in *; [discriminate |].
    destruct (Ascii.eqb "s" a) eqn:Ha; [| discriminate].
    apply Ascii.eqb_eq in Ha. subst a. reflexivity.
  - intros ->. vm_compute in H. discriminate.
Qed.

(** C8: for a message of a group whose command is in the registry, when
    the request for the group metadata rejects, [handleMessage] goes on:
    it builds the context with [groupMetadata] null and [isAdmins] and
    [isCreator] false, and enters the body of the plugin once with it. *)
Theorem metadata_failure_does_not_abort_dispatch (env : Env)
    (commands : gmap string Descriptor) (conn : Conn) (msg : Message)
    (sessionId : string) (s : Sys) (body name : string) (args : list string)
    (command : Descriptor) (f : Exec) :
  Js.endsWith (remoteJid (key msg)) "@g.us" = true ->
  JsV.truthy (message msg) = true ->
  Classifier.getMessageText msg (Classifier.getMessageType msg) = JStr body ->
  let userPrefix :=
    Dispatch.effectivePrefix env (snd (Mongo.loadUserSettingsFromMongo env sessionId (db s))) in
  Js.startsWith body userPrefix = true ->
  Js.splitSpaces (Js.trim (Js.slice (Js.length userPrefix) body)) = name :: args ->
  Dispatch.isBuiltIn (toLowerCase env name) = false ->
  commands !! toLowerCase env name = Some command ->
  execute command = Some f ->
  groupMetadata_at conn (tick s) (remoteJid (key msg)) = None ->
  let m := {| mentionedJid :=
                JsV.or (JsV.get (JsV.get (JsV.get (message msg) "extendedTextMessage")
                                   "contextInfo") "mentionedJid") (JArr []);
              quoted := Classifier.getQuotedMessage msg;
              m_sender := senderOf (key msg) |} in
  let ctx := {| args := args;
                q := Js.trim (Js.slice (Js.length userPrefix +
                                        Js.length (toLowerCase env name)) body);
                from := remoteJid (key msg);
                isGroup := true;
                groupMetadata := None;
                sender := senderOf (key msg);
                isAdmins := false;
                isCreator := false |} in
  exists d : Mongo.Db,
    Dispatch.handleMessage env commands conn msg sessionId s =
      catch (f conn msg m ctx) (ret tt)
        {| db := d; tick := S (tick s);
           trace := trace s ++ [AGroupMetadata (remoteJid (key msg));
                                AListen "group-participants.update";
                                AExecute (pattern command) m ctx] |}.
Proof.
  intros Hg Hmsg Hbody userPrefix Hpre Hsplit Hb Hreg Hexec Hmd m ctx.
  destruct (endsWith_group_not_newsletter _ Hg) as [Hnl Hst].
  unfold Dispatch.handleMessage.
  apply String.eqb_neq in Hst. rewrite Hst, Hmsg. simpl.
  exists (fst (Mongo.loadUserSettingsFromMongo env sessionId
                 (fst (Mongo.loadUserSettingsFromMongo env sessionId (db s))))).
  unfold catch at 1, bind at 1. rewrite load_settings_quiet, Hbody. fold userPrefix.
  rewrite Hpre. cbn [negb]. rewrite Hsplit.
  unfold bind at 1.
  rewrite (handleBuiltInCommands_unknown _ _ _ _ _ _ _ Hnl Hb).
  rewrite Hreg.
  unfold Dispatch.runCommand. rewrite Hg, Hexec.
  unfold catch, bind, fetchGroupMetadata, emit, ret. cbn [db tick trace]. rewrite Hmd.
  simpl. rewrite <- !app_assoc. simpl. fold m. fold ctx.
  destruct (f conn msg m ctx _) as [s' [[] |]]; reflexivity.
Qed.

Lemma promote_is_entered_without_metadata :
  exists d : Mongo.Db,
    Dispatch.handleMessage Scenario.env0 Scenario.promoteRegistry Scenario.connNoMetadata
      Scenario.promoteMessage "15551234567" Scenario.sys0 =
    catch (Promote.execute Scenario.connNoMetadata Scenario.promoteMessage
             Scenario.promoteArg Scenario.ctxNoMetadata) (ret tt)
      {| db := d; tick := 1;
         trace := [AGroupMetadata Scenario.groupJid;
                   AListen "group-participants.update";
                   AExecute "promote" Scenario.promoteArg Scenario.ctxNoMetadata] |}.
Proof.
  exact (metadata_failure_does_not_abort_dispatch Scenario.env0 Scenario.promoteRegistry
           Scenario.connNoMetadata Scenario.promoteMessage "15551234567" Scenario.sys0
           ".promote" "promote" [] Promote.descriptor Promote.execute
           eq_refl eq_refl eq_refl eq_refl eq_refl eq_refl eq_refl eq_refl eq_refl).
Defined.

(** ** Connection lifecycle: the counter of active sockets *)

Section ActiveSockets.
Import Lifecycle.
Variable env : Env.

Lemma run_activeSockets {A : Type} (m : M A) (w : World) :
  activeSockets (fst (run m w)) = activeSockets w.
Proof. unfold run. by destruct (m (sys w)). Qed.

Lemma savePersistentData_activeSockets (w : World) :
  activeSockets (savePersistentData w) = activeSockets w.
Proof. unfold savePersistentData. by destruct (negb _). Qed.

Lemma initializeConnection_activeSockets (sessionId : string) (ok : bool) (w : World) :
  activeSockets (initializeConnection sessionId ok w) = activeSockets w.
Proof.
  unfold initializeConnection.
  destruct (Mongo.loadSessionFromMongo sessionId (theDb w)) as [d [ls |]]; [| done].
  by destruct ok.
Qed.

Lemma reloadSessions_activeSockets (l : list (string * Mongo.SessionDoc))
    (ok : string -> bool) (w : World) :
  activeSockets w <= activeSockets (reloadSessions l ok w).
Proof.
  revert w. induction l as [| [number session] rest IH]; intros w; simpl; [lia |].
  destruct (Mongo.s_creds session); [| apply IH].
  etrans; [| apply IH]. simpl. rewrite initializeConnection_activeSockets. lia.
Qed.

Lemma reloadExistingSessions_activeSockets (ok : string -> bool) (w : World) :
  activeSockets w <= activeSockets (reloadExistingSessions ok w).
Proof.
  unfold reloadExistingSessions. destruct (negb _); [lia |].
  destruct (Mongo.call _ _) as [d [sessions |]]; simpl; [| lia].
  etrans; [| apply reloadSessions_activeSockets]. simpl. lia.
Qed.

Lemma onConnectionUpdate_activeSockets (h : nat) (u : Update) (w : World) :
  activeSockets (onConnectionUpdate h u w) = Z.max 0 (activeSockets w - 1) \/
  activeSockets (onConnectionUpdate h u w) = activeSockets w + 1 \/
  activeSockets (onConnectionUpdate h u w) = activeSockets w.
Proof.
  unfold onConnectionUpdate.
  destruct (handles w !! h) as [hs |]; [| auto].
  destruct (qr u); [auto |].
  destruct (connection u) as [[| |] |]; [| | auto | auto].
  - right; left. unfold onOpen. by destruct (hasShownConnectedMessage hs).
  - unfold onClose.
    destruct (negb (isLoggedOutCode (statusCode u)) && _); [auto |].
    left. by destruct (isLoggedOutCode (statusCode u)).
Qed.

Lemma fire_activeSockets (t : Timer) (i : TimerInput) (w : World) :
  activeSockets (fire env t i w) = activeSockets w.
Proof.
  destruct t; simpl.
  - destruct (handles w !! h); [apply run_activeSockets | done].
  - destruct (activeConnections w !! sessionId);
      [apply initializeConnection_activeSockets | done].
  - done.
  - unfold pairContinue. destruct isNewUser.
    + by destruct (ti_code i).
    + by destruct (Mongo.getPairingCodeFromMongo number (theDb w)).
Qed.

Lemma pair_activeSockets (number : option string) (fileOk versionOk : bool) (w : World) :
  activeSockets (pair number fileOk versionOk w) = activeSockets w.
Proof.
  unfold pair. destruct number as [number |]; [| done].
  destruct (String.eqb number ""); [done |].
  destruct (Mongo.loadSessionFromMongo _ _) as [d [ls |]].
  - unfold pairSocket. by destruct versionOk.
  - destruct fileOk; [| done].
    unfold pairSocket. destruct versionOk; simpl; by rewrite savePersistentData_activeSockets.
Qed.

Lemma step_activeSockets (e : Event) (w : World) :
  activeSockets (step env e w) = Z.max 0 (activeSockets w - 1) \/
  activeSockets w <= activeSockets (step env e w).
Proof.
  destruct e; simpl.
  - destruct (onConnectionUpdate_activeSockets h u w) as [H | [H | H]]; [by left | |];
      right; lia.
  - right. unfold onCredsUpdate. destruct (handles w !! h) as [hs |]; [| done].
    destruct (h_saveCreds hs); [by destruct fileOk | done].
  - right. unfold onMessagesUpsert. destruct (handles w !! h); [| done].
    by rewrite run_activeSockets.
  - right. destruct (timers w !! n) as [[delay t] |]; [| done].
    by rewrite fire_activeSockets.
  - right. by rewrite pair_activeSockets.
  - right. apply reloadExistingSessions_activeSockets.
  - right. unfold loadPersistentData. destruct (negb _); [done |].
    destruct (Mongo.call _ _) as [d [[st |] |]]; [done | | done].
    by destruct (Mongo.call _ _) as [d1 [[] |]].
  - right. by rewrite savePersistentData_activeSockets.
  - by right.
  - by right.
Qed.

Lemma steps_snoc (es : list Event) (e : Event) (w : World) :
  steps env (es ++ [e]) w = step env e (steps env es w).
Proof. unfold steps. by rewrite foldl_app. Qed.

(** C10: from the start of the server on, the counter of active sockets
    is never negative; a step either replaces it by
    [max 0 (activeSockets - 1)] or does not lower it. *)
Theorem activeSockets_never_negative :
  (forall (d : Mongo.Db) (es : list Event), 0 <= activeSockets (steps env es (start d))) /\
  (forall (e : Event) (w : World),
     activeSockets (step env e w) = Z.max 0 (activeSockets w - 1) \/
     activeSockets w <= activeSockets (step env e w)).
Proof.
  split; [| apply step_activeSockets].
  intros d es. induction es as [| e es IH] using rev_ind; [done |].
  rewrite steps_snoc.
  destruct (step_activeSockets e (steps env es (start d))) as [H | H]; lia.
Qed.

End ActiveSockets.

(** ** Connection lifecycle: the final disconnect *)

Section FinalDisconnect.
Import Lifecycle.

(** Whatever [isActive] the caller asks for, a save that reaches the store
    leaves the record active, with the credentials it was handed. *)
Lemma saveSessionToMongo_stores (number : string) (sd : Mongo.SessionData) (d : Mongo.Db) :
  Mongo.connected d = true -> Mongo.completes 1 d = true ->
  exists doc : Mongo.SessionDoc,
    Mongo.sessions (fst (Mongo.saveSessionToMongo number sd d)) !! number = Some doc /\
    Mongo.s_isActive doc = true /\
    Mongo.s_creds doc = Mongo.sd_creds sd /\
    Mongo.s_authState doc = Mongo.sd_authState sd.
Proof.
  intros Hc Hf. unfold Mongo.saveSessionToMongo, Mongo.call. rewrite Hc. simpl.
  destruct (Mongo.faults d) as [| [|] rest] eqn:E.
  - simpl. rewrite lookup_insert_eq. eauto.
  - unfold Mongo.completes in Hf. rewrite E in Hf. discriminate.
  - simpl. rewrite lookup_insert_eq. eauto.
Qed.

(** On any socket whose counter has reached the cap, a close that is no
    logout ends the session and, with the store up, leaves its record
    active and without credentials. *)
Lemma final_disconnect_writes_active_record (h : nat) (hs : Handle) (code : option Z)
    (w : World) :
  handles w !! h = Some hs ->
  isLoggedOutCode code = false ->
  MAX_RECONNECT_ATTEMPTS <= reconnectAttempts hs ->
  Mongo.connected (theDb w) = true -> Mongo.completes 1 (theDb w) = true ->
  let w' := onConnectionUpdate h
              {| connection := Some Close; statusCode := code; qr := false |} w in
  activeConnections w' !! h_sessionId hs = None /\
  exists doc : Mongo.SessionDoc,
    Mongo.sessions (theDb w') !! h_sessionId hs = Some doc /\
    Mongo.s_isActive doc = true /\ Mongo.s_creds doc = None.
Proof.
  intros Hh Hcode Hcap Hc Hf. unfold onConnectionUpdate. rewrite Hh. simpl.
  unfold onClose. rewrite Hcode.
  replace (reconnectAttempts hs <? MAX_RECONNECT_ATTEMPTS) with false
    by (symmetry; apply Z.ltb_ge; lia).
  simpl. split; [apply lookup_delete_eq |].
  destruct (saveSessionToMongo_stores (h_sessionId hs) inactiveSessionData (theDb w) Hc Hf)
    as (doc & Hdoc & Hact & Hcreds & _).
  exists doc. auto.
Qed.

(** C1: a session is paired, its credentials are stored, and its socket
    closes four times with status 428.  Before the fourth close the record
    holds the credentials; the fourth close ends the session, and the
    record it leaves is active and has lost its credentials. *)
Theorem final_disconnect_clears_credentials :
  let before := steps Scenario.env0 Scenario.threeCloses (start Scenario.db0) in
  let after := steps Scenario.env0 Scenario.capExhausted (start Scenario.db0) in
  reconnectAttempts <$> (handles before !! 0%nat) = Some 3 /\
  Mongo.s_creds <$> (Mongo.sessions (theDb before) !! Scenario.number0)
    = Some (Some "creds-1") /\
  activeConnections after !! Scenario.number0 = None /\
  last (emitted after) = Some (Unlinked Scenario.number0) /\
  Mongo.s_isActive <$> (Mongo.sessions (theDb after) !! Scenario.number0) = Some true /\
  Mongo.s_creds <$> (Mongo.sessions (theDb after) !! Scenario.number0) = Some None /\
  Mongo.s_authState <$> (Mongo.sessions (theDb after) !! Scenario.number0) = Some None.
Proof. repeat split; vm_compute; reflexivity. Qed.

End FinalDisconnect.

(** ** Connection lifecycle: reconnects *)

Section Reconnect.
Import Lifecycle.

(** On one socket the [k]-th close in a row schedules a reconnect after
    [5000 * k] ms, as long as [k] is at most the cap. *)
Lemma close_schedules_reconnect (h : nat) (hs : Handle) (code : option Z) (w : World) :
  handles w !! h = Some hs ->
  isLoggedOutCode code = false ->
  reconnectAttempts hs < MAX_RECONNECT_ATTEMPTS ->
  let w' := onConnectionUpdate h
              {| connection := Some Close; statusCode := code; qr := false |} w in
  timers w' = timers w ++
                [(5000 * (reconnectAttempts hs + 1), TReconnect (h_sessionId hs))] /\
  activeConnections w' = activeConnections w /\
  activeSockets w' = activeSockets w.
Proof.
  intros Hh Hcode Hlt. unfold onConnectionUpdate. rewrite Hh. simpl.
  unfold onClose. rewrite Hcode.
  replace (reconnectAttempts hs <? MAX_RECONNECT_ATTEMPTS) with true
    by (symmetry; apply Z.ltb_lt; lia).
  simpl. repeat split. do 3 f_equal. lia.
Qed.

(** The socket a reconnect builds starts counting from zero. *)
Lemma reconnect_starts_from_zero (sessionId : string) (w : World)
    (ls : Mongo.LoadedSession) (d : Mongo.Db) :
  Mongo.loadSessionFromMongo sessionId (theDb w) = (d, Some ls) ->
  handles (initializeConnection sessionId true w) =
    handles w ++ [{| h_sessionId := sessionId; h_saveCreds := MongoAuthState;
                     hasShownConnectedMessage := false; isLoggedOut := false;
                     reconnectAttempts := 0 |}].
Proof. intros H. unfold initializeConnection. by rewrite H. Qed.

Lemma run_handles {A : Type} (m : M A) (w : World) :
  handles (fst (run m w)) = handles w.
Proof. unfold run. by destruct (m (sys w)). Qed.

Lemma setHandle_bounded (h : nat) (hs : Handle) (w : World) :
  attemptsBounded hs -> Forall attemptsBounded (handles w) ->
  Forall attemptsBounded (handles (setHandle h hs w)).
Proof. intros Hhs Hw. simpl. by apply Forall_insert. Qed.

Lemma setup_bounded (sessionId : string) (sc : SaveCreds) (w : World) :
  Forall attemptsBounded (handles w) ->
  Forall attemptsBounded (handles (setupConnectionHandlers sessionId sc w)).
Proof.
  intros Hw. simpl. apply Forall_app. split; [done |].
  apply Forall_singleton. unfold attemptsBounded, MAX_RECONNECT_ATTEMPTS. simpl. lia.
Qed.

Lemma initializeConnection_bounded (sessionId : string) (ok : bool) (w : World) :
  Forall attemptsBounded (handles w) ->
  Forall attemptsBounded (handles (initializeConnection sessionId ok w)).
Proof.
  intros Hw. unfold initializeConnection.
  destruct (Mongo.loadSessionFromMongo sessionId (theDb w)) as [d [ls |]]; [| done].
  destruct ok; [| done]. by apply setup_bounded.
Qed.

Lemma reloadSessions_bounded (l : list (string * Mongo.SessionDoc)) (ok : string -> bool)
    (w : World) :
  Forall attemptsBounded (handles w) ->
  Forall attemptsBounded (handles (reloadSessions l ok w)).
Proof.
  revert w. induction l as [| [number session] rest IH]; intros w Hw; simpl; [done |].
  destruct (Mongo.s_creds session); [| by apply IH].
  apply IH. simpl. by apply initializeConnection_bounded.
Qed.

Lemma onConnectionUpdate_bounded (h : nat) (u : Update) (w : World) :
  Forall attemptsBounded (handles w) ->
  Forall attemptsBounded (handles (onConnectionUpdate h u w)).
Proof.
  intros Hw. unfold onConnectionUpdate.
  destruct (handles w !! h) as [hs |] eqn:Hh; [| done].
  assert (attemptsBounded hs) as Hhs by (by eapply Forall_lookup_1).
  assert (attemptsBounded (clearShown hs)) as Hclear by done.
  destruct (qr u); [by apply setHandle_bounded |].
  destruct (connection u) as [[| |] |]; [| | by apply setHandle_bounded | done].
  - unfold onOpen.
    assert (attemptsBounded
              {| h_sessionId := h_sessionId hs; h_saveCreds := h_saveCreds hs;
                 hasShownConnectedMessage := true; isLoggedOut := false;
                 reconnectAttempts := 0 |}) as H0
      by (unfold attemptsBounded, MAX_RECONNECT_ATTEMPTS; simpl; lia).
    destruct (hasShownConnectedMessage hs); simpl; by apply Forall_insert.
  - unfold onClose.
    destruct (negb (isLoggedOutCode (statusCode u))); simpl.
    + destruct (reconnectAttempts hs <? MAX_RECONNECT_ATTEMPTS) eqn:Hlt; simpl.
      * apply Forall_insert; [done |].
        apply Z.ltb_lt in Hlt. unfold attemptsBounded in *. simpl. lia.
      * destruct (isLoggedOutCode (statusCode u)); simpl; by apply Forall_insert.
    + destruct (isLoggedOutCode (statusCode u)); simpl; by apply Forall_insert.
Qed.

Lemma step_bounded (env : Env) (e : Event) (w : World) :
  Forall attemptsBounded (handles w) ->
  Forall attemptsBounded (handles (step env e w)).
Proof.
  intros Hw. destruct e; simpl.
  - by apply onConnectionUpdate_bounded.
  - unfold onCredsUpdate. destruct (handles w !! h) as [hs |]; [| done].
    destruct (h_saveCreds hs); [by destruct fileOk | done].
  - unfold onMessagesUpsert. destruct (handles w !! h); [| done].
    by rewrite run_handles.
  - destruct (timers w !! n) as [[delay t] |]; [| done].
    destruct t; simpl.
    + destruct (handles w !! h); [by rewrite run_handles | done].
    + destruct (activeConnections w !! sessionId); [| done].
      by apply initializeConnection_bounded.
    + done.
    + unfold pairContinue. destruct isNewUser.
      * by destruct (ti_code i).
      * by destruct (Mongo.getPairingCodeFromMongo number (theDb _)).
  - unfold pair. destruct number as [number |]; [| done].
    destruct (String.eqb number ""); [done |].
    destruct (Mongo.loadSessionFromMongo _ _) as [d [ls |]].
    + unfold pairSocket. destruct versionOk; [| done]. by apply setup_bounded.
    + destruct fileOk; [| done].
      unfold pairSocket. destruct versionOk.
      * apply setup_bounded. simpl. unfold savePersistentData. by destruct (negb _).
      * simpl. unfold savePersistentData. by destruct (negb _).
  - unfold reloadExistingSessions. destruct (negb _); [done |].
    destruct (Mongo.call _ _) as [d [sessions |]]; simpl; [| done].
    by apply reloadSessions_bounded.
  - unfold loadPersistentData. destruct (negb _); [done |].
    destruct (Mongo.call _ _) as [d [[st |] |]]; [done | | done].
    by destruct (Mongo.call _ _) as [d1 [[] |]].
  - unfold savePersistentData. by destruct (negb _).
  - done.
  - done.
Qed.

(** What holds of the counter: on every socket, at every moment, it lies
    between zero and the cap. *)
Lemma attempts_bounded_on_every_socket (env : Env) (d : Mongo.Db) (es : list Event) :
  Forall attemptsBounded (handles (steps env es (start d))).
Proof.
  induction es as [| e es IH] using rev_ind; [by apply Forall_nil |].
  unfold steps. rewrite foldl_app. simpl. by apply step_bounded.
Qed.

(** C3: after pairing, the socket of the session closes with status 428,
    the reconnect builds a new socket, that socket closes in turn, and so
    on, five closes in a row with no open in between.  Each socket has
    counted one attempt, the fifth reconnect is scheduled after 5000 ms like
    the first, and the session is still in the table of connections. *)
Theorem reconnect_counter_restarts_with_each_socket :
  let w := steps Scenario.env0 Scenario.fiveCloses (start Scenario.db0) in
  reconnectAttempts <$> handles w = [1; 1; 1; 1; 1] /\
  timers w = [(2000, TWelcome 0); (5000, TReconnect Scenario.number0)] /\
  ce_conn <$> (activeConnections w !! Scenario.number0) = Some 4%nat /\
  ~ (Unlinked Scenario.number0 ∈ emitted w) /\
  timers (steps Scenario.env0 (Scenario.paired ++ Scenario.reconnectRound 0
                                 ++ [EConnectionUpdate 1 Scenario.closedLost])
            (start Scenario.db0))
  = [(2000, TWelcome 0); (5000, TReconnect Scenario.number0)].
Proof.
  repeat split; try (vm_compute; reflexivity).
  vm_compute. intros H.
  repeat (apply elem_of_cons in H as [H | H]; [discriminate |]).
  by apply elem_of_nil in H.
Qed.

End Reconnect.

(** ** Connection lifecycle: logout *)

Section Logout.
Import Lifecycle.
Variable env : Env.

Lemma findOne_none (number : string) (l : list Mongo.PairingDoc) :
  Mongo.countDocuments number l = 0%nat -> Mongo.findOne number l = None.
Proof.
  induction l as [| d l IH]; simpl; [done |].
  destruct (String.eqb (Mongo.pc_number d) number); [discriminate | exact IH].
Qed.

Lemma countDocuments_deleteOne (number : string) (l : list Mongo.PairingDoc) :
  Mongo.countDocuments number (Mongo.deleteOne number l)
    = pred (Mongo.countDocuments number l).
Proof.
  induction l as [| d l IH]; simpl; [done |].
  destruct (String.eqb (Mongo.pc_number d) number) eqn:E; simpl; [done |].
  by rewrite E.
Qed.

(** The two helpers of the cleanup, on a store that is up and whose next
    three calls complete. *)
Lemma cleanup_on_db (number : string) (d : Mongo.Db) :
  Mongo.connected d = true -> Mongo.completes 3 d = true ->
  let d' := Mongo.deletePairingCodeFromMongo number (Mongo.deleteSessionFromMongo number d) in
  Mongo.sessions d' = delete number (Mongo.sessions d) /\
  Mongo.userSettings d' = delete number (Mongo.userSettings d) /\
  Mongo.pairingCodes d' = Mongo.deleteOne number (Mongo.pairingCodes d).
Proof.
  destruct d as [c f t ss us pcs st]. simpl. intros -> Hf.
  unfold Mongo.completes in Hf. simpl in Hf.
  destruct f as [| [|] [| [|] [| [|] f]]]; try discriminate; by vm_compute.
Qed.

(** With the store down the cleanup changes nothing. *)
Lemma cleanup_store_down (number : string) (d : Mongo.Db) :
  Mongo.connected d = false ->
  Mongo.deletePairingCodeFromMongo number (Mongo.deleteSessionFromMongo number d) = d.
Proof.
  intros H. unfold Mongo.deleteSessionFromMongo. rewrite H. simpl.
  unfold Mongo.deletePairingCodeFromMongo. by rewrite H.
Qed.

(** C2 (as amended): a close with the logged-out reason schedules the
    cleanup of the session three seconds later.  When the cleanup runs with
    the store up and its three deletes complete, the Session record and the
    UserSettings record of the number are gone afterwards and one
    PairingCode document of the number has been deleted, so that none is
    left when the store held at most one. *)
Theorem logout_cleanup_deletes_records (w w' : World) (h : nat) (hs : Handle)
    (i : TimerInput) :
  handles w !! h = Some hs ->
  Mongo.connected (theDb w') = true ->
  Mongo.completes 3 (theDb w') = true ->
  let sid := h_sessionId hs in
  timers (onConnectionUpdate h
            {| connection := Some Close; statusCode := Some loggedOut; qr := false |} w)
    = timers w ++ [(3000, TLogoutCleanup sid)] /\
  let w2 := fire env (TLogoutCleanup sid) i w' in
  Mongo.sessions (theDb w2) !! sid = None /\
  Mongo.userSettings (theDb w2) !! sid = None /\
  Mongo.pairingCodes (theDb w2) = Mongo.deleteOne sid (Mongo.pairingCodes (theDb w')) /\
  ((Mongo.countDocuments sid (Mongo.pairingCodes (theDb w')) <= 1)%nat ->
   Mongo.findOne sid (Mongo.pairingCodes (theDb w2)) = None).
Proof.
  intros Hh Hc Hf sid. split.
  - unfold onConnectionUpdate. rewrite Hh. simpl. unfold onClose. simpl. done.
  - simpl. unfold logoutCleanup, onDb, theDb. simpl.
    destruct (cleanup_on_db sid (db (sys w')) Hc Hf) as (Hs & Hu & Hp).
    rewrite Hs, Hu, Hp. rewrite !lookup_delete_eq. repeat split.
    intros Hle. apply findOne_none. rewrite countDocuments_deleteOne. lia.
Qed.

End Logout.

Lemma logout_cleanup_after_pairing :
  let w2 := Lifecycle.fire Scenario.env0 (Lifecycle.TLogoutCleanup Scenario.number0)
              Scenario.input0
              (Lifecycle.steps Scenario.env0
                 (Scenario.paired ++ [Lifecycle.EConnectionUpdate 0 Scenario.closedLoggedOut])
                 (Lifecycle.start Scenario.db0)) in
  Mongo.sessions (Lifecycle.theDb w2) !! Scenario.number0 = None /\
  Mongo.userSettings (Lifecycle.theDb w2) !! Scenario.number0 = None /\
  Mongo.findOne Scenario.number0 (Mongo.pairingCodes (Lifecycle.theDb w2)) = None.
Proof.
  destruct (logout_cleanup_deletes_records Scenario.env0
              (Lifecycle.steps Scenario.env0 Scenario.paired (Lifecycle.start Scenario.db0))
              (Lifecycle.steps Scenario.env0
                 (Scenario.paired ++ [Lifecycle.EConnectionUpdate 0 Scenario.closedLoggedOut])
                 (Lifecycle.start Scenario.db0))
              0%nat
              {| Lifecycle.h_sessionId := Scenario.number0;
                 Lifecycle.h_saveCreds := Lifecycle.FileAuthState;
                 Lifecycle.hasShownConnectedMessage := true;
                 Lifecycle.isLoggedOut := false;
                 Lifecycle.reconnectAttempts := 0 |}
              Scenario.input0 eq_refl eq_refl eq_refl) as (_ & Hs & Hu & _ & Hp).
  split; [exact Hs | split; [exact Hu |]].
  apply Hp. vm_compute. lia.
Defined.

(** C2, the claim as stated, fails when the store is down while the
    cleanup runs: the session has ended and the cleanup timer has fired,
    and the three records of the number are still in the store. *)
Lemma logout_cleanup_with_store_down :
  let w := Lifecycle.steps Scenario.env0 Scenario.logoutStoreDown
             (Lifecycle.start Scenario.db0) in
  Lifecycle.timers w = [(2000, Lifecycle.TWelcome 0)] /\
  Lifecycle.activeConnections w !! Scenario.number0 = None /\
  Mongo.sessions (Lifecycle.theDb w) !! Scenario.number0 <> None /\
  Mongo.userSettings (Lifecycle.theDb w) !! Scenario.number0 <> None /\
  Mongo.findOne Scenario.number0 (Mongo.pairingCodes (Lifecycle.theDb w)) <> None.
Proof. repeat split; vm_compute; (reflexivity || discriminate). Qed.

(** With the store up, a number that was handed two pairing codes keeps
    one of them after the cleanup. *)
Lemma logout_cleanup_leaves_second_pairing_code :
  let w := Lifecycle.steps Scenario.env0 Scenario.pairedTwice
             (Lifecycle.start Scenario.db0) in
  Mongo.sessions (Lifecycle.theDb w) !! Scenario.number0 = None /\
  Mongo.findOne Scenario.number0 (Mongo.pairingCodes (Lifecycle.theDb w)) <> None.
Proof. split; vm_compute; (reflexivity || discriminate). Qed.

(* ===================================================================== *)
(** * Further properties of the store, the dispatcher and the lifecycle *)
(* ===================================================================== *)

(** ** The document store: round trips, frames and failures *)

(** X1: a session that is saved with credentials and an auth state is loaded
    back with them. *)
Theorem session_save_then_load (number : string) (sd : Mongo.SessionData) (d : Mongo.Db)
    (c : Mongo.Creds) (a : Mongo.AuthState) :
  Mongo.connected d = true -> Mongo.completes 2 d = true ->
  Mongo.sd_creds sd = Some c -> Mongo.sd_authState sd = Some a ->
  snd (Mongo.loadSessionFromMongo number (fst (Mongo.saveSessionToMongo number sd d))) =
    Some {| Mongo.ls_creds := c; Mongo.ls_authState := Some a;
            Mongo.ls_settings := JsV.or (JsV.or (Mongo.sd_settings sd) (JObj [])) (JObj []) |}.
Proof.
  destruct d as [cn f t ss us pcs st]. simpl. intros -> Hf Hc Ha.
  unfold Mongo.completes in Hf. simpl in Hf.
  unfold Mongo.saveSessionToMongo, Mongo.loadSessionFromMongo, Mongo.call.
  destruct f as [| [|] [| [|] f]]; try discriminate; simpl;
    rewrite lookup_insert_eq; simpl; by rewrite Hc, Ha.
Qed.

Lemma saved_session_is_loaded_on_empty_store :
  snd (Mongo.loadSessionFromMongo Scenario.number0
         (fst (Mongo.saveSessionToMongo Scenario.number0 Scenario.sessionData0 Scenario.db0)))
  = Some {| Mongo.ls_creds := "creds-1"; Mongo.ls_authState := Some Scenario.auth0;
            Mongo.ls_settings := JObj [] |}.
Proof.
  exact (session_save_then_load Scenario.number0 Scenario.sessionData0 Scenario.db0
           "creds-1" Scenario.auth0 eq_refl eq_refl eq_refl eq_refl).
Defined.

(** X2: saving the session of one number leaves every other record alone, and
    keeps the creation and expiry dates of a record that was there. *)
Theorem session_save_touches_one_record (number other : string) (sd : Mongo.SessionData)
    (d : Mongo.Db) :
  other <> number ->
  let d' := fst (Mongo.saveSessionToMongo number sd d) in
  Mongo.sessions d' !! other = Mongo.sessions d !! other /\
  Mongo.userSettings d' = Mongo.userSettings d /\
  Mongo.pairingCodes d' = Mongo.pairingCodes d /\
  Mongo.stats d' = Mongo.stats d /\
  forall old doc : Mongo.SessionDoc,
    Mongo.sessions d !! number = Some old ->
    Mongo.sessions d' !! number = Some doc ->
    Mongo.s_createdAt doc = Mongo.s_createdAt old /\
    Mongo.s_expiresAt doc = Mongo.s_expiresAt old.
Proof.
  intros Hne. destruct d as [c f t ss us pcs st].
  unfold Mongo.saveSessionToMongo, Mongo.call. simpl.
  assert (forall (A B C D E : Prop), A -> B -> C -> D -> E -> A /\ B /\ C /\ D /\ E) as conj5
    by tauto.
  destruct c; simpl.
  { destruct f as [| [|] f]; simpl; rewrite ?lookup_insert_ne by done;
      apply conj5; try done; intros old doc Hold;
      rewrite ?lookup_insert_eq, Hold; by intros [= <-]. }
  apply conj5; try done. intros old doc Hold. rewrite Hold. by intros [= <-].
Qed.

Lemma session_save_spares_other_number :
  Mongo.sessions
    (fst (Mongo.saveSessionToMongo "15557654321" Lifecycle.inactiveSessionData
            (Lifecycle.theDb (Lifecycle.steps Scenario.env0 Scenario.paired
                                (Lifecycle.start Scenario.db0))))) !! Scenario.number0
  = Mongo.sessions (Lifecycle.theDb (Lifecycle.steps Scenario.env0 Scenario.paired
                                       (Lifecycle.start Scenario.db0))) !! Scenario.number0.
Proof.
  exact (proj1 (session_save_touches_one_record "15557654321" Scenario.number0
                  Lifecycle.inactiveSessionData
                  (Lifecycle.theDb (Lifecycle.steps Scenario.env0 Scenario.paired
                                      (Lifecycle.start Scenario.db0)))
                  ltac:(discriminate))).
Defined.

(** X3: with the store down every helper returns at once: nothing is written,
    a read finds nothing, and the settings are the defaults. *)
Theorem store_down_helpers_do_nothing (env : Env) (number code newPrefix : string)
    (sd : Mongo.SessionData) (d : Mongo.Db) :
  Mongo.connected d = false ->
  Mongo.saveSessionToMongo number sd d = (d, None) /\
  Mongo.loadSessionFromMongo number d = (d, None) /\
  Mongo.deleteSessionFromMongo number d = d /\
  Mongo.savePairingCodeToMongo number code d = (d, None) /\
  Mongo.getPairingCodeFromMongo number d = (d, None) /\
  Mongo.deletePairingCodeFromMongo number d = d /\
  Mongo.saveUserSettingsToMongo env number newPrefix d = d /\
  Mongo.loadUserSettingsFromMongo env number d = (d, Mongo.getDefaultSettings env).
Proof.
  intros H.
  unfold Mongo.saveSessionToMongo, Mongo.loadSessionFromMongo, Mongo.deleteSessionFromMongo,
    Mongo.savePairingCodeToMongo, Mongo.getPairingCodeFromMongo,
    Mongo.deletePairingCodeFromMongo, Mongo.saveUserSettingsToMongo,
    Mongo.loadUserSettingsFromMongo.
  rewrite H. simpl. repeat split.
Qed.

Lemma store_down_load_finds_nothing :
  Mongo.loadSessionFromMongo Scenario.number0 Scenario.dbDown = (Scenario.dbDown, None).
Proof.
  exact (proj1 (proj2 (store_down_helpers_do_nothing Scenario.env0 Scenario.number0
                         "ABCD1234" "!" Scenario.sessionData0 Scenario.dbDown eq_refl))).
Defined.

(** X4: when the driver rejects the call of a helper, the helper swallows the
    rejection: the collections are as before, a save or a read returns
    null, the settings are the defaults even though a record is stored,
    and [deleteSessionFromMongo] does not go on to the settings.  A pairing
    code with an empty number or code never reaches the driver: the schema
    rejects it, and the helper returns null all the same. *)
Theorem rejected_call_is_swallowed (env : Env) (number code newPrefix : string)
    (sd : Mongo.SessionData) (d : Mongo.Db) (rest : list bool) :
  Mongo.connected d = true -> Mongo.faults d = true :: rest ->
  let d' := Mongo.with_faults rest d in
  Mongo.saveSessionToMongo number sd d = (d', None) /\
  Mongo.loadSessionFromMongo number d = (d', None) /\
  Mongo.deleteSessionFromMongo number d = d' /\
  Mongo.savePairingCodeToMongo number code d =
    ((if String.eqb number "" || String.eqb code "" then d else d'), None) /\
  Mongo.getPairingCodeFromMongo number d = (d', None) /\
  Mongo.deletePairingCodeFromMongo number d = d' /\
  Mongo.saveUserSettingsToMongo env number newPrefix d = d' /\
  Mongo.loadUserSettingsFromMongo env number d = (d', Mongo.getDefaultSettings env).
Proof.
  intros Hc Hf.
  unfold Mongo.saveSessionToMongo, Mongo.loadSessionFromMongo, Mongo.deleteSessionFromMongo,
    Mongo.savePairingCodeToMongo, Mongo.getPairingCodeFromMongo,
    Mongo.deletePairingCodeFromMongo, Mongo.saveUserSettingsToMongo,
    Mongo.loadUserSettingsFromMongo, Mongo.call.
  rewrite Hc, Hf. simpl. repeat split.
  by destruct (String.eqb number "" || String.eqb code "").
Qed.

Lemma rejected_save_is_swallowed :
  Mongo.saveSessionToMongo Scenario.number0 Scenario.sessionData0 Scenario.dbRejecting
  = (Mongo.with_faults [] Scenario.dbRejecting, None).
Proof.
  exact (proj1 (rejected_call_is_swallowed Scenario.env0 Scenario.number0 "ABCD1234" "!"
                  Scenario.sessionData0 Scenario.dbRejecting [] eq_refl eq_refl)).
Defined.

(** X5: when the first delete of [deleteSessionFromMongo] completes and the
    second is rejected, the Session record is gone and the UserSettings
    record of the number stays behind. *)
Theorem session_delete_can_leave_settings (number : string) (d : Mongo.Db) (rest : list bool) :
  Mongo.connected d = true -> Mongo.faults d = false :: true :: rest ->
  let d' := Mongo.deleteSessionFromMongo number d in
  Mongo.sessions d' = delete number (Mongo.sessions d) /\
  Mongo.userSettings d' = Mongo.userSettings d /\
  Mongo.faults d' = rest.
Proof.
  intros Hc Hf. unfold Mongo.deleteSessionFromMongo, Mongo.call.
  rewrite Hc, Hf. simpl. repeat split.
Qed.

Lemma session_delete_half_rejected :
  Mongo.faults (Mongo.deleteSessionFromMongo Scenario.number0 Scenario.dbHalfRejecting) = [].
Proof.
  exact (proj2 (proj2 (session_delete_can_leave_settings Scenario.number0
                         Scenario.dbHalfRejecting [] eq_refl eq_refl))).
Defined.

(** The prefix [loadUserSettingsFromMongo] finds after
    [saveUserSettingsToMongo] when both calls of the driver complete. *)
Lemma saved_prefix_is_loaded (env : Env) (number newPrefix : string) (d : Mongo.Db) :
  Mongo.connected d = true -> Mongo.completes 2 d = true ->
  Mongo.prefix (snd (Mongo.loadUserSettingsFromMongo env number
                       (Mongo.saveUserSettingsToMongo env number newPrefix d))) = newPrefix.
Proof.
  destruct d as [c f t ss us pcs st]. simpl. intros -> Hf.
  unfold Mongo.completes in Hf. simpl in Hf.
  unfold Mongo.saveUserSettingsToMongo, Mongo.loadUserSettingsFromMongo, Mongo.call.
  destruct f as [| [|] [| [|] f]]; try discriminate; simpl;
    by rewrite lookup_insert_eq.
Qed.

(** X6: a prefix that is saved is the prefix that is loaded; the other
    settings of the number are those it had, or those of the schema when it
    had none. *)
Theorem settings_prefix_round_trip (env : Env) (number newPrefix : string) (d : Mongo.Db) :
  Mongo.connected d = true -> Mongo.completes 2 d = true ->
  let old := default (Mongo.schemaDefaults env) (Mongo.userSettings d !! number) in
  snd (Mongo.loadUserSettingsFromMongo env number
         (Mongo.saveUserSettingsToMongo env number newPrefix d)) =
    {| Mongo.prefix := newPrefix; Mongo.autoStatus := Mongo.autoStatus old;
       Mongo.channels := Mongo.channels old; Mongo.u_updatedAt := Some (Mongo.clock d) |}.
Proof.
  destruct d as [c f t ss us pcs st]. simpl. intros -> Hf.
  unfold Mongo.completes in Hf. simpl in Hf.
  unfold Mongo.saveUserSettingsToMongo, Mongo.loadUserSettingsFromMongo, Mongo.call.
  destruct f as [| [|] [| [|] f]]; try discriminate; simpl;
    by rewrite lookup_insert_eq.
Qed.

Lemma prefix_round_trip_on_empty_store :
  snd (Mongo.loadUserSettingsFromMongo Scenario.env0 Scenario.number0
         (Mongo.saveUserSettingsToMongo Scenario.env0 Scenario.number0 "!" Scenario.db0))
  = {| Mongo.prefix := "!";
       Mongo.autoStatus := {| Mongo.seen := true; Mongo.react := true; Mongo.reply := true |};
       Mongo.channels := []; Mongo.u_updatedAt := Some 1000 |}.
Proof.
  exact (settings_prefix_round_trip Scenario.env0 Scenario.number0 "!" Scenario.db0
           eq_refl eq_refl).
Defined.

(** X7: reading the settings of a number that has none gives the defaults of
    the environment and creates no record. *)
Theorem settings_missing_gives_defaults (env : Env) (number : string) (d : Mongo.Db) :
  Mongo.userSettings d !! number = None ->
  snd (Mongo.loadUserSettingsFromMongo env number d) = Mongo.getDefaultSettings env /\
  Mongo.userSettings (fst (Mongo.loadUserSettingsFromMongo env number d))
    = Mongo.userSettings d.
Proof.
  intros H. destruct d as [c f t ss us pcs st]. simpl in H.
  unfold Mongo.loadUserSettingsFromMongo, Mongo.call. simpl.
  destruct c; simpl; [| done].
  destruct f as [| [|] f]; simpl; rewrite ?H; done.
Qed.

Lemma settings_missing_on_empty_store :
  snd (Mongo.loadUserSettingsFromMongo Scenario.env0 Scenario.number0 Scenario.db0)
  = Mongo.getDefaultSettings Scenario.env0.
Proof.
  exact (proj1 (settings_missing_gives_defaults Scenario.env0 Scenario.number0 Scenario.db0
                  eq_refl)).
Defined.

(** X8: for a number that has no pairing code in the store, the code that is
    saved is the code that is read back, when number and code are not
    empty, as the schema requires. *)
Theorem pairing_code_save_then_read (number code : string) (d : Mongo.Db) :
  number <> "" -> code <> "" ->
  Mongo.connected d = true -> Mongo.completes 2 d = true ->
  Mongo.findOne number (Mongo.pairingCodes d) = None ->
  snd (Mongo.getPairingCodeFromMongo number
         (fst (Mongo.savePairingCodeToMongo number code d))) = Some code.
Proof.
  intros Hnumber Hcode.
  apply String.eqb_neq in Hnumber, Hcode.
  assert (forall l doc, Mongo.pc_number doc = number -> Mongo.findOne number l = None ->
            Mongo.findOne number (l ++ [doc]) = Some doc) as Happ.
  { intros l doc Hdoc. induction l as [| x l IH]; simpl.
    - by rewrite Hdoc, String.eqb_refl.
    - by destruct (String.eqb (Mongo.pc_number x) number). }
  destruct d as [c f t ss us pcs st]. simpl. intros -> Hf Hnone.
  unfold Mongo.completes in Hf. simpl in Hf.
  unfold Mongo.savePairingCodeToMongo, Mongo.getPairingCodeFromMongo, Mongo.call.
  rewrite Hnumber, Hcode. cbn [orb negb].
  destruct f as [| [|] [| [|] f]]; try discriminate; simpl;
    by rewrite Happ.
Qed.

Lemma pairing_code_first_save_is_read :
  snd (Mongo.getPairingCodeFromMongo Scenario.number0
         (fst (Mongo.savePairingCodeToMongo Scenario.number0 "ABCD1234" Scenario.db0)))
  = Some "ABCD1234".
Proof.
  apply (pairing_code_save_then_read Scenario.number0 "ABCD1234" Scenario.db0);
    [discriminate | discriminate | reflexivity ..].
Defined.

(** ** Command registry: what a load leaves in the registry *)

(** X10: in a multi-descriptor module, a member that is [null] or [undefined]
    ends the loading of the module: the members before it are registered,
    the members after it are not looked at. *)
Theorem nullish_member_ends_the_module (before after : list (string * Registry.EntryValue))
    (k : string) (commands : gmap string Descriptor) :
  Registry.loadEntries (before ++ (k, Registry.ENullish) :: after) commands
    = Registry.loadEntries before commands.
Proof.
  revert commands. induction before as [| [k' [| | d]] before IH]; intros commands; simpl.
  - done.
  - done.
  - apply IH.
  - destruct (Registry.valid d); apply IH.
Qed.

(** X11: the file that is read last decides a pattern: a single-descriptor
    module at the end of the directory is what its pattern looks up,
    whatever the files before it registered, unless the runtime command has
    the same pattern, which then takes its place. *)
Theorem later_file_replaces_earlier (files : list (string * Registry.ModuleExport))
    (file : string) (self : Descriptor) (entries : list (string * Registry.EntryValue))
    (runtimeCommand : Descriptor) :
  Registry.isCommandFile file = true ->
  Registry.valid self = true ->
  Registry.loadCommands (Some (files ++ [(file, Registry.ExportsObject self entries)]))
    runtimeCommand !! pattern self
  = Some (if Registry.valid runtimeCommand && String.eqb (pattern runtimeCommand) (pattern self)
          then runtimeCommand else self).
Proof.
  intros Hfile Hself. unfold Registry.loadCommands.
  rewrite filter_app, foldl_app.
  rewrite filter_cons_True by done. rewrite filter_nil. simpl. rewrite Hself.
  destruct (Registry.valid runtimeCommand); simpl.
  - destruct (String.eqb (pattern runtimeCommand) (pattern self)) eqn:E.
    + apply String.eqb_eq in E. rewrite <- E. apply lookup_insert_eq.
    + apply String.eqb_neq in E. rewrite lookup_insert_ne by done. apply lookup_insert_eq.
  - apply lookup_insert_eq.
Qed.

Lemma kick_file_replaces_group_member :
  Registry.loadCommands
    (Some (Scenario.groupModule ++ [("kick.js", Registry.ExportsObject Scenario.kickPlain [])]))
    Scenario.runtimeDescriptor !! "kick"
  = Some Scenario.kickPlain.
Proof.
  exact (later_file_replaces_earlier Scenario.groupModule "kick.js" Scenario.kickPlain []
           Scenario.runtimeDescriptor eq_refl eq_refl).
Defined.

(** ** Dispatch: what reaches a plugin and what does not *)

(** X12: a message whose text does not start with the effective prefix has no
    effect: the registry is not consulted, nothing is requested from the
    transport, and the store is only read. *)
Theorem text_without_prefix_is_ignored (env : Env) (commands : gmap string Descriptor)
    (conn : Conn) (msg : Message) (sessionId : string) (s : Sys) (body : string) :
  remoteJid (key msg) <> "status@broadcast" ->
  Classifier.getMessageText msg (Classifier.getMessageType msg) = JStr body ->
  Js.startsWith body
    (Dispatch.effectivePrefix env
       (snd (Mongo.loadUserSettingsFromMongo env sessionId (db s)))) = false ->
  exists d : Mongo.Db,
    Dispatch.handleMessage env commands conn msg sessionId s =
      ({| db := d; tick := tick s; trace := trace s |}, Ok tt) /\
    Mongo.sessions d = Mongo.sessions (db s) /\
    Mongo.userSettings d = Mongo.userSettings (db s) /\
    Mongo.pairingCodes d = Mongo.pairingCodes (db s).
Proof.
  intros Hst Hbody Hpre.
  unfold Dispatch.handleMessage, catch.
  apply String.eqb_neq in Hst. rewrite Hst.
  destruct (JsV.truthy (message msg)); simpl.
  { unfold bind. rewrite load_settings_quiet, Hbody, Hpre. simpl.
    eexists. split; [reflexivity |].
    unfold Mongo.loadUserSettingsFromMongo, Mongo.call.
    destruct (db s) as [c f t ss us pcs st]. simpl.
    destruct c; simpl; [| done].
    destruct f as [| [|] f]; simpl; [by destruct (us !! sessionId) | done |
                                     by destruct (us !! sessionId)]. }
  exists (db s). by destruct s.
Qed.

Lemma text_without_prefix_in_private_chat :
  exists d : Mongo.Db,
    Dispatch.handleMessage Scenario.env0 Scenario.promoteRegistry Scenario.conn0
      (Scenario.textMessage Scenario.strangerJid None "promote me") Scenario.number0
      Scenario.sys0
    = ({| db := d; tick := 0; trace := [] |}, Ok tt) /\
    Mongo.sessions d = ∅ /\ Mongo.userSettings d = ∅ /\ Mongo.pairingCodes d = [].
Proof.
  apply (text_without_prefix_is_ignored Scenario.env0 Scenario.promoteRegistry Scenario.conn0
           (Scenario.textMessage Scenario.strangerJid None "promote me") Scenario.number0
           Scenario.sys0 "promote me"); [discriminate | reflexivity | reflexivity].
Defined.

Lemma newsletter_is_not_status (from : string) :
  Js.endsWith from "@newsletter" = true -> String.eqb from "status@broadcast" = false.
Proof.
  intros H. apply String.eqb_neq. intros ->. vm_compute in H. discriminate.
Qed.

Lemma newsletterCommand_handles (env : Env) (conn : Conn)
    (from name userPrefix sessionId : string) (s : Sys) :
  exists l : list Action,
    Dispatch.newsletterCommand conn from name userPrefix sessionId s =
      ({| db := db s; tick := (tick s + length l)%nat; trace := trace s ++ l |}, Ok true) /\
    (length l <= 1)%nat /\
    forall p m c, ~ (AExecute p m c ∈ l).
Proof.
  assert (forall a : Action, (forall p m c, a <> AExecute p m c) ->
            exists l : list Action,
              (bind (catch (request conn a) (ret tt)) (fun _ => ret true)) s =
                ({| db := db s; tick := (tick s + length l)%nat; trace := trace s ++ l |},
                 Ok true) /\
              (length l <= 1)%nat /\ forall p m c, ~ (AExecute p m c ∈ l)) as Hreq.
  { intros a Ha. exists [a]. unfold bind, catch, request, ret. simpl.
    replace (tick s + 1)%nat with (S (tick s)) by lia.
    split; [by destruct (request_fails conn (tick s)) |].
    split; [done |]. intros p m c Hin.
    apply list_elem_of_singleton in Hin. by eapply Ha. }
  assert (exists l : list Action,
            (bind (catch (ret tt) (ret tt)) (fun _ => ret true)) s =
              ({| db := db s; tick := (tick s + length l)%nat; trace := trace s ++ l |},
               Ok true) /\
            (length l <= 1)%nat /\ forall p m c, ~ (AExecute p m c ∈ l)) as Hnone.
  { exists []. unfold bind, catch, ret. simpl. rewrite app_nil_r, Nat.add_0_r.
    split; [by destruct s |]. split; [lia |]. intros p m c Hin. by apply elem_of_nil in Hin. }
  unfold Dispatch.newsletterCommand.
  destruct (String.eqb name "ping").
  { destruct (has_newsletterSend conn); apply Hreq; discriminate. }
  destruct (Dispatch.isMenuName name).
  { destruct (has_newsletterSend conn); apply Hreq; discriminate. }
  destruct (has_newsletterSend conn); [apply Hreq; discriminate | apply Hnone].
Qed.

(** X13: in a newsletter no plugin is ever entered: whatever the text and the
    registry, [handleMessage] issues at most one request, and it is no
    entry into a plugin body. *)
Theorem newsletter_never_enters_a_plugin (env : Env) (commands : gmap string Descriptor)
    (conn : Conn) (msg : Message) (sessionId : string) (s : Sys) :
  Js.endsWith (remoteJid (key msg)) "@newsletter" = true ->
  exists (d : Mongo.Db) (l : list Action),
    Dispatch.handleMessage env commands conn msg sessionId s =
      ({| db := d; tick := (tick s + length l)%nat; trace := trace s ++ l |}, Ok tt) /\
    (length l <= 1)%nat /\
    forall p m c, ~ (AExecute p m c ∈ l).
Proof.
  intros Hnl.
  assert (forall d, exists (d' : Mongo.Db) (l : list Action),
            ({| db := d; tick := tick s; trace := trace s |}, @Ok unit tt) =
              ({| db := d'; tick := (tick s + length l)%nat; trace := trace s ++ l |}, Ok tt) /\
            (length l <= 1)%nat /\ forall p m c, ~ (AExecute p m c ∈ l)) as Hquiet.
  { intros d. exists d, []. simpl. rewrite app_nil_r, Nat.add_0_r.
    split; [done |]. split; [lia |]. intros p m c Hin. by apply elem_of_nil in Hin. }
  unfold Dispatch.handleMessage, catch.
  rewrite (newsletter_is_not_status _ Hnl).
  destruct (JsV.truthy (message msg)); simpl.
  2: { destruct s as [d tk tr]. apply (Hquiet d). }
  unfold bind at 1. rewrite load_settings_quiet.
  destruct (Classifier.getMessageText msg (Classifier.getMessageType msg));
    try apply Hquiet.
  destruct (Js.startsWith _ _); simpl; [| apply Hquiet].
  destruct (Js.splitSpaces _) as [| name args]; [apply Hquiet |].
  unfold bind at 1. unfold Dispatch.handleBuiltInCommands, catch at 1, bind at 1.
  rewrite load_settings_quiet, Hnl. cbn [db tick trace].
  destruct (newsletterCommand_handles env conn (remoteJid (key msg)) (toLowerCase env name)
              (Dispatch.effectivePrefix env
                 (snd (Mongo.loadUserSettingsFromMongo env sessionId
                         (fst (Mongo.loadUserSettingsFromMongo env sessionId (db s))))))
              sessionId
              {| db := fst (Mongo.loadUserSettingsFromMongo env sessionId
                              (fst (Mongo.loadUserSettingsFromMongo env sessionId (db s))));
                 tick := tick s; trace := trace s |}) as (l & Heq & Hlen & Hno).
  cbn [db tick trace] in Heq. rewrite Heq. simpl.
  eexists _, l. split; [reflexivity |]. done.
Qed.

Lemma newsletter_promote_enters_no_plugin :
  exists (d : Mongo.Db) (l : list Action),
    Dispatch.handleMessage Scenario.env0 Scenario.promoteRegistry Scenario.conn0
      (Scenario.textMessage Scenario.channelJid None ".promote") Scenario.number0 Scenario.sys0
    = ({| db := d; tick := (0 + length l)%nat; trace := [] ++ l |}, Ok tt) /\
    (length l <= 1)%nat /\
    forall p m c, ~ (AExecute p m c ∈ l).
Proof.
  exact (newsletter_never_enters_a_plugin Scenario.env0 Scenario.promoteRegistry
           Scenario.conn0 (Scenario.textMessage Scenario.channelJid None ".promote")
           Scenario.number0 Scenario.sys0 eq_refl).
Defined.

(** The participant that [find] returns is the first one of the list
    with the identifier of the sender. *)
Lemma findParticipant_first (md : GroupMetadata) (sender : string)
    (listed : option Participant) :
  match listed with
  | Some p =>
      exists before after : list Participant,
        participants md = before ++ p :: after /\ p_id p = sender /\
        Forall (fun x => p_id x <> sender) before
  | None => Forall (fun x => p_id x <> sender) (participants md)
  end ->
  Dispatch.findParticipant md sender = listed.
Proof.
  unfold Dispatch.findParticipant.
  assert (forall l : list Participant, Forall (fun x => p_id x <> sender) l ->
            forall rest, List.find (fun p => String.eqb (p_id p) sender) (l ++ rest)
                         = List.find (fun p => String.eqb (p_id p) sender) rest) as Hskip.
  { induction 1 as [| x l Hx _ IH]; intros rest; simpl; [done |].
    apply String.eqb_neq in Hx. by rewrite Hx. }
  destruct listed as [p |].
  - intros (before & after & -> & Hp & Hbefore).
    rewrite (Hskip _ Hbefore). simpl. by rewrite Hp, String.eqb_refl.
  - intros Hall. rewrite <- (app_nil_r (participants md)). by rewrite (Hskip _ Hall).
Qed.

Lemma rank_flags (listed : option Participant) :
  let rank := listed ≫= p_admin in
  Dispatch.adminRank listed = bool_decide (rank = Some "admin" \/ rank = Some "superadmin") /\
  Dispatch.superadminRank listed = bool_decide (rank = Some "superadmin").
Proof.
  destruct listed as [[i [r |]] |]; simpl.
  - destruct (String.eqb_spec r "admin") as [Ea | Ea],
      (String.eqb_spec r "superadmin") as [Es | Es]; simpl; split; symmetry;
      first [ apply bool_decide_eq_true; intuition congruence
            | apply bool_decide_eq_false; intuition congruence ].
  - split; symmetry; first [done | apply bool_decide_eq_false; intuition congruence].
  - split; symmetry; first [done | apply bool_decide_eq_false; intuition congruence].
Qed.

(** X14: for a command of a group whose metadata is fetched, the context tells
    the plugin the rank of the sender as the metadata lists it.  [listed]
    is the first participant of the metadata with the identifier of the
    sender, if there is one: [isAdmins] is true exactly when its [admin]
    field is [admin] or [superadmin], [isCreator] exactly when it is
    [superadmin]; both are false for a sender that is not listed or has no
    such field.  The plugin is entered once, after the one request for the
    metadata, with the arguments and the text of the command line. *)
Theorem group_context_carries_rank (env : Env) (commands : gmap string Descriptor)
    (conn : Conn) (msg : Message) (sessionId : string) (s : Sys) (body name : string)
    (args : list string) (command : Descriptor) (f : Exec) (md : GroupMetadata)
    (listed : option Participant) :
  Js.endsWith (remoteJid (key msg)) "@g.us" = true ->
  JsV.truthy (message msg) = true ->
  Classifier.getMessageText msg (Classifier.getMessageType msg) = JStr body ->
  let userPrefix :=
    Dispatch.effectivePrefix env (snd (Mongo.loadUserSettingsFromMongo env sessionId (db s))) in
  Js.startsWith body userPrefix = true ->
  Js.splitSpaces (Js.trim (Js.slice (Js.length userPrefix) body)) = name :: args ->
  Dispatch.isBuiltIn (toLowerCase env name) = false ->
  commands !! toLowerCase env name = Some command ->
  execute command = Some f ->
  groupMetadata_at conn (tick s) (remoteJid (key msg)) = Some md ->
  match listed with
  | Some p =>
      exists before after : list Participant,
        participants md = before ++ p :: after /\ p_id p = senderOf (key msg) /\
        Forall (fun x => p_id x <> senderOf (key msg)) before
  | None => Forall (fun x => p_id x <> senderOf (key msg)) (participants md)
  end ->
  let rank := listed ≫= p_admin in
  let m := {| mentionedJid :=
                JsV.or (JsV.get (JsV.get (JsV.get (message msg) "extendedTextMessage")
                                   "contextInfo") "mentionedJid") (JArr []);
              quoted := Classifier.getQuotedMessage msg;
              m_sender := senderOf (key msg) |} in
  let ctx := {| args := args;
                q := Js.trim (Js.slice (Js.length userPrefix +
                                        Js.length (toLowerCase env name)) body);
                from := remoteJid (key msg);
                isGroup := true;
                groupMetadata := Some md;
                sender := senderOf (key msg);
                isAdmins := bool_decide (rank = Some "admin" \/ rank = Some "superadmin");
                isCreator := bool_decide (rank = Some "superadmin") |} in
  exists d : Mongo.Db,
    Dispatch.handleMessage env commands conn msg sessionId s =
      catch (f conn msg m ctx) (ret tt)
        {| db := d; tick := S (tick s);
           trace := trace s ++ [AGroupMetadata (remoteJid (key msg));
                                AListen "group-participants.update";
                                AExecute (pattern command) m ctx] |}.
Proof.
  intros Hg Hmsg Hbody userPrefix Hpre Hsplit Hb Hreg Hexec Hmd Hlisted rank m ctx.
  destruct (endsWith_group_not_newsletter _ Hg) as [Hnl Hst].
  apply findParticipant_first in Hlisted.
  destruct (rank_flags listed) as [Hadmins Hcreator]. fold rank in Hadmins, Hcreator.
  unfold Dispatch.handleMessage.
  apply String.eqb_neq in Hst. rewrite Hst, Hmsg. simpl.
  exists (fst (Mongo.loadUserSettingsFromMongo env sessionId
                 (fst (Mongo.loadUserSettingsFromMongo env sessionId (db s))))).
  unfold catch at 1, bind at 1. rewrite load_settings_quiet, Hbody. fold userPrefix.
  rewrite Hpre. cbn [negb]. rewrite Hsplit.
  unfold bind at 1.
  rewrite (handleBuiltInCommands_unknown _ _ _ _ _ _ _ Hnl Hb).
  rewrite Hreg.
  unfold Dispatch.runCommand. rewrite Hg, Hexec.
  unfold catch, bind, fetchGroupMetadata, emit, ret. cbn [db tick trace]. rewrite Hmd.
  cbn [m_sender]. rewrite Hlisted, Hadmins, Hcreator.
  simpl. rewrite <- !app_assoc. simpl. fold rank. fold m. fold ctx.
  destruct (f conn msg m ctx _) as [s' [[] |]]; reflexivity.
Qed.

(** In the group of three the admin is told [isAdmins], the creator
    [isAdmins] and [isCreator], and a sender the metadata does not list
    neither. *)
Lemma group_context_of_three :
  (exists d : Mongo.Db,
     Dispatch.handleMessage Scenario.env0 Scenario.promoteRegistry Scenario.connGroupOfThree
       (Scenario.promoteBy Scenario.adminJid) Scenario.number0 Scenario.sys0
     = catch (Promote.execute Scenario.connGroupOfThree (Scenario.promoteBy Scenario.adminJid)
                (Scenario.argBy Scenario.adminJid)
                (Scenario.ctxOfThree Scenario.adminJid true false)) (ret tt)
         {| db := d; tick := 1;
            trace := [AGroupMetadata Scenario.groupJid;
                      AListen "group-participants.update";
                      AExecute "promote" (Scenario.argBy Scenario.adminJid)
                        (Scenario.ctxOfThree Scenario.adminJid true false)] |}) /\
  (exists d : Mongo.Db,
     Dispatch.handleMessage Scenario.env0 Scenario.promoteRegistry Scenario.connGroupOfThree
       (Scenario.promoteBy Scenario.creatorJid) Scenario.number0 Scenario.sys0
     = catch (Promote.execute Scenario.connGroupOfThree
                (Scenario.promoteBy Scenario.creatorJid)
                (Scenario.argBy Scenario.creatorJid)
                (Scenario.ctxOfThree Scenario.creatorJid true true)) (ret tt)
         {| db := d; tick := 1;
            trace := [AGroupMetadata Scenario.groupJid;
                      AListen "group-participants.update";
                      AExecute "promote" (Scenario.argBy Scenario.creatorJid)
                        (Scenario.ctxOfThree Scenario.creatorJid true true)] |}) /\
  (exists d : Mongo.Db,
     Dispatch.handleMessage Scenario.env0 Scenario.promoteRegistry Scenario.connGroupOfThree
       (Scenario.promoteBy Scenario.strangerJid) Scenario.number0 Scenario.sys0
     = catch (Promote.execute Scenario.connGroupOfThree
                (Scenario.promoteBy Scenario.strangerJid)
                (Scenario.argBy Scenario.strangerJid)
                (Scenario.ctxOfThree Scenario.strangerJid false false)) (ret tt)
         {| db := d; tick := 1;
            trace := [AGroupMetadata Scenario.groupJid;
                      AListen "group-participants.update";
                      AExecute "promote" (Scenario.argBy Scenario.strangerJid)
                        (Scenario.ctxOfThree Scenario.strangerJid false false)] |}).
Proof.
  split; [| split].
  - apply (group_context_carries_rank Scenario.env0 Scenario.promoteRegistry
             Scenario.connGroupOfThree (Scenario.promoteBy Scenario.adminJid)
             Scenario.number0 Scenario.sys0 ".promote" "promote" [] Promote.descriptor
             Promote.execute Scenario.groupOfThree
             (Some {| p_id := Scenario.adminJid; p_admin := Some "admin" |}));
      try reflexivity.
    exists [{| p_id := Scenario.memberJid; p_admin := None |}],
           [{| p_id := Scenario.creatorJid; p_admin := Some "superadmin" |}].
    split; [reflexivity |]. split; [reflexivity |].
    repeat (apply List.Forall_cons; [vm_compute; discriminate |]). apply List.Forall_nil.
  - apply (group_context_carries_rank Scenario.env0 Scenario.promoteRegistry
             Scenario.connGroupOfThree (Scenario.promoteBy Scenario.creatorJid)
             Scenario.number0 Scenario.sys0 ".promote" "promote" [] Promote.descriptor
             Promote.execute Scenario.groupOfThree
             (Some {| p_id := Scenario.creatorJid; p_admin := Some "superadmin" |}));
      try reflexivity.
    exists [{| p_id := Scenario.memberJid; p_admin := None |};
            {| p_id := Scenario.adminJid; p_admin := Some "admin" |}], [].
    split; [reflexivity |]. split; [reflexivity |].
    repeat (apply List.Forall_cons; [vm_compute; discriminate |]). apply List.Forall_nil.
  - apply (group_context_carries_rank Scenario.env0 Scenario.promoteRegistry
             Scenario.connGroupOfThree (Scenario.promoteBy Scenario.strangerJid)
             Scenario.number0 Scenario.sys0 ".promote" "promote" [] Promote.descriptor
             Promote.execute Scenario.groupOfThree None);
      try reflexivity.
    repeat (apply List.Forall_cons; [vm_compute; discriminate |]). apply List.Forall_nil.
Defined.

(** X15: outside a newsletter, [menu], [help] and [nyoni] are answered by the
    server itself: when the menu is sent, a plugin registered under the
    same name is not entered. *)
Theorem menu_is_answered_before_the_registry (env : Env)
    (commands : gmap string Descriptor) (conn : Conn) (msg : Message)
    (sessionId : string) (s : Sys) (body name : string) (args : list string) :
  remoteJid (key msg) <> "status@broadcast" ->
  Js.endsWith (remoteJid (key msg)) "@newsletter" = false ->
  JsV.truthy (message msg) = true ->
  Classifier.getMessageText msg (Classifier.getMessageType msg) = JStr body ->
  let d1 := fst (Mongo.loadUserSettingsFromMongo env sessionId (db s)) in
  let userPrefix :=
    Dispatch.effectivePrefix env (snd (Mongo.loadUserSettingsFromMongo env sessionId (db s))) in
  Js.startsWith body userPrefix = true ->
  Js.splitSpaces (Js.trim (Js.slice (Js.length userPrefix) body)) = name :: args ->
  Dispatch.isMenuName (toLowerCase env name) = true ->
  request_fails conn (tick s) = false ->
  Dispatch.handleMessage env commands conn msg sessionId s =
    ({| db := fst (Mongo.loadUserSettingsFromMongo env sessionId d1);
        tick := S (tick s);
        trace := trace s ++
          [ASendMessage (Some (remoteJid (key msg)))
             (Dispatch.menuContent
                (Dispatch.effectivePrefix env
                   (snd (Mongo.loadUserSettingsFromMongo env sessionId d1)))
                sessionId)
             QuotedMessage] |}, Ok tt).
Proof.
  intros Hst Hnl Hmsg Hbody d1 userPrefix Hpre Hsplit Hmenu Hok.
  assert (String.eqb (toLowerCase env name) "ping" ||
          String.eqb (toLowerCase env name) "speed" = false /\
          String.eqb (toLowerCase env name) "prefix" = false) as [Hping Hprefix].
  { unfold Dispatch.isMenuName in Hmenu.
    destruct (String.eqb (toLowerCase env name) "menu") eqn:E1;
      [apply String.eqb_eq in E1; by rewrite E1 |].
    destruct (String.eqb (toLowerCase env name) "help") eqn:E2;
      [apply String.eqb_eq in E2; by rewrite E2 |].
    destruct (String.eqb (toLowerCase env name) "nyoni") eqn:E3; [| discriminate].
    apply String.eqb_eq in E3; by rewrite E3. }
  unfold Dispatch.handleMessage.
  apply String.eqb_neq in Hst. rewrite Hst, Hmsg. simpl.
  unfold catch at 1, bind at 1. rewrite load_settings_quiet, Hbody. fold userPrefix.
  rewrite Hpre. cbn [negb]. rewrite Hsplit.
  unfold bind at 1.
  unfold Dispatch.handleBuiltInCommands, catch at 1, bind at 1.
  rewrite load_settings_quiet, Hnl. cbn [db tick trace]. fold d1.
  unfold Dispatch.chatCommand. rewrite Hping, Hprefix, Hmenu.
  unfold bind, request, ret. cbn [db tick trace]. rewrite Hok. reflexivity.
Qed.

Lemma menu_in_private_chat_skips_plugin :
  Dispatch.handleMessage Scenario.env0 Scenario.menuRegistry Scenario.conn0
    (Scenario.textMessage Scenario.strangerJid None ".menu") Scenario.number0 Scenario.sys0
  = ({| db := Scenario.db0; tick := 1;
        trace := [ASendMessage (Some Scenario.strangerJid)
                    (Dispatch.menuContent "." Scenario.number0) QuotedMessage] |}, Ok tt).
Proof.
  apply (menu_is_answered_before_the_registry Scenario.env0 Scenario.menuRegistry
           Scenario.conn0 (Scenario.textMessage Scenario.strangerJid None ".menu")
           Scenario.number0 Scenario.sys0 ".menu" "menu" []);
    [discriminate | reflexivity ..].
Defined.

(** X16: when the transport rejects the request that sends the menu, the
    built-in counts as not handled, and a plugin registered under the same
    name is entered after all. *)
Theorem rejected_menu_falls_through_to_plugin (env : Env)
    (commands : gmap string Descriptor) (conn : Conn) (msg : Message)
    (sessionId : string) (s : Sys) (body name : string) (args : list string)
    (command : Descriptor) (f : Exec) :
  remoteJid (key msg) <> "status@broadcast" ->
  Js.endsWith (remoteJid (key msg)) "@newsletter" = false ->
  Js.endsWith (remoteJid (key msg)) "@g.us" = false ->
  JsV.truthy (message msg) = true ->
  Classifier.getMessageText msg (Classifier.getMessageType msg) = JStr body ->
  let d1 := fst (Mongo.loadUserSettingsFromMongo env sessionId (db s)) in
  let userPrefix :=
    Dispatch.effectivePrefix env (snd (Mongo.loadUserSettingsFromMongo env sessionId (db s))) in
  Js.startsWith body userPrefix = true ->
  Js.splitSpaces (Js.trim (Js.slice (Js.length userPrefix) body)) = name :: args ->
  Dispatch.isMenuName (toLowerCase env name) = true ->
  request_fails conn (tick s) = true ->
  commands !! toLowerCase env name = Some command ->
  execute command = Some f ->
  let m := {| mentionedJid :=
                JsV.or (JsV.get (JsV.get (JsV.get (message msg) "extendedTextMessage")
                                   "contextInfo") "mentionedJid") (JArr []);
              quoted := Classifier.getQuotedMessage msg;
              m_sender := senderOf (key msg) |} in
  let ctx := {| args := args;
                q := Js.trim (Js.slice (Js.length userPrefix +
                                        Js.length (toLowerCase env name)) body);
                from := remoteJid (key msg);
                isGroup := false;
                groupMetadata := None;
                sender := senderOf (key msg);
                isAdmins := false;
                isCreator := false |} in
  Dispatch.handleMessage env commands conn msg sessionId s =
    catch (f conn msg m ctx) (ret tt)
      {| db := fst (Mongo.loadUserSettingsFromMongo env sessionId d1);
         tick := S (tick s);
         trace := trace s ++
           [ASendMessage (Some (remoteJid (key msg)))
              (Dispatch.menuContent
                 (Dispatch.effectivePrefix env
                    (snd (Mongo.loadUserSettingsFromMongo env sessionId d1)))
                 sessionId)
              QuotedMessage;
            AListen "group-participants.update";
            AExecute (pattern command) m ctx] |}.
Proof.
  intros Hst Hnl Hg Hmsg Hbody d1 userPrefix Hpre Hsplit Hmenu Hfail Hreg Hexec m ctx.
  assert (String.eqb (toLowerCase env name) "ping" ||
          String.eqb (toLowerCase env name) "speed" = false /\
          String.eqb (toLowerCase env name) "prefix" = false) as [Hping Hprefix].
  { unfold Dispatch.isMenuName in Hmenu.
    destruct (String.eqb (toLowerCase env name) "menu") eqn:E1;
      [apply String.eqb_eq in E1; by rewrite E1 |].
    destruct (String.eqb (toLowerCase env name) "help") eqn:E2;
      [apply String.eqb_eq in E2; by rewrite E2 |].
    destruct (String.eqb (toLowerCase env name) "nyoni") eqn:E3; [| discriminate].
    apply String.eqb_eq in E3; by rewrite E3. }
  unfold Dispatch.handleMessage.
  apply String.eqb_neq in Hst. rewrite Hst, Hmsg. simpl.
  unfold catch at 1, bind at 1. rewrite load_settings_quiet, Hbody. fold userPrefix.
  rewrite Hpre. cbn [negb]. rewrite Hsplit.
  unfold bind at 1.
  unfold Dispatch.handleBuiltInCommands, catch at 1, bind at 1.
  rewrite load_settings_quiet, Hnl. cbn [db tick trace]. fold d1.
  unfold Dispatch.chatCommand. rewrite Hping, Hprefix, Hmenu.
  unfold bind at 1, request at 1. cbn [db tick trace]. rewrite Hfail.
  cbn iota beta. unfold ret at 1. cbn iota beta.
  rewrite Hreg.
  unfold Dispatch.runCommand. rewrite Hg, Hexec.
  unfold catch, bind, emit, ret. simpl. rewrite <- !app_assoc. simpl. fold m. fold ctx.
  destruct (f conn msg m ctx _) as [s' [[] |]]; reflexivity.
Qed.

Lemma rejected_menu_enters_menu_plugin :
  Dispatch.handleMessage Scenario.env0 Scenario.menuRegistry Scenario.connFirstRejected
    (Scenario.textMessage Scenario.strangerJid None ".menu") Scenario.number0 Scenario.sys0
  = ({| db := Scenario.db0; tick := 1;
        trace := [ASendMessage (Some Scenario.strangerJid)
                    (Dispatch.menuContent "." Scenario.number0) QuotedMessage;
                  AListen "group-participants.update";
                  AExecute "menu"
                    {| mentionedJid := JArr []; quoted := None;
                       m_sender := Scenario.strangerJid |}
                    {| args := []; q := ""; from := Scenario.strangerJid; isGroup := false;
                       groupMetadata := None; sender := Scenario.strangerJid;
                       isAdmins := false; isCreator := false |}] |}, Ok tt).
Proof.
  apply (rejected_menu_falls_through_to_plugin Scenario.env0 Scenario.menuRegistry
           Scenario.connFirstRejected (Scenario.textMessage Scenario.strangerJid None ".menu")
           Scenario.number0 Scenario.sys0 ".menu" "menu" [] Scenario.menuDescriptor
           Scenario.noop);
    [discriminate | reflexivity ..].
Defined.

(** ** Dispatch: the prefix command *)

Lemma completes_fewer (f : list bool) (k : nat) :
  forallb negb (take (S k) f) = true -> forallb negb (take k f) = true.
Proof.
  revert k. induction f as [| x f IH]; intros k H; [by rewrite take_nil |].
  destruct k; [done |]. simpl in *.
  apply andb_true_iff in H as [Hx H]. rewrite Hx. simpl. by apply IH.
Qed.

Lemma load_settings_keeps (env : Env) (number : string) (d : Mongo.Db) :
  let d' := fst (Mongo.loadUserSettingsFromMongo env number d) in
  Mongo.connected d' = Mongo.connected d /\
  Mongo.clock d' = Mongo.clock d /\
  Mongo.userSettings d' = Mongo.userSettings d /\
  forall k : nat, Mongo.completes (S k) d = true -> Mongo.completes k d' = true.
Proof.
  destruct d as [c f t ss us pcs st].
  unfold Mongo.loadUserSettingsFromMongo, Mongo.call, Mongo.completes. simpl.
  destruct c; simpl.
  - destruct f as [| [|] f]; simpl.
    + destruct (us !! number); simpl; repeat split; intros k _; by rewrite take_nil.
    + repeat split. discriminate.
    + destruct (us !! number); simpl; repeat split; done.
  - repeat split. intros k H. by apply completes_fewer.
Qed.

(** What the [prefix] command does for a sender who passes the owner test
    and gives a new prefix. *)
Lemma prefix_command_saves (env : Env) (conn : Conn) (msg : Message)
    (newPrefix : string) (rest : list string) (sessionId : string) (s : Sys) :
  Js.endsWith (remoteJid (key msg)) "@newsletter" = false ->
  Dispatch.passesOwnerCheck (user_id conn) (senderOf (key msg)) = true ->
  Dispatch.handleBuiltInCommands env conn msg "prefix" (newPrefix :: rest) sessionId s =
    ({| db := Mongo.saveUserSettingsToMongo env sessionId newPrefix
                (fst (Mongo.loadUserSettingsFromMongo env sessionId (db s)));
        tick := S (tick s);
        trace := trace s ++
          [ASendMessage (Some (remoteJid (key msg)))
             (textOnly (TStr ("✅ 𝙿𝚛𝚎𝚏𝚒𝚡 𝚞𝚙𝚍𝚊𝚝𝚎𝚍 𝚝𝚘: " +:+ newPrefix))) QuotedMessage] |},
     Ok (negb (request_fails conn (tick s)))).
Proof.
  intros Hnl Hown.
  unfold Dispatch.handleBuiltInCommands, catch, bind.
  rewrite load_settings_quiet, Hnl.
  unfold Dispatch.chatCommand. simpl. rewrite Hown. simpl.
  unfold bind, liftDb_, liftDb, request, ret. simpl.
  by destruct (request_fails conn (tick s)).
Qed.

(** X17: when the owner sets a prefix with the store up, the confirmation is
    sent and the prefix is the effective prefix of the session from then
    on. *)
Theorem prefix_change_takes_effect (env : Env) (conn : Conn) (msg : Message)
    (newPrefix : string) (rest : list string) (sessionId : string) (s : Sys) :
  Js.endsWith (remoteJid (key msg)) "@newsletter" = false ->
  Dispatch.passesOwnerCheck (user_id conn) (senderOf (key msg)) = true ->
  newPrefix <> "" ->
  Mongo.connected (db s) = true -> Mongo.completes 3 (db s) = true ->
  let s' := fst (Dispatch.handleBuiltInCommands env conn msg "prefix" (newPrefix :: rest)
                   sessionId s) in
  trace s' = trace s ++
    [ASendMessage (Some (remoteJid (key msg)))
       (textOnly (TStr ("✅ 𝙿𝚛𝚎𝚏𝚒𝚡 𝚞𝚙𝚍𝚊𝚝𝚎𝚍 𝚝𝚘: " +:+ newPrefix))) QuotedMessage] /\
  Dispatch.effectivePrefix env
    (snd (Mongo.loadUserSettingsFromMongo env sessionId (db s'))) = newPrefix.
Proof.
  intros Hnl Hown Hne Hc Hf. cbv zeta.
  rewrite (prefix_command_saves _ _ _ _ _ _ _ Hnl Hown). simpl. split; [done |].
  destruct (load_settings_keeps env sessionId (db s)) as (Hc1 & _ & _ & Hf1).
  unfold Dispatch.effectivePrefix.
  rewrite saved_prefix_is_loaded; [| congruence | by apply Hf1].
  apply String.eqb_neq in Hne. by rewrite Hne.
Qed.

Lemma owner_sets_prefix :
  trace (fst (Dispatch.handleBuiltInCommands Scenario.env0 Scenario.conn0
                (Scenario.textMessage Scenario.ownerJid None ".prefix !") "prefix" ["!"]
                Scenario.number0 Scenario.sys0))
  = [] ++ [ASendMessage (Some Scenario.ownerJid)
             (textOnly (TStr ("✅ 𝙿𝚛𝚎𝚏𝚒𝚡 𝚞𝚙𝚍𝚊𝚝𝚎𝚍 𝚝𝚘: " +:+ "!"))) QuotedMessage] /\
  Dispatch.effectivePrefix Scenario.env0
    (snd (Mongo.loadUserSettingsFromMongo Scenario.env0 Scenario.number0
            (db (fst (Dispatch.handleBuiltInCommands Scenario.env0 Scenario.conn0
                        (Scenario.textMessage Scenario.ownerJid None ".prefix !") "prefix"
                        ["!"] Scenario.number0 Scenario.sys0)))))
  = "!".
Proof.
  apply (prefix_change_takes_effect Scenario.env0 Scenario.conn0
           (Scenario.textMessage Scenario.ownerJid None ".prefix !") "!" []
           Scenario.number0 Scenario.sys0);
    [reflexivity | reflexivity | discriminate | reflexivity | reflexivity].
Defined.

(** X18: when the owner sets a prefix while the store is down, the same
    confirmation is sent although nothing is written. *)
Theorem prefix_change_with_store_down (env : Env) (conn : Conn) (msg : Message)
    (newPrefix : string) (rest : list string) (sessionId : string) (s : Sys) :
  Js.endsWith (remoteJid (key msg)) "@newsletter" = false ->
  Dispatch.passesOwnerCheck (user_id conn) (senderOf (key msg)) = true ->
  Mongo.connected (db s) = false ->
  let s' := fst (Dispatch.handleBuiltInCommands env conn msg "prefix" (newPrefix :: rest)
                   sessionId s) in
  trace s' = trace s ++
    [ASendMessage (Some (remoteJid (key msg)))
       (textOnly (TStr ("✅ 𝙿𝚛𝚎𝚏𝚒𝚡 𝚞𝚙𝚍𝚊𝚝𝚎𝚍 𝚝𝚘: " +:+ newPrefix))) QuotedMessage] /\
  db s' = db s.
Proof.
  intros Hnl Hown Hc. cbv zeta.
  rewrite (prefix_command_saves _ _ _ _ _ _ _ Hnl Hown). simpl. split; [done |].
  unfold Mongo.loadUserSettingsFromMongo. rewrite Hc. simpl.
  unfold Mongo.saveUserSettingsToMongo. by rewrite Hc.
Qed.

Lemma owner_sets_prefix_with_store_down :
  trace (fst (Dispatch.handleBuiltInCommands Scenario.env0 Scenario.conn0
                (Scenario.textMessage Scenario.ownerJid None ".prefix !") "prefix" ["!"]
                Scenario.number0 Scenario.sysStoreDown))
  = [] ++ [ASendMessage (Some Scenario.ownerJid)
             (textOnly (TStr ("✅ 𝙿𝚛𝚎𝚏𝚒𝚡 𝚞𝚙𝚍𝚊𝚝𝚎𝚍 𝚝𝚘: " +:+ "!"))) QuotedMessage] /\
  db (fst (Dispatch.handleBuiltInCommands Scenario.env0 Scenario.conn0
             (Scenario.textMessage Scenario.ownerJid None ".prefix !") "prefix" ["!"]
             Scenario.number0 Scenario.sysStoreDown))
  = Scenario.dbDown.
Proof.
  exact (prefix_change_with_store_down Scenario.env0 Scenario.conn0
           (Scenario.textMessage Scenario.ownerJid None ".prefix !") "!" []
           Scenario.number0 Scenario.sysStoreDown eq_refl eq_refl eq_refl).
Defined.

(** ** Dispatch: a status of the account *)

(** X19: on a status broadcast the three automatic reactions are requested one
    after the other as the settings of the session ask for them; the
    rejection of one does not keep the next from being requested, and
    nothing is looked up in the registry. *)
Theorem status_requests_are_independent (env : Env) (commands : gmap string Descriptor)
    (conn : Conn) (msg : Message) (sessionId : string) (s : Sys) :
  remoteJid (key msg) = "status@broadcast" ->
  let settings := snd (Mongo.loadUserSettingsFromMongo env sessionId (db s)) in
  let st := Mongo.autoStatus settings in
  let seen := if Mongo.seen st then [AReadMessages (key msg)] else [] in
  let react :=
    if Mongo.react st
    then [ASendMessage (Some (remoteJid (key msg)))
            (reactOnly (statusEmoji env (tick s + length seen)%nat) (key msg))
            (StatusJidList [participant (key msg); Some (user_id conn)])]
    else [] in
  let reply :=
    if Mongo.reply st
    then [ASendMessage (participant (key msg))
            {| c_text := Some (TStr (AUTO_STATUS_MSG env));
               c_react := Some ("⚔️", key msg);
               c_mentions := []; c_contextInfo := NoContext |}
            QuotedMessage]
    else [] in
  let media :=
    if JsV.truthy (message msg) &&
       (JsV.truthy (JsV.get (message msg) "imageMessage") ||
        JsV.truthy (JsV.get (message msg) "videoMessage"))
    then [AStatusMedia (participant (key msg))] else [] in
  Dispatch.handleMessage env commands conn msg sessionId s =
    ({| db := fst (Mongo.loadUserSettingsFromMongo env sessionId (db s));
        tick := (tick s + length seen + length react + length reply)%nat;
        trace := trace s ++ seen ++ react ++ reply ++ media |}, Ok tt).
Proof.
  intros Hst. cbv zeta.
  unfold Dispatch.handleMessage, catch. rewrite Hst. simpl.
  unfold Dispatch.autoStatus, bind at 1. rewrite load_settings_quiet.
  rewrite Hst.
  destruct (Mongo.seen _), (Mongo.react _), (Mongo.reply _),
    (JsV.truthy (message msg) && _);
    unfold bind, catch, request, getTick, emit, ret; simpl;
    repeat match goal with
           | |- context [request_fails conn ?n] => destruct (request_fails conn n); simpl
           end;
    rewrite <- ?app_assoc, ?app_nil_r, ?Nat.add_0_r; simpl;
    repeat f_equal; try lia; by destruct s.
Qed.

Lemma status_with_rejected_read :
  trace (fst (Dispatch.handleMessage Scenario.env0 Scenario.menuRegistry
                Scenario.connFirstRejected Scenario.statusMessage Scenario.number0
                Scenario.sysWithSettings))
  = [AReadMessages (key Scenario.statusMessage);
     ASendMessage (Some "status@broadcast") (reactOnly "🔥" (key Scenario.statusMessage))
       (StatusJidList [Some Scenario.strangerJid; Some "15551234567:5@s.whatsapp.net"]);
     ASendMessage (Some Scenario.strangerJid)
       {| c_text := Some (TStr (AUTO_STATUS_MSG Scenario.env0));
          c_react := Some ("⚔️", key Scenario.statusMessage);
          c_mentions := []; c_contextInfo := NoContext |}
       QuotedMessage;
     AStatusMedia (Some Scenario.strangerJid)].
Proof.
  exact (f_equal (fun r => trace (fst r))
           (status_requests_are_independent Scenario.env0 Scenario.menuRegistry
              Scenario.connFirstRejected Scenario.statusMessage Scenario.number0
              Scenario.sysWithSettings eq_refl)).
Defined.

(** ** The promote plugin: when the participants are updated *)

(** X20: [promote] asks the transport to update the participants only in a
    group whose metadata it could fetch and for a sender who is admin there
    or is the account of the socket; the update then promotes the target it
    picked in the chat it was sent from. *)
Theorem promote_updates_only_for_admin_or_owner (conn : Conn) (msg : Message) (m : MArg)
    (ctx : Ctx) (s : Sys) (jid : string) (targets : list JsVal) (action : string) :
  AGroupParticipantsUpdate jid targets action
    ∈ trace (fst (Promote.execute conn msg m ctx s)) ->
  AGroupParticipantsUpdate jid targets action ∈ trace s \/
  (isGroup ctx = true /\
   (exists md : GroupMetadata,
      groupMetadata_at conn (tick s) (from ctx) = Some md /\
      Promote.isAdmin md (sender ctx) || Promote.isOwner conn (sender ctx) = true) /\
   jid = from ctx /\ targets = [Promote.pickTarget m] /\ action = "promote").
Proof.
  unfold Promote.execute, Promote.tryBlock, Promote.catchBlock, replyTo.
  unfold bind, catch, fetchGroupMetadata, request, ret, throw. simpl.
  repeat (case_match; simpl in *; simplify_eq).
  all: intros Hin; rewrite <- ?app_assoc in Hin; simpl in Hin;
    apply elem_of_app in Hin as [Hin | Hin]; [by left |].
  all: repeat (apply elem_of_cons in Hin as [Hin | Hin]; [try discriminate Hin |]).
  all: try (by apply elem_of_nil in Hin).
  all: injection Hin as -> -> ->; right.
  all: repeat match goal with
              | H : negb ?a = false |- _ => apply negb_false_iff in H
              | H : negb ?a && negb ?b = false |- _ =>
                  assert (a || b = true) by (destruct a, b; done); clear H
              end.
  all: split; [done |]; split; [eexists; split; [done | done] | done].
Qed.

Lemma promote_update_by_admin :
  AGroupParticipantsUpdate Scenario.groupJid [JStr Scenario.memberJid] "promote"
    ∈ trace Scenario.sys0 \/
  (isGroup Scenario.adminCtx = true /\
   (exists md : GroupMetadata,
      groupMetadata_at Scenario.conn0 (tick Scenario.sys0) (from Scenario.adminCtx)
        = Some md /\
      Promote.isAdmin md (sender Scenario.adminCtx)
        || Promote.isOwner Scenario.conn0 (sender Scenario.adminCtx) = true) /\
   Scenario.groupJid = from Scenario.adminCtx /\
   [JStr Scenario.memberJid] = [Promote.pickTarget Scenario.promoteArgMention] /\
   "promote" = "promote").
Proof.
  apply (promote_updates_only_for_admin_or_owner Scenario.conn0 Scenario.adminPromoteMessage
           Scenario.promoteArgMention Scenario.adminCtx Scenario.sys0).
  vm_compute. do 2 apply list_elem_of_further. apply list_elem_of_here.
Defined.

(** X21: for an admin of the group, or the account itself, who names a target,
    [promote] reacts to the message, promotes the target, and announces it,
    in this order. *)
Theorem promote_promotes_the_target (conn : Conn) (msg : Message) (m : MArg) (ctx : Ctx)
    (s : Sys) (md : GroupMetadata) (target : string) :
  isGroup ctx = true ->
  groupMetadata_at conn (tick s) (from ctx) = Some md ->
  Promote.isAdmin md (sender ctx) || Promote.isOwner conn (sender ctx) = true ->
  Promote.pickTarget m = JStr target -> target <> "" ->
  request_fails conn (S (tick s)) = false ->
  request_fails conn (S (S (tick s))) = false ->
  request_fails conn (S (S (S (tick s)))) = false ->
  Promote.execute conn msg m ctx s =
    ({| db := db s; tick := S (S (S (S (tick s))));
        trace := trace s ++
          [AGroupMetadata (from ctx);
           ASendMessage (Some (from ctx)) (reactOnly "✅" (key msg)) NoOptions;
           AGroupParticipantsUpdate (from ctx) [JStr target] "promote";
           ASendMessage (Some (from ctx)) (Promote.promotedContent target) QuotedMessage] |},
     Ok tt).
Proof.
  intros Hg Hmd Hrank Htarget Hne H1 H2 H3.
  apply String.eqb_neq in Hne.
  unfold Promote.execute, Promote.tryBlock.
  unfold bind, catch, fetchGroupMetadata, request, ret. rewrite Hg. simpl. rewrite Hmd. simpl.
  replace (negb (Promote.isAdmin md (sender ctx)) && negb (Promote.isOwner conn (sender ctx)))
    with false
    by (destruct (Promote.isAdmin md (sender ctx)), (Promote.isOwner conn (sender ctx)); done).
  rewrite Htarget. simpl. rewrite Hne. simpl. rewrite H1. simpl. rewrite H2. simpl.
  rewrite H3. simpl. by rewrite <- !app_assoc.
Qed.

Lemma promote_by_admin :
  Promote.execute Scenario.conn0 Scenario.adminPromoteMessage Scenario.promoteArgMention
    Scenario.adminCtx Scenario.sys0
  = ({| db := Scenario.db0; tick := 4;
        trace :=
          [AGroupMetadata Scenario.groupJid;
           ASendMessage (Some Scenario.groupJid)
             (reactOnly "✅" (key Scenario.adminPromoteMessage)) NoOptions;
           AGroupParticipantsUpdate Scenario.groupJid [JStr Scenario.memberJid] "promote";
           ASendMessage (Some Scenario.groupJid)
             (Promote.promotedContent Scenario.memberJid) QuotedMessage] |}, Ok tt).
Proof.
  apply (promote_promotes_the_target Scenario.conn0 Scenario.adminPromoteMessage
           Scenario.promoteArgMention Scenario.adminCtx Scenario.sys0
           {| participants := [{| p_id := Scenario.adminJid; p_admin := Some "admin" |}] |}
           Scenario.memberJid);
    [reflexivity | reflexivity | reflexivity | reflexivity | discriminate | reflexivity ..].
Defined.

(** X22: when the transport rejects the update, [promote] has already reacted
    with the check mark; it then reacts with the cross and reports the
    failure, and rejects itself only if one of these two requests is
    rejected as well. *)
Theorem promote_reports_a_rejected_update (conn : Conn) (msg : Message) (m : MArg)
    (ctx : Ctx) (s : Sys) (md : GroupMetadata) :
  isGroup ctx = true ->
  groupMetadata_at conn (tick s) (from ctx) = Some md ->
  Promote.isAdmin md (sender ctx) || Promote.isOwner conn (sender ctx) = true ->
  JsV.truthy (Promote.pickTarget m) = true ->
  request_fails conn (S (tick s)) = false ->
  request_fails conn (S (S (tick s))) = true ->
  let cross_fails := request_fails conn (S (S (S (tick s)))) in
  let report_fails := request_fails conn (S (S (S (S (tick s))))) in
  Promote.execute conn msg m ctx s =
    ({| db := db s;
        tick := if cross_fails then S (S (S (S (tick s)))) else S (S (S (S (S (tick s)))));
        trace := trace s ++
          [AGroupMetadata (from ctx);
           ASendMessage (Some (from ctx)) (reactOnly "✅" (key msg)) NoOptions;
           AGroupParticipantsUpdate (from ctx) [Promote.pickTarget m] "promote";
           ASendMessage (Some (from ctx)) (reactOnly "❌" (key msg)) NoOptions] ++
          (if cross_fails then []
           else [ASendMessage (Some (from ctx)) Promote.failedContent QuotedMessage]) |},
     if cross_fails || report_fails then Err else Ok tt).
Proof.
  intros Hg Hmd Hrank Htarget H1 H2. cbv zeta.
  unfold Promote.execute, Promote.tryBlock, Promote.catchBlock.
  unfold bind, catch, fetchGroupMetadata, request, ret. rewrite Hg. simpl. rewrite Hmd. simpl.
  replace (negb (Promote.isAdmin md (sender ctx)) && negb (Promote.isOwner conn (sender ctx)))
    with false
    by (destruct (Promote.isAdmin md (sender ctx)), (Promote.isOwner conn (sender ctx)); done).
  rewrite Htarget. simpl. rewrite H1. simpl. rewrite H2. simpl.
  destruct (request_fails conn (S (S (S (tick s))))); simpl.
  - by rewrite <- !app_assoc.
  - destruct (request_fails conn (S (S (S (S (tick s)))))); simpl; by rewrite <- !app_assoc.
Qed.

Lemma promote_with_rejected_update :
  Promote.execute Scenario.connUpdateRejected Scenario.adminPromoteMessage
    Scenario.promoteArgMention Scenario.adminCtx Scenario.sys0
  = ({| db := Scenario.db0; tick := 5;
        trace :=
          [AGroupMetadata Scenario.groupJid;
           ASendMessage (Some Scenario.groupJid)
             (reactOnly "✅" (key Scenario.adminPromoteMessage)) NoOptions;
           AGroupParticipantsUpdate Scenario.groupJid [JStr Scenario.memberJid] "promote";
           ASendMessage (Some Scenario.groupJid)
             (reactOnly "❌" (key Scenario.adminPromoteMessage)) NoOptions;
           ASendMessage (Some Scenario.groupJid) Promote.failedContent QuotedMessage] |},
     Ok tt).
Proof.
  exact (promote_reports_a_rejected_update Scenario.connUpdateRejected
           Scenario.adminPromoteMessage Scenario.promoteArgMention Scenario.adminCtx
           Scenario.sys0
           {| participants := [{| p_id := Scenario.adminJid; p_admin := Some "admin" |}] |}
           eq_refl eq_refl eq_refl eq_refl eq_refl eq_refl).
Defined.

(** ** Connection lifecycle: counters, credentials and the welcome *)

Section LifecycleMore.
Import Lifecycle.

Lemma reloadSessions_counts (l : list (string * Mongo.SessionDoc)) (ok : string -> bool)
    (w : World) :
  activeSockets (reloadSessions l ok w) =
    activeSockets w +
    Z.of_nat (length (filter (fun x => is_Some (Mongo.s_creds (snd x))) l)).
Proof.
  revert w. induction l as [| [number session] rest IH]; intros w; simpl; [lia |].
  destruct (Mongo.s_creds session) as [c |] eqn:Hc.
  - rewrite filter_cons_True by (simpl; rewrite Hc; eauto).
    rewrite IH. simpl. rewrite initializeConnection_activeSockets. lia.
  - rewrite filter_cons_False by (simpl; rewrite Hc; by intros [? ?]).
    apply IH.
Qed.

(** X23: on a restart the counter of active sockets grows by one for every
    session that is stored as active with credentials, whether or not a
    socket could be built for it. *)
Theorem reload_counts_every_stored_session (ok : string -> bool) (w : World) :
  Mongo.connected (theDb w) = true -> Mongo.completes 1 (theDb w) = true ->
  activeSockets (reloadExistingSessions ok w) =
    activeSockets w +
    Z.of_nat (length (filter (fun x => is_Some (Mongo.s_creds (snd x)))
                        (activeSessions (theDb w)))).
Proof.
  intros Hc Hf. unfold reloadExistingSessions. rewrite Hc. simpl.
  unfold Mongo.call. unfold Mongo.completes in Hf.
  destruct (Mongo.faults (theDb w)) as [| [|] f] eqn:E; simpl in *; try discriminate;
    rewrite reloadSessions_counts; simpl; try done.
Qed.

Lemma reload_after_pairing :
  Lifecycle.activeSockets
    (Lifecycle.reloadExistingSessions (fun _ => false)
       (Lifecycle.steps Scenario.env0 Scenario.paired (Lifecycle.start Scenario.db0)))
  = 2.
Proof.
  exact (reload_counts_every_stored_session (fun _ => false)
           (Lifecycle.steps Scenario.env0 Scenario.paired (Lifecycle.start Scenario.db0))
           eq_refl eq_refl).
Defined.

(** X24: every [open] of a socket counts: two in a row raise the counter of
    active sockets by two, while the welcome is scheduled at most once. *)
Theorem every_open_is_counted (h : nat) (hs : Handle) (w : World) :
  handles w !! h = Some hs ->
  let opened := {| connection := Some Open; statusCode := None; qr := false |} in
  let w2 := onConnectionUpdate h opened (onConnectionUpdate h opened w) in
  activeSockets w2 = activeSockets w + 2 /\
  timers w2 = timers w ++
    (if hasShownConnectedMessage hs then [] else [(2000, TWelcome h)]) /\
  emitted w2 = emitted w ++
    [StatsUpdate (activeSockets w + 1) (totalUsers w); Linked (h_sessionId hs);
     StatsUpdate (activeSockets w + 2) (totalUsers w); Linked (h_sessionId hs)].
Proof.
  intros Hh. cbv zeta.
  assert (h < length (handles w))%nat as Hlt by (by eapply lookup_lt_Some).
  set (hs1 := {| h_sessionId := h_sessionId hs; h_saveCreds := h_saveCreds hs;
                 hasShownConnectedMessage := true; isLoggedOut := false;
                 reconnectAttempts := 0 |}).
  assert (forall w0 hs0, handles w0 !! h = Some hs0 ->
            onConnectionUpdate h {| connection := Some Open; statusCode := None; qr := false |} w0
            = onOpen h hs0 w0) as Hstep.
  { intros w0 hs0 H0. unfold onConnectionUpdate. by rewrite H0. }
  assert (handles (onOpen h hs w) !! h = Some hs1) as Hh1.
  { unfold onOpen. destruct (hasShownConnectedMessage hs); simpl;
      by rewrite list_lookup_insert_eq. }
  rewrite (Hstep w hs Hh), (Hstep _ hs1 Hh1).
  unfold onOpen. simpl.
  destruct (hasShownConnectedMessage hs); simpl;
    rewrite <- ?app_assoc, ?app_nil_r; simpl;
    (split; [lia |]); (split; [done |]);
    by replace (activeSockets w + 1 + 1) with (activeSockets w + 2) by lia.
Qed.

Lemma two_opens_after_pairing :
  Lifecycle.activeSockets
    (Lifecycle.onConnectionUpdate 0 Scenario.opened
       (Lifecycle.onConnectionUpdate 0 Scenario.opened
          (Lifecycle.steps Scenario.env0 Scenario.pairedOnly (Lifecycle.start Scenario.db0))))
  = 2.
Proof.
  exact (proj1 (every_open_is_counted 0 Scenario.handleBuilt
                  (Lifecycle.steps Scenario.env0 Scenario.pairedOnly
                     (Lifecycle.start Scenario.db0))
                  eq_refl)).
Defined.

(** X25: after a final disconnect that is no logout, with the store up, the
    session cannot be resumed: its record holds no credentials, so that
    [initializeConnection] builds no socket for it. *)
Theorem final_disconnect_prevents_resume (h : nat) (hs : Handle) (code : option Z)
    (ok : bool) (w : World) :
  handles w !! h = Some hs ->
  isLoggedOutCode code = false ->
  MAX_RECONNECT_ATTEMPTS <= reconnectAttempts hs ->
  Mongo.connected (theDb w) = true -> Mongo.completes 1 (theDb w) = true ->
  let w' := onConnectionUpdate h
              {| connection := Some Close; statusCode := code; qr := false |} w in
  snd (Mongo.loadSessionFromMongo (h_sessionId hs) (theDb w')) = None /\
  handles (initializeConnection (h_sessionId hs) ok w') = handles w' /\
  activeConnections (initializeConnection (h_sessionId hs) ok w') !! h_sessionId hs = None.
Proof.
  intros Hh Hcode Hcap Hc Hf.
  destruct (final_disconnect_writes_active_record h hs code w Hh Hcode Hcap Hc Hf)
    as (Hac & doc & Hdoc & _ & Hcreds).
  cbv zeta.
  set (w' := onConnectionUpdate h _ w) in *.
  assert (snd (Mongo.loadSessionFromMongo (h_sessionId hs) (theDb w')) = None) as Hload.
  { unfold Mongo.loadSessionFromMongo, Mongo.call.
    destruct (negb _); [done |].
    destruct (Mongo.faults (theDb w')) as [| [|] f]; simpl; try done;
      rewrite Hdoc, Hcreds; done. }
  split; [exact Hload |].
  unfold initializeConnection.
  destruct (Mongo.loadSessionFromMongo (h_sessionId hs) (theDb w')) as [d [ls |]];
    [discriminate |].
  simpl. done.
Qed.

Lemma no_resume_after_cap :
  snd (Mongo.loadSessionFromMongo Scenario.number0
         (Lifecycle.theDb
            (Lifecycle.steps Scenario.env0 Scenario.capExhausted
               (Lifecycle.start Scenario.db0))))
  = None.
Proof.
  exact (proj1 (final_disconnect_prevents_resume 0 Scenario.handleAtCap (Some 428) true
                  (Lifecycle.steps Scenario.env0 Scenario.threeCloses
                     (Lifecycle.start Scenario.db0))
                  eq_refl eq_refl ltac:(vm_compute; discriminate) eq_refl eq_refl)).
Defined.

(** X26: a [creds.update] whose [saveCreds] completes leaves the credentials of
    the transport in the Session record, from where they are loaded
    again. *)
Theorem creds_update_is_persisted (h : nat) (hs : Handle) (st : Mongo.AuthState)
    (c : Mongo.Creds) (fileOk : bool) (w : World) :
  handles w !! h = Some hs ->
  h_saveCreds hs = MongoAuthState \/ fileOk = true ->
  Mongo.as_creds st = Some c ->
  Mongo.connected (theDb w) = true -> Mongo.faults (theDb w) = [] ->
  snd (Mongo.loadSessionFromMongo (h_sessionId hs) (theDb (onCredsUpdate h st fileOk w)))
  = Some {| Mongo.ls_creds := c; Mongo.ls_authState := Some st; Mongo.ls_settings := JObj [] |}.
Proof.
  intros Hh Hsave Hcreds Hc Hf. unfold onCredsUpdate. rewrite Hh.
  unfold theDb in *. destruct w as [[[cn f t ss us pcs sts] tk tr] cs ac n tu lg hl tm em].
  simpl in *. subst cn f.
  destruct (h_saveCreds hs); [destruct Hsave as [? | ->]; [done |] |];
    unfold onDb, theDb, Mongo.saveSessionToMongo, Mongo.loadSessionFromMongo, Mongo.call;
    simpl; rewrite ?lookup_insert_eq; simpl; rewrite ?lookup_insert_eq; simpl;
    by rewrite Hcreds.
Qed.

Lemma creds_update_after_pairing :
  snd (Mongo.loadSessionFromMongo Scenario.number0
         (Lifecycle.theDb
            (Lifecycle.onCredsUpdate 0 Scenario.auth0 true
               (Lifecycle.steps Scenario.env0 Scenario.pairedOnly
                  (Lifecycle.start Scenario.db0)))))
  = Some {| Mongo.ls_creds := "creds-1"; Mongo.ls_authState := Some Scenario.auth0;
            Mongo.ls_settings := JObj [] |}.
Proof.
  exact (creds_update_is_persisted 0 Scenario.handleBuilt Scenario.auth0 "creds-1" true
           (Lifecycle.steps Scenario.env0 Scenario.pairedOnly (Lifecycle.start Scenario.db0))
           eq_refl (or_intror eq_refl) eq_refl eq_refl eq_refl).
Defined.

(** X27: a pairing request counts a new user exactly when
    [loadSessionFromMongo] returns no session with credentials and the
    local auth state is created; the user is counted before the socket is
    built, so also when it never is.  With the store down, or when the
    read is rejected, a number is counted again although its credentials
    are stored; with the store up and the read completing, a number is
    counted unless its record holds credentials. *)
Theorem pair_counts_a_new_user (number : string) (fileOk versionOk : bool)
    (w : World) :
  number <> "" ->
  let counted := if fileOk then totalUsers w + 1 else totalUsers w in
  let after := totalUsers (pair (Some number) fileOk versionOk w) in
  after =
    match snd (Mongo.loadSessionFromMongo (digitsOnly number) (theDb w)) with
    | Some _ => totalUsers w
    | None => counted
    end /\
  (Mongo.connected (theDb w) = false \/
   (exists rest, Mongo.faults (theDb w) = true :: rest) -> after = counted) /\
  (Mongo.connected (theDb w) = true -> Mongo.completes 1 (theDb w) = true ->
   after =
     match Mongo.sessions (theDb w) !! digitsOnly number ≫= Mongo.s_creds with
     | Some _ => totalUsers w
     | None => counted
     end).
Proof.
  intros Hne counted after.
  assert (after =
            match snd (Mongo.loadSessionFromMongo (digitsOnly number) (theDb w)) with
            | Some _ => totalUsers w
            | None => counted
            end) as Hafter.
  { unfold after, counted. apply String.eqb_neq in Hne. unfold pair. rewrite Hne.
    destruct (Mongo.loadSessionFromMongo (digitsOnly number) (theDb w)) as [d [ls |]]; simpl.
    - unfold pairSocket. by destruct versionOk.
    - destruct fileOk; [| done].
      unfold pairSocket, savePersistentData.
      destruct versionOk; simpl; by destruct (negb _). }
  split; [exact Hafter |]. rewrite Hafter. clear Hafter.
  unfold Mongo.loadSessionFromMongo, Mongo.call, Mongo.completes. split.
  - intros [Hdown | [rest Hrej]].
    + by rewrite Hdown.
    + destruct (Mongo.connected (theDb w)); [| done]. simpl. by rewrite Hrej.
  - intros Hup Hok. rewrite Hup. simpl.
    destruct (Mongo.faults (theDb w)) as [| [|] f]; simpl in *; try discriminate;
      destruct (Mongo.sessions (theDb w) !! digitsOnly number) as [doc |]; simpl; try done;
      by destruct (Mongo.s_creds doc).
Qed.

(** The number of [paired] asks for a pairing code again while the store
    is down: it is counted a second time. *)
Lemma pairing_again_with_store_down :
  Lifecycle.totalUsers
    (Lifecycle.steps Scenario.env0 Scenario.pairedStoreDown (Lifecycle.start Scenario.db0))
  = 1 /\
  Lifecycle.totalUsers
    (Lifecycle.pair (Some Scenario.number0) true true
       (Lifecycle.steps Scenario.env0 Scenario.pairedStoreDown
          (Lifecycle.start Scenario.db0)))
  = 2.
Proof.
  split; [reflexivity |].
  apply (pair_counts_a_new_user Scenario.number0 true true
           (Lifecycle.steps Scenario.env0 Scenario.pairedStoreDown
              (Lifecycle.start Scenario.db0))).
  - discriminate.
  - left. reflexivity.
Defined.

End LifecycleMore.

(** ** Channel subscriptions and routing *)

Lemma append_cons (c : ascii) (x y : string) : String c x +:+ y = String c (x +:+ y).
Proof. reflexivity. Qed.

Lemma append_empty_r (x : string) : x +:+ "" = x.
Proof. induction x as [| c x IH]; [done |]. by rewrite append_cons, IH. Qed.

Lemma append_assoc (x y z : string) : (x +:+ y) +:+ z = x +:+ (y +:+ z).
Proof. induction x as [| c x IH]; [done |]. by rewrite !append_cons, IH. Qed.

Lemma rev_app_append (x y : string) : String.rev_app x y = String.rev x +:+ y.
Proof.
  unfold String.rev. revert y. induction x as [| c x IH]; intros y; [done |].
  cbn [String.rev_app]. rewrite (IH (String c y)), (IH (String c "")).
  by rewrite append_assoc.
Qed.

Lemma rev_append (x y : string) : String.rev (x +:+ y) = String.rev y +:+ String.rev x.
Proof.
  induction x as [| c x IH].
  - change ("" +:+ y) with y. by rewrite append_empty_r.
  - rewrite append_cons. unfold String.rev at 1 3. cbn [String.rev_app].
    rewrite !rev_app_append, IH. by rewrite append_assoc.
Qed.

Lemma startsWith_append (p r : string) : Js.startsWith (p +:+ r) p = true.
Proof.
  induction p as [| c p IH]; [by destruct r |].
  rewrite append_cons. cbn [Js.startsWith]. by rewrite Ascii.eqb_refl.
Qed.

(** A string ends with what was appended to it. *)
Lemma endsWith_append (x y : string) : Js.endsWith (x +:+ y) y = true.
Proof. unfold Js.endsWith. rewrite rev_append. apply startsWith_append. Qed.

Section Channels.
Import Lifecycle.

(** A round of the loop never rejects: it issues the follow request of the
    socket, or the presence update when the socket has no follow method;
    when that request is rejected it issues the presence update as a
    fallback; the channel counts as followed unless both are rejected. *)
Lemma subscribeToChannel_round (conn : Conn) (jid : string) (s : Sys) :
  let first :=
    match followMethod conn with
    | Some method => AFollow method jid
    | None => ASendPresenceUpdate jid
    end in
  let rejected1 := request_fails conn (tick s) in
  let rejected2 := request_fails conn (S (tick s)) in
  subscribeToChannel conn jid s =
    ({| db := db s;
        tick := if rejected1 then S (S (tick s)) else S (tick s);
        trace := trace s ++ first :: (if rejected1 then [ASendPresenceUpdate jid] else []) |},
     Ok (negb (rejected1 && rejected2))).
Proof.
  unfold subscribeToChannel, catch, bind, request, ret.
  destruct (followMethod conn); simpl;
    destruct (request_fails conn (tick s)); simpl;
    try destruct (request_fails conn (S (tick s))); simpl;
    by rewrite <- ?app_assoc.
Qed.

Lemma subscribeAll_total (conn : Conn) (jids : list string) (s : Sys) :
  exists (s' : Sys) (results : list bool),
    subscribeAll conn jids s = (s', Ok results) /\
    length results = length jids /\ db s' = db s.
Proof.
  revert s. induction jids as [| jid rest IH]; intros s.
  - by exists s, [].
  - cbn [subscribeAll]. unfold bind. rewrite subscribeToChannel_round.
    destruct (IH {| db := db s;
                    tick := if request_fails conn (tick s) then S (S (tick s))
                            else S (tick s);
                    trace := trace s ++
                      match followMethod conn with
                      | Some method => AFollow method jid
                      | None => ASendPresenceUpdate jid
                      end :: (if request_fails conn (tick s)
                              then [ASendPresenceUpdate jid] else []) |})
      as (s' & results & H & Hlen & Hdb).
    rewrite H. eexists _, _. split; [reflexivity |]. simpl. by rewrite Hlen.
Qed.

Lemma subscribeAll_app (conn : Conn) (l1 l2 : list string) (s s1 s' : Sys)
    (r1 r2 : list bool) :
  subscribeAll conn l1 s = (s1, Ok r1) ->
  subscribeAll conn l2 s1 = (s', Ok r2) ->
  subscribeAll conn (l1 ++ l2) s = (s', Ok (r1 ++ r2)).
Proof.
  revert s r1. induction l1 as [| jid l1 IH]; intros s r1 H1 H2.
  - injection H1 as <- <-. done.
  - cbn [subscribeAll app] in *. unfold bind in *.
    rewrite subscribeToChannel_round in *.
    destruct (subscribeAll_total conn l1
                {| db := db s;
                   tick := if request_fails conn (tick s) then S (S (tick s))
                           else S (tick s);
                   trace := trace s ++
                     match followMethod conn with
                     | Some method => AFollow method jid
                     | None => ASendPresenceUpdate jid
                     end :: (if request_fails conn (tick s)
                             then [ASendPresenceUpdate jid] else []) |})
      as (sa & ra & Ha & _ & _).
    rewrite Ha in H1. injection H1 as <- <-.
    by rewrite (IH _ _ Ha H2).
Qed.

(** X28: every channel of the list gets its round, whatever happened to the
    channels before it, and the subscription never rejects.  The round of
    [jid] starts where the channels before it ended; it issues the follow
    request of the socket, or the presence update when the socket has no
    follow method, and, if and only if that request is rejected, the
    presence update as a fallback: one request or two.  The result of the
    channel is true unless both requests are rejected.  The loop then goes
    on with the channels after it, and the store is never touched. *)
Theorem subscription_tries_every_channel (conn : Conn) (before : list string)
    (jid : string) (after : list string) (s : Sys) :
  exists (s1 : Sys) (r1 : list bool) (s' : Sys) (r2 : list bool),
    subscribeAll conn before s = (s1, Ok r1) /\ length r1 = length before /\
    let first :=
      match followMethod conn with
      | Some method => AFollow method jid
      | None => ASendPresenceUpdate jid
      end in
    let rejected1 := request_fails conn (tick s1) in
    let rejected2 := request_fails conn (S (tick s1)) in
    let s2 :=
      {| db := db s;
         tick := if rejected1 then S (S (tick s1)) else S (tick s1);
         trace := trace s1 ++
                  first :: (if rejected1 then [ASendPresenceUpdate jid] else []) |} in
    subscribeAll conn after s2 = (s', Ok r2) /\ length r2 = length after /\
    subscribeAll conn (before ++ jid :: after) s
      = (s', Ok (r1 ++ negb (rejected1 && rejected2) :: r2)) /\
    db s' = db s.
Proof.
  destruct (subscribeAll_total conn before s) as (s1 & r1 & H1 & Hlen1 & Hdb1).
  exists s1, r1.
  destruct (subscribeAll_total conn after
              {| db := db s;
                 tick := if request_fails conn (tick s1) then S (S (tick s1))
                         else S (tick s1);
                 trace := trace s1 ++
                   match followMethod conn with
                   | Some method => AFollow method jid
                   | None => ASendPresenceUpdate jid
                   end :: (if request_fails conn (tick s1)
                           then [ASendPresenceUpdate jid] else []) |})
    as (s' & r2 & H2 & Hlen2 & Hdb2).
  exists s', r2. cbv zeta.
  split; [exact H1 |]. split; [exact Hlen1 |].
  split; [exact H2 |]. split; [exact Hlen2 |].
  split; [| exact Hdb2].
  apply (subscribeAll_app conn before (jid :: after) s s1 s' r1 _ H1).
  cbn [subscribeAll]. unfold bind. rewrite subscribeToChannel_round, Hdb1, H2.
  reflexivity.
Qed.

(** X29: when no variable [CHANNEL_JIDS] is declared, the welcome stops at the
    subscription: nothing is requested from the transport, and the
    callback of the timer ends without an error. *)
Theorem welcome_without_channel_list (env : Env) (conn : Conn) (sessionId : string) (s : Sys) :
  CHANNEL_JIDS env = None ->
  welcome env conn sessionId s =
    ({| db := fst (Mongo.loadUserSettingsFromMongo env sessionId (db s));
        tick := tick s; trace := trace s |}, Ok tt).
Proof.
  intros H. unfold welcome, catch, bind. rewrite load_settings_quiet.
  unfold subscribeToChannels. by rewrite H.
Qed.

Lemma welcome_of_paired_session_sends_nothing :
  Lifecycle.welcome Scenario.env0 Scenario.conn0 Scenario.number0 Scenario.sys0
  = ({| db := Scenario.db0; tick := 0; trace := [] |}, Ok tt).
Proof.
  exact (welcome_without_channel_list Scenario.env0 Scenario.conn0 Scenario.number0
           Scenario.sys0 eq_refl).
Defined.

(** X30: the first listener leaves alone a message that is not the account's
    own and comes from a chat that is neither a newsletter, a group nor a
    private chat, such as the status of a contact: it does nothing at all,
    whatever the text. *)
Theorem other_chats_are_not_dispatched (env : Env) (commands : gmap string Descriptor) (conn : Conn)
    (msg : Message) (sessionId : string) (s : Sys) :
  let botJid :=
    if Js.includes (user_id conn) ":"
    then Js.split0 ":" (user_id conn) +:+ "@s.whatsapp.net" else user_id conn in
  fromMe (key msg) = false ->
  participant (key msg) <> Some botJid ->
  user_id conn <> remoteJid (key msg) ->
  Js.endsWith (remoteJid (key msg)) "@newsletter" = false ->
  Js.endsWith (remoteJid (key msg)) "@g.us" = false ->
  Js.endsWith (remoteJid (key msg)) "@s.whatsapp.net" = false ->
  onMessage env commands conn msg sessionId s = (s, Ok tt).
Proof.
  intros botJid Hme Hp Hbot Hnl Hg Hpriv. unfold onMessage. fold botJid.
  rewrite Hme, Hnl, Hg, Hpriv. simpl.
  assert (String.eqb (remoteJid (key msg)) botJid = false) as ->.
  { apply String.eqb_neq. intros E. unfold botJid in E.
    destruct (Js.includes (user_id conn) ":"); [| congruence].
    rewrite E, endsWith_append in Hpriv. discriminate. }
  rewrite andb_false_r.
  destruct (participant (key msg)) as [p |]; [| done].
  destruct (String.eqb p botJid) eqn:E; [| by rewrite andb_false_r].
  apply String.eqb_eq in E. congruence.
Qed.

Lemma status_of_contact_is_not_dispatched :
  Lifecycle.onMessage Scenario.env0 Scenario.menuRegistry Scenario.conn0
    Scenario.statusMessage Scenario.number0 Scenario.sys0
  = (Scenario.sys0, Ok tt).
Proof.
  apply (other_chats_are_not_dispatched Scenario.env0 Scenario.menuRegistry Scenario.conn0
           Scenario.statusMessage Scenario.number0 Scenario.sys0);
    [reflexivity | discriminate | discriminate | reflexivity ..].
Defined.

End Channels.
